(** * paros-tools: query construction and result normalisation

    A shallow embedding of [get-paros-data.py]: the Flux filter and query
    builder, the data-frame normaliser [processInfluxDF], the credential
    loader [loadInfluxClient] and the export dispatch at the end of [main],
    followed by the properties the specification states about them; then
    the setup tool [influxdb-setup.py], the splitting of the response and
    [main] as a whole, with further properties of the code. *)

From Stdlib Require Import ZArith QArith Qpower Ascii SpecFloat.
From Stdlib Require Import DecimalString.
From stdpp Require Import base option list strings gmap.
From stdpp Require Import sorting.

Local Open Scope Z_scope.

(** ** Python strings *)

Module PyStr.

(** The double-quote character, which the f-strings of the script emit. *)
Definition dq : string := String (ascii_of_nat 34) EmptyString.
Definition nl : string := String (ascii_of_nat 10) EmptyString.
Definition tab : string := String (ascii_of_nat 9) EmptyString.

Definition comma : ascii := ascii_of_nat 44.
Definition dot : ascii := ascii_of_nat 46.
Definition slash : ascii := ascii_of_nat 47.

(** [c in s] for a one-character needle. *)
Fixpoint contains (c : ascii) (s : string) : bool :=
  match s with
  | EmptyString => false
  | String a s' => if Ascii.eqb a c then true else contains c s'
  end.

(** [s.split(c)]: every occurrence of the separator cuts; empty pieces are
    kept, and the empty string splits into one empty piece. *)
Fixpoint split (c : ascii) (s : string) : list string :=
  match s with
  | EmptyString => [EmptyString]
  | String a s' =>
      if Ascii.eqb a c then EmptyString :: split c s'
      else match split c s' with
           | w :: ws => String a w :: ws
           | [] => [String a EmptyString]
           end
  end.

(** [sep.join(l)]. *)
Fixpoint join (sep : string) (l : list string) : string :=
  match l with
  | [] => EmptyString
  | [x] => x
  | x :: xs => x +:+ sep +:+ join sep xs
  end.

(** Truthiness of a string: [if s:]. *)
Definition truthy (s : string) : bool :=
  match s with EmptyString => false | _ => true end.

(** [str(n)] for an integer. *)
Definition of_Z (n : Z) : string := NilEmpty.string_of_int (Z.to_int n).

(** ["%0<w>d" % n] for a non-negative [n]. *)
Fixpoint zeros (k : nat) : string :=
  match k with O => EmptyString | S k' => String "0"%char (zeros k') end.
Definition pad0 (w : nat) (n : Z) : string :=
  let s := NilEmpty.string_of_uint (N.to_uint (Z.to_N n)) in
  zeros (w - String.length s) +:+ s.

End PyStr.

(** ** Flux filter clauses *)

Module Flux.
Import PyStr.

(** The equality predicate of one value: [f'r["{col_name}"] == "{i}"']. *)
Definition predicate (col_name i : string) : string :=
  "r[" +:+ dq +:+ col_name +:+ dq +:+ "] == " +:+ dq +:+ i +:+ dq.

(** [createFluxFilters(col_name, in_str)]; [None] is Python's [None], the
    value argparse gives an option that was not passed. *)
Definition createFluxFilters (col_name : string) (in_str : option string) : string :=
  match in_str with
  | None => EmptyString
  | Some s =>
      let in_list := if contains comma s then split comma s else [s] in
      let filter_list := map (predicate col_name) in_list in
      let filter_list_str := join " or " filter_list in
      if (0 <? length filter_list)%nat
      then "|> filter(fn: (r) => " +:+ filter_list_str +:+ ")"
      else EmptyString
  end.

End Flux.

(** ** Calendar arithmetic of [datetime] *)

Module PyTime.
Import PyStr.

(** The fields of a [datetime], without its [tzinfo]. *)
Record naive := mkNaive {
  year : Z; month : Z; day : Z;
  hour : Z; minute : Z; second : Z; microsecond : Z }.

(** A fixed-offset [tzinfo] as attached to an aware [datetime]:
    its name and its [utcoffset()] in seconds. *)
Record tzinfo := mkTz { tzname : string; utcoffset : Z }.

Definition utc : tzinfo := mkTz "UTC" 0.

(** A [datetime] value: naive when the second component is [None]. *)
Definition datetime : Type := naive * option tzinfo.
Definition aware : Type := naive * tzinfo.

(** A zone of the time-zone database. [wall_offset] is the offset in
    seconds that pytz's [localize] (with its default [is_dst=False])
    picks for a wall-clock time; [instant_offset] is the offset in
    nanoseconds in force at a UTC instant given in nanoseconds since
    the epoch, as pandas uses it in [tz_convert]/[tz_localize(None)]. *)
Record zoneinfo := mkZone {
  zone_name : string;
  wall_offset : naive -> Z;
  instant_offset : Z -> Z }.

Definition is_leap (y : Z) : bool :=
  (y mod 4 =? 0) && (negb (y mod 100 =? 0) || (y mod 400 =? 0)).

Definition DAYS_IN_MONTH : list Z :=
  [-1; 31; 28; 31; 30; 31; 30; 31; 31; 30; 31; 30; 31].

Definition DAYS_BEFORE_MONTH : list Z :=
  [-1; 0; 31; 59; 90; 120; 151; 181; 212; 243; 273; 304; 334].

Definition table (t : list Z) (m : Z) : Z := nth (Z.to_nat m) t (-1).

Definition days_before_year (y : Z) : Z :=
  let y1 := y - 1 in y1 * 365 + y1 / 4 - y1 / 100 + y1 / 400.

Definition days_in_month (y m : Z) : Z :=
  if (m =? 2) && is_leap y then 29 else table DAYS_IN_MONTH m.

Definition days_before_month (y m : Z) : Z :=
  table DAYS_BEFORE_MONTH m + (if (2 <? m) && is_leap y then 1 else 0).

Definition ymd2ord (y m d : Z) : Z :=
  days_before_year y + days_before_month y m + d.

Definition DI400Y : Z := 146097.
Definition DI100Y : Z := 36524.
Definition DI4Y : Z := 1461.
Definition MAXORDINAL : Z := 3652059.

(** [_ord2ymd(n)]: the date of proleptic Gregorian ordinal [n]. *)
Definition ord2ymd (n : Z) : Z * Z * Z :=
  let n := n - 1 in
  let n400 := n / DI400Y in let n := n mod DI400Y in
  let y := n400 * 400 + 1 in
  let n100 := n / DI100Y in let n := n mod DI100Y in
  let n4 := n / DI4Y in let n := n mod DI4Y in
  let n1 := n / 365 in let n := n mod 365 in
  let y := y + n100 * 100 + n4 * 4 + n1 in
  if (n1 =? 4) || (n100 =? 4) then (y - 1, 12, 31)
  else
    let leapyear := (n1 =? 3) && (negb (n4 =? 24) || (n100 =? 3)) in
    let m := Z.shiftr (n + 50) 5 in
    let preceding :=
      table DAYS_BEFORE_MONTH m + (if (2 <? m) && leapyear then 1 else 0) in
    if n <? preceding then
      let m := m - 1 in
      let preceding :=
        preceding
        - (table DAYS_IN_MONTH m + (if (m =? 2) && leapyear then 1 else 0)) in
      (y, m, n - preceding + 1)
    else (y, m, n - preceding + 1).

Definition toordinal (t : naive) : Z := ymd2ord (year t) (month t) (day t).

(** Microseconds from ordinal day 0 to [t]; the sum [datetime.__add__]
    forms as a [timedelta] before it adds the other operand. *)
Definition to_micros (t : naive) : Z :=
  ((toordinal t * 86400 + hour t * 3600 + minute t * 60 + second t)
   * 1000000) + microsecond t.

(** [t + timedelta(seconds = delta)]; [None] is the [OverflowError] of a
    date outside years 1..9999. *)
Definition add_seconds (t : naive) (delta : Z) : option naive :=
  let total := to_micros t + delta * 1000000 in
  let days := total / 86400000000 in
  let rest := total mod 86400000000 in
  let secs := rest / 1000000 in
  let us := rest mod 1000000 in
  if (0 <? days) && (days <=? MAXORDINAL) then
    let '(y, m, d) := ord2ymd days in
    Some (mkNaive y m d (secs / 3600) ((secs mod 3600) / 60)
                  ((secs mod 3600) mod 60) us)
  else None.

(** [t.isoformat()] of a naive [datetime]: the microseconds are printed
    only when they are not zero. *)
Definition isoformat (t : naive) : string :=
  pad0 4 (year t) +:+ "-" +:+ pad0 2 (month t) +:+ "-" +:+ pad0 2 (day t)
  +:+ "T" +:+ pad0 2 (hour t) +:+ ":" +:+ pad0 2 (minute t)
  +:+ ":" +:+ pad0 2 (second t)
  +:+ (if microsecond t =? 0 then EmptyString
       else "." +:+ pad0 6 (microsecond t)).

End PyTime.

(** ** Effects: printed lines, written files, exceptions and exits *)

Module Py.

Inductive exc :=
| KeyError (key : string)
| IndexError
| AttributeError
| TypeError
| ValueError
| OverflowError
| UnknownTimeZoneError (name : string)
| UnpicklingError
| OutOfBoundsDatetime.

(** How a call ends: it returns, an exception propagates (and, uncaught,
    ends the process with a traceback), or [exit(code)] ends the
    process. *)
Inductive outcome (A : Type) :=
| Return (a : A)
| Raise (e : exc)
| Exit (code : Z).
Arguments Return {A} a.
Arguments Raise {A} e.
Arguments Exit {A} code.

Section Events.
(** [P] is what a written file holds. *)
Context {P : Type}.

Inductive event :=
| Print (line : string)
| WriteFile (path : string) (payload : P).

(** A computation: the events it caused, in order, and how it ended. *)
Definition M (A : Type) : Type := list event * outcome A.

Definition ret {A} (a : A) : M A := ([], Return a).
Definition raise {A} (e : exc) : M A := ([], Raise e).
Definition exit {A} (code : Z) : M A := ([], Exit code).
Definition print (line : string) : M unit := ([Print line], Return tt).
Definition write (path : string) (payload : P) : M unit :=
  ([WriteFile path payload], Return tt).

Definition bind {A B} (m : M A) (f : A -> M B) : M B :=
  match m with
  | (ev, Return a) => let '(ev', r) := f a in (ev ++ ev', r)
  | (ev, Raise e) => (ev, Raise e)
  | (ev, Exit c) => (ev, Exit c)
  end.

(** [for x in l: body(x)]. *)
Fixpoint for_each {A} (l : list A) (body : A -> M unit) : M unit :=
  match l with
  | [] => ret tt
  | x :: l' => bind (body x) (fun _ => for_each l' body)
  end.

(** [acc] threaded through [for x in l: acc = step(acc, x)]. *)
Fixpoint fold_for {A S} (l : list A) (acc : S) (step : S -> A -> M S) : M S :=
  match l with
  | [] => ret acc
  | x :: l' => bind (step acc x) (fun acc' => fold_for l' acc' step)
  end.

(** An optional value that raises when it is missing. *)
Definition or_raise {A} (o : option A) (e : exc) : M A :=
  match o with Some a => ret a | None => raise e end.
End Events.
Arguments event P : clear implicits.
Arguments M P A : clear implicits.

Definition printed {P} (ev : list (event P)) : list string :=
  omap (fun e => match e with Print l => Some l | _ => None end) ev.

Definition written {P} (ev : list (event P)) : list (string * P) :=
  omap (fun e => match e with WriteFile p c => Some (p, c) | _ => None end) ev.

End Py.

Notation "'do' x <- m ; k" := (Py.bind m (fun x => k))
  (at level 10, x name, m at level 100, k at level 200,
   format "'[v' 'do'  x  <-  m ; '/' k ']'").
Notation "'do' ' p <- m ; k" := (Py.bind m (fun x => let p := x in k))
  (at level 10, p strict pattern, m at level 100, k at level 200,
   format "'[v' 'do'  ' p  <-  m ; '/' k ']'").
Notation "'run' m ; k" := (Py.bind m (fun _ => k))
  (at level 10, m at level 100, k at level 200,
   format "'[v' 'run'  m ; '/' k ']'").

(** ** Data frames *)

Module Frame.
Import PyStr PyTime Py.

(** IEEE-754 binary64, as the standard library specifies it. *)
Definition float64 : Type := spec_float.
Definition of_int64 (n : Z) : float64 := binary_normalize 53 1024 n 0 false.
Definition fdiv (x y : float64) : float64 := SFdiv 53 1024 x y.

(** pandas keeps a datetime or a timedelta as int64 nanoseconds; the
    least int64 is NaT, the missing value, and the others are times. *)
Definition NaT : Z := -9223372036854775808.
Definition INT64_MAX : Z := 9223372036854775807.

Definition in_bounds (ns : Z) : bool := (NaT <? ns) && (ns <=? INT64_MAX).

(** A column with its dtype. Datetime columns hold int64 nanoseconds:
    instants since the epoch for a tz-aware column, which carries its
    zone, and wall-clock nanoseconds since 1970-01-01T00:00:00 for a
    naive one. *)
Inductive column :=
| ColObject (vals : list string)
| ColInt (vals : list Z)
| ColFloat (vals : list float64)
| ColDatetimeTz (tz : zoneinfo) (vals : list Z)
| ColDatetime (vals : list Z)
| ColTimedelta (vals : list Z).

Inductive scalar :=
| SStr (s : string)
| SInt (n : Z)
| SFloat (x : float64)
| STimestampTz (tz : zoneinfo) (ns : Z)
| STimestamp (ns : Z)
| STimedelta (ns : Z).

(** A frame: its labelled columns, left to right. The row index is the
    default positional one. *)
Abbreviation DataFrame := (list (string * column)).

(** What the script takes from the libraries it imports and does not
    define itself. *)
Record Lib := mkLib {
  (** [datetime.fromisoformat]; [None] is its [ValueError]. *)
  fromisoformat : string -> option datetime;
  (** [pytz.timezone]; [None] is its [UnknownTimeZoneError]. *)
  timezone : string -> option zoneinfo;
  (** The zone pandas resolves a name to in [tz_convert], with its own
      lookup, which need not know the names pytz knows. *)
  pandas_zone : string -> option zoneinfo;
  (** [str(x)] of a scalar that is neither a string nor an integer. *)
  repr_scalar : scalar -> string;
  (** [str(row)] of a row of several columns. *)
  repr_row : list scalar -> string }.

Definition col_len (c : column) : nat :=
  match c with
  | ColObject v => length v
  | ColInt v | ColDatetimeTz _ v | ColDatetime v | ColTimedelta v => length v
  | ColFloat v => length v
  end.

(** [series.iloc[0]]; [None] is the [IndexError] of an empty series. *)
Definition col_head (c : column) : option scalar :=
  match c with
  | ColObject v => SStr <$> head v
  | ColInt v => SInt <$> head v
  | ColFloat v => SFloat <$> head v
  | ColDatetimeTz tz v => STimestampTz tz <$> head v
  | ColDatetime v => STimestamp <$> head v
  | ColTimedelta v => STimedelta <$> head v
  end.

Definition labels (df : DataFrame) : list string := df.*1.

(** [label in df]. *)
Definition has_label (df : DataFrame) (label : string) : bool :=
  bool_decide (label ∈ labels df).

(** The columns that [df[label]] selects. *)
Definition select (df : DataFrame) (label : string) : list column :=
  (filter (fun c => c.1 = label) df).*2.

(** [df.drop(columns=names)]: every name must be a label. *)
Definition drop (df : DataFrame) (names : list string) : exc + DataFrame :=
  match filter (fun n => n ∉ labels df) names with
  | missing :: _ => inl (KeyError missing)
  | [] => inr (filter (fun c => c.1 ∉ names) df)
  end.

(** [df.rename(columns={old: new})]. *)
Definition rename (df : DataFrame) (old new : string) : DataFrame :=
  map (fun c => if decide (c.1 = old) then (new, c.2) else c) df.

(** [df[label] = col]: an existing column is replaced where it stands,
    a new one is appended. *)
Definition setitem (df : DataFrame) (label : string) (col : column) : DataFrame :=
  if has_label df label
  then map (fun c => if decide (c.1 = label) then (label, col) else c) df
  else df ++ [(label, col)].

(** [pd.Series(l).unique()]: the distinct values in order of first
    appearance. *)
Definition unique {A} `{EqDecision A} (l : list A) : list A :=
  fold_left (fun seen x => if decide (x ∈ seen) then seen else seen ++ [x]) l [].

Section WithLib.
Context (L : Lib) {P : Type}.

(** [str(x)], as an f-string formats a scalar. *)
Definition py_str (x : scalar) : string :=
  match x with
  | SStr s => s
  | SInt n => of_Z n
  | _ => repr_scalar L x
  end.

(** [df[label].iloc[0]] formatted by an f-string. *)
Definition first_str (df : DataFrame) (label : string) : M P string :=
  match select df label with
  | [] => raise (KeyError label)
  | [c] => do x <- or_raise (col_head c) IndexError; ret (py_str x)
  | cs => do row <- or_raise (mapM col_head cs) IndexError; ret (repr_row L row)
  end.

(** [df[label]] where a series is expected: several columns under
    one label make a frame, which has no [.dt]. *)
Definition series (df : DataFrame) (label : string) : M P column :=
  match select df label with
  | [] => raise (KeyError label)
  | [c] => ret c
  | _ => raise AttributeError
  end.

Definition lift {A} (r : exc + A) : M P A :=
  match r with inl e => raise e | inr a => ret a end.

(** [s.dt.tz_convert(tz)] for a zone given by name: the instants stay,
    the zone changes. A naive column is refused. *)
Definition dt_tz_convert (s : column) (tz : string) : M P column :=
  match s with
  | ColDatetimeTz _ v =>
      do z <- or_raise (pandas_zone L tz) (UnknownTimeZoneError tz);
      ret (ColDatetimeTz z v)
  | ColDatetime _ =>
      do _ <- or_raise (pandas_zone L tz) (UnknownTimeZoneError tz);
      raise TypeError
  | _ => raise AttributeError
  end.

(** The wall-clock time in zone [z] at an instant; NaT stays NaT. *)
Definition local_time (z : zoneinfo) (t : Z) : Z :=
  if t =? NaT then NaT else t + instant_offset z t.

(** [s.dt.tz_localize(None)]: the wall-clock time in the column's zone.
    A wall-clock time that leaves int64 is refused. *)
Definition dt_tz_localize_none (s : column) : M P column :=
  match s with
  | ColDatetimeTz z v =>
      if forallb (fun t => (t =? NaT) || in_bounds (t + instant_offset z t)) v
      then ret (ColDatetime (map (local_time z) v))
      else raise OutOfBoundsDatetime
  | ColDatetime v => ret (ColDatetime v)
  | _ => raise AttributeError
  end.

(** [s - pd.Timestamp(...)] for a naive timestamp given in nanoseconds;
    NaT stays NaT. The script subtracts the epoch only, which is 0 and
    moves no time out of int64. *)
Definition sub_timestamp (s : column) (ts : Z) : M P column :=
  match s with
  | ColDatetime v =>
      ret (ColTimedelta (map (fun t => if t =? NaT then NaT else t - ts) v))
  | _ => raise TypeError
  end.

(** [s / pd.Timedelta(...)]: both operands go to binary64 and are
    divided there; NaT gives NaN. *)
Definition div_timedelta (s : column) (unit_ns : Z) : M P column :=
  match s with
  | ColTimedelta v =>
      ret (ColFloat (map (fun d => if d =? NaT then S754_nan
                                   else fdiv (of_int64 d) (of_int64 unit_ns)) v))
  | _ => raise TypeError
  end.

Definition WARNING : string :=
  "WARNING: Some anemometer values were recorded with an error code".

Definition processInfluxDF (df : DataFrame) (output_tz : string)
  : M P (string * DataFrame) :=
  do cur_box <- first_str df "_measurement";
  do cur_id <- first_str df "id";
  let id_str := cur_box +:+ "_" +:+ cur_id in
  do out_df <- lift (drop df ["result"; "table"; "_measurement"; "id"]);
  do out_df <-
    (if has_label out_df "baro_time"
     then lift (drop out_df ["baro_time"])
     else ret out_df);
  do out_df <-
    (if has_label out_df "err"
     then
       let err_list := unique (String.list_ascii_of_string "err") in
       run (if (1 <? length err_list)%nat then print WARNING else ret tt);
       lift (drop out_df ["err"])
     else ret out_df);
  let out_df := rename out_df "_time" "time" in
  do t <- series out_df "time";
  do t <- dt_tz_convert t output_tz;
  let out_df := setitem out_df "time" t in
  do t <- series out_df "time";
  do t <- dt_tz_localize_none t;
  let out_df := setitem out_df "time" t in
  do t <- series out_df "time";
  do d <- sub_timestamp t 0;
  do t <- div_timedelta d 1000000000;
  let out_df := setitem out_df "time" t in
  ret (id_str, out_df).

End WithLib.

End Frame.

(** ** The query text built by [main] *)

Module Query.
Import PyStr PyTime Py Frame Flux.

(** The parsed command line ([cliArguments]). *)
Record Args := mkArgs {
  start_time : string;
  end_time : string;
  output_file : string;
  box_id : option string;
  sensor_id : option string;
  bucket : string;
  input_zone : string;
  output_zone : string;
  creds : string }.

Section WithLib.
Context (L : Lib) {P : Type}.

(** [tz.localize(dt)] of pytz: only a naive [dt] is accepted. *)
Definition localize (tz : zoneinfo) (dt : datetime) : M P aware :=
  match dt with
  | (t, None) => ret (t, mkTz (zone_name tz) (wall_offset tz t))
  | (_, Some _) => raise ValueError
  end.

(** [dt.astimezone(datetime.timezone.utc)] of an aware [dt]. *)
Definition astimezone_utc (dt : aware) : M P aware :=
  do t <- or_raise (add_seconds dt.1 (- utcoffset dt.2)) OverflowError;
  ret (t, utc).

(** [dt.replace(tzinfo=None)]. *)
Definition replace_tzinfo_none (dt : aware) : naive := dt.1.

(** One time argument of [main], from its text to the naive UTC time
    that goes into the query. *)
Definition utc_naive (input_tz : zoneinfo) (text : string) : M P naive :=
  do t <- or_raise (fromisoformat L text) ValueError;
  do t <- localize input_tz t;
  do t <- astimezone_utc t;
  ret (replace_tzinfo_none t).

Definition range_stage (start_utc end_utc : naive) : string :=
  "|> range(start: " +:+ isoformat start_utc +:+ "Z, stop: "
  +:+ isoformat end_utc +:+ "Z)".

Definition indent : string := "        ".

(** Lines 113 to 140 of [main]: the zones, the two times, the filters,
    and the query text. *)
Definition build_query (args : Args) : M P string :=
  do input_tz <- or_raise (timezone L (input_zone args))
                          (UnknownTimeZoneError (input_zone args));
  do output_tz <- or_raise (timezone L (output_zone args))
                           (UnknownTimeZoneError (output_zone args));
  do start <- utc_naive input_tz (start_time args);
  do stop <- utc_naive input_tz (end_time args);
  let box_filters := createFluxFilters "_measurement" (box_id args) in
  let sensor_filters := createFluxFilters "id" (sensor_id args) in
  let idb_query :=
    "from(bucket: " +:+ dq +:+ bucket args +:+ dq +:+ ")" +:+ nl
    +:+ indent +:+ range_stage start stop +:+ nl in
  let idb_query :=
    if truthy box_filters
    then idb_query +:+ tab +:+ box_filters +:+ nl else idb_query in
  let idb_query :=
    if truthy sensor_filters
    then idb_query +:+ tab +:+ sensor_filters +:+ nl else idb_query in
  ret (idb_query +:+ tab +:+ "|> drop(columns: [" +:+ dq +:+ "_start" +:+ dq
       +:+ ", " +:+ dq +:+ "_stop" +:+ dq +:+ "])" +:+ nl
       +:+ indent +:+ "|> pivot(rowKey:[" +:+ dq +:+ "_time" +:+ dq
       +:+ "], columnKey: [" +:+ dq +:+ "_field" +:+ dq
       +:+ "], valueColumn: " +:+ dq +:+ "_value" +:+ dq +:+ ")").

End WithLib.

End Query.

(** ** Credentials *)

Module Creds.
Import Py.

(** What a path of the file system names. A regular file either
    unpickles to a dictionary of strings or does not. *)
Inductive node :=
| Directory
| PickledDict (d : gmap string string)
| OtherFile.

Abbreviation filesystem := (gmap string node).

(** [os.path.isfile(path)] *)
Definition isfile (fs : filesystem) (path : string) : bool :=
  match fs !! path with
  | Some (PickledDict _) | Some OtherFile => true
  | Some Directory | None => false
  end.

(** The arguments [InfluxDBClient] is constructed with. *)
Record InfluxDBClient := mkClient {
  url : string; token : string; org : string; timeout : Z }.

Definition NOT_FOUND : string :=
  "InfluxDB credentials file not found. Run influxdb-setup.py to generate one.".

Section WithPayload.
Context {P : Type}.

(** [pickle.load(f)] of an open regular file. *)
Definition pickle_load (fs : filesystem) (path : string)
  : M P (gmap string string) :=
  match fs !! path with
  | Some (PickledDict d) => ret d
  | _ => raise UnpicklingError
  end.

(** [d[key]] *)
Definition subscript (d : gmap string string) (key : string) : M P string :=
  or_raise (d !! key) (KeyError key).

Definition loadInfluxClient (fs : filesystem) (pickle_path : string)
  : M P InfluxDBClient :=
  if isfile fs pickle_path then
    do influx_dict <- pickle_load fs pickle_path;
    do u <- subscript influx_dict "idb_url";
    do t <- subscript influx_dict "idb_token";
    do o <- subscript influx_dict "idb_org";
    ret (mkClient u t o 100000000)
  else
    run print NOT_FOUND;
    exit 1.
End WithPayload.

End Creds.

(** ** The output bundle and its export *)

Module Exporter.
Import PyStr Py Frame.

(** A Python [dict] keeps its keys in insertion order; assigning to a
    key that is present replaces the value and leaves the key where it
    is. *)
Abbreviation Bundle := (list (string * DataFrame)).

Fixpoint dict_set (d : Bundle) (k : string) (v : DataFrame) : Bundle :=
  match d with
  | [] => [(k, v)]
  | (k', v') :: d' =>
      if decide (k' = k) then (k, v) :: d' else (k', v') :: dict_set d' k v
  end.

Fixpoint dict_get (d : Bundle) (k : string) : option DataFrame :=
  match d with
  | [] => None
  | (k', v') :: d' => if decide (k' = k) then Some v' else dict_get d' k
  end.

(** What an exported file holds. *)
Inductive payload :=
| Csv (df : DataFrame)
| Mat (arrays : list (string * DataFrame))
| Pickle (d : Bundle).

(** [s.rfind(c)], with -1 when [c] does not occur. *)
Fixpoint rfind_from (c : ascii) (s : string) (i : Z) (found : Z) : Z :=
  match s with
  | EmptyString => found
  | String a s' => rfind_from c s' (i + 1) (if Ascii.eqb a c then i else found)
  end.
Definition rfind (c : ascii) (s : string) : Z := rfind_from c s 0 (-1).

Definition char_at (s : string) (i : Z) : option ascii :=
  String.get (Z.to_nat i) s.
Definition prefix (s : string) (i : Z) : string :=
  String.substring 0 (Z.to_nat i) s.
Definition suffix (s : string) (i : Z) : string :=
  String.substring (Z.to_nat i) (String.length s - Z.to_nat i) s.

(** The loop of [genericpath._splitext] that skips leading dots:
    [steps] is the number of indices left below [dotIndex]. *)
Fixpoint skip_dots (p : string) (filenameIndex dotIndex : Z) (steps : nat)
  : string * string :=
  match steps with
  | O => (p, EmptyString)
  | S steps' =>
      if bool_decide (char_at p filenameIndex = Some dot)
      then skip_dots p (filenameIndex + 1) dotIndex steps'
      else (prefix p dotIndex, suffix p dotIndex)
  end.

(** [os.path.splitext(p)] on POSIX. *)
Definition splitext (p : string) : string * string :=
  let sepIndex := rfind slash p in
  let dotIndex := rfind dot p in
  if sepIndex <? dotIndex
  then skip_dots p (sepIndex + 1) dotIndex (Z.to_nat (dotIndex - (sepIndex + 1)))
  else (p, EmptyString).

Section WithLib.
Context (L : Lib).

(** Lines 155 to 159 of [main]. *)
Definition process_dataframes (dfs_list : list DataFrame) (output_zone : string)
  : M payload Bundle :=
  fold_for dfs_list [] (fun out_df df =>
    do '(cur_idstr, cur_df) <- processInfluxDF L df output_zone;
    ret (dict_set out_df cur_idstr cur_df)).
End WithLib.

(** The loop of [savemat] over the dictionary: a name that starts with
    an underscore is skipped; the test reads the first character of the
    name, which raises [IndexError] on an empty name. The result is the
    variables written and whether the loop came to its end. *)
Fixpoint put_variables (mdict : Bundle) : list (string * DataFrame) * bool :=
  match mdict with
  | [] => ([], true)
  | (name, var) :: mdict' =>
      match name with
      | EmptyString => ([], false)
      | String a _ =>
          let '(vars, finished) := put_variables mdict' in
          if Ascii.eqb a "_" then (vars, finished)
          else ((name, var) :: vars, finished)
      end
  end.

(** [savemat(file_name, mdict)] for a name that ends in .mat: the file is
    opened, then the variables are written; when the loop raises, the
    file is left with the variables written before. *)
Definition savemat (file_name : string) (mdict : Bundle) : M payload unit :=
  let '(vars, finished) := put_variables mdict in
  run write file_name (Mat vars);
  if finished then ret tt else raise IndexError.

(** Lines 165 to 182 of [main]. *)
Definition create_output (out_df : Bundle) (output_file : string) : M payload unit :=
  let '(output_name, output_type) := splitext output_file in
  if decide (output_type = ".csv") then
    for_each out_df (fun '(cur_name, cur_df) =>
      let output_filename := output_name +:+ "_" +:+ cur_name +:+ ".csv" in
      run write output_filename (Csv cur_df);
      print ("Saved file " +:+ output_filename +:+ " successfully."))
  else if decide (output_type = ".mat") then
    let mat_df := out_df in
    let output_filename := output_name +:+ ".mat" in
    run savemat output_filename mat_df;
    print ("Saved file " +:+ output_filename +:+ " successfully. Load in matlab.")
  else if decide (output_type = ".pickle") then
    let output_filename := output_name +:+ ".pickle" in
    run write output_filename (Pickle out_df);
    print (nl +:+ "Saved file " +:+ output_filename
           +:+ " successfully. Serialized as a dictionary of dataframes.")
  else ret tt.

End Exporter.

Import PyStr Flux PyTime Py Frame Query Creds Exporter.

(** ** Notions the statements are written with *)

Module Normal.

(** The labels that never reach a normalised table. *)
Definition dropped : list string :=
  ["result"; "table"; "_measurement"; "id"; "baro_time"; "err"].

(** Wall-clock nanoseconds in zone [z] at instant [t]. *)
Definition wall (z : zoneinfo) (t : Z) : Z := t + instant_offset z t.

(** A count of nanoseconds that pandas holds as a time: an int64 other
    than NaT. *)
Definition timelike (ns : Z) : Prop := NaT < ns <= INT64_MAX.

(** The instants of the tz-aware columns labelled [_time] or [time]. *)
Definition instants (df : DataFrame) : list Z :=
  concat (map (fun kc => match kc.2 with ColDatetimeTz _ v => v | _ => [] end)
              (filter (fun kc => kc.1 = "_time" \/ kc.1 = "time") df)).

(** Every instant of the time column is a time, and so is the
    wall-clock time in zone [z] at it. *)
Definition within_int64 (z : zoneinfo) (df : DataFrame) : Prop :=
  Forall (fun t => timelike t /\ timelike (wall z t)) (instants df).

(** [(time - epoch_1970_01_01) / 1_second] in binary64. *)
Definition unix_seconds (ns : Z) : float64 :=
  fdiv (of_int64 (ns - 0)) (of_int64 1000000000).

Definition time_column (z : zoneinfo) (c : column) : column :=
  match c with
  | ColDatetimeTz _ v => ColFloat (map (fun t => unix_seconds (wall z t)) v)
  | _ => c
  end.

(** Steps 2 to 7 of the specification's normaliser on a whole frame. *)
Definition normalized (z : zoneinfo) (df : DataFrame) : DataFrame :=
  map (fun c => if decide (c.1 = "_time") then ("time", time_column z c.2) else c)
      (filter (fun c => c.1 ∉ dropped) df).

(** A raw result table of [rows] rows: distinct labels, the four
    bookkeeping columns, one tz-aware [_time] column and no column
    already called [time]. *)
Record raw_table (df : DataFrame) (rows : nat) : Prop := {
  raw_nodup : NoDup (labels df);
  raw_bookkeeping :
    Forall (fun l => l ∈ labels df) ["result"; "table"; "_measurement"; "id"];
  raw_time : exists tz0 v, ("_time", ColDatetimeTz tz0 v) ∈ df;
  raw_no_time : "time" ∉ labels df;
  raw_rows : Forall (fun c => col_len c.2 = rows) df }.

(** The exact value of a finite binary64 number. *)
Definition float_value (x : float64) : option Q :=
  match x with
  | S754_zero _ => Some 0%Q
  | S754_finite s m e =>
      let v := (inject_Z (Zpos m) * Qpower 2 e)%Q in
      Some (if s then (- v)%Q else v)
  | _ => None
  end.

(** The first row's value under a label. *)
Definition first_value (df : DataFrame) (label : string) : option scalar :=
  c ← head (select df label); col_head c.

(** The lines the normaliser prints for a table. *)
Definition warnings {P : Type} (df : DataFrame) : list (event P) :=
  if has_label df "err" then [Print WARNING] else [].

(** The labels that are gone from a normalised table. *)
Definition removed : list string :=
  ["result"; "table"; "_measurement"; "id"; "baro_time"; "err"; "_time"].

(** The loop over the tables without its effects: the normalised results
    are assigned in order. *)
Definition collect (rs : list (string * DataFrame)) (d : Bundle) : Bundle :=
  fold_left (fun d r => dict_set d r.1 r.2) rs d.

(** The normaliser ran on a table, printed [res.1] and returned
    [res.2]. *)
Definition ran (L : Lib) (tz : string) (df : DataFrame)
    (res : list (event payload) * (string * DataFrame)) : Prop :=
  processInfluxDF L df tz = (res.1, Return res.2).

(** A filter clause as a line of the query, or nothing. *)
Definition stage (clause : string) : string :=
  if truthy clause then tab +:+ clause +:+ nl else EmptyString.


(** A mantissa with no bit lost so far in a right shift. *)
Definition lossless (m : Z) : shr_record := Build_shr_record m false false.

End Normal.

(** ** A concrete environment for examples *)

Module Sample.

Definition digit (a : ascii) : option Z :=
  let n := Z.of_nat (nat_of_ascii a) in
  if (48 <=? n) && (n <=? 57) then Some (n - 48) else None.

Fixpoint number (l : list ascii) (acc : Z) : option Z :=
  match l with
  | [] => Some acc
  | a :: l' => d ← digit a; number l' (acc * 10 + d)
  end.

Definition in_range (lo x hi : Z) : bool := (lo <=? x) && (x <=? hi).

(** The one spelling the command line documents: YYYY-MM-DDTHH:MM:SS. *)
Definition fromisoformat_seconds (text : string) : option datetime :=
  match String.list_ascii_of_string text with
  | [y1; y2; y3; y4; s1; m1; m2; s2; d1; d2; t; h1; h2; c1; n1; n2; c2; e1; e2] =>
      if bool_decide ([s1; s2; t; c1; c2] = ["-"; "-"; "T"; ":"; ":"]%char)
      then
        y ← number [y1; y2; y3; y4] 0;
        m ← number [m1; m2] 0;
        d ← number [d1; d2] 0;
        h ← number [h1; h2] 0;
        n ← number [n1; n2] 0;
        e ← number [e1; e2] 0;
        if in_range 1 y 9999 && in_range 1 m 12
           && in_range 1 d (days_in_month y m)
           && in_range 0 h 23 && in_range 0 n 59 && in_range 0 e 59
        then Some (mkNaive y m d h n e 0, None)
        else None
      else None
  | _ => None
  end.

Definition utc_zone : zoneinfo :=
  mkZone "Etc/UTC" (fun _ => 0) (fun _ => 0).

(** Five hours behind UTC all year (POSIX sign convention in the name). *)
Definition gmt_plus_5 : zoneinfo :=
  mkZone "Etc/GMT+5" (fun _ => -18000) (fun _ => -18000 * 1000000000).

(** Three hours ahead of UTC all year. *)
Definition gmt_minus_3 : zoneinfo :=
  mkZone "Etc/GMT-3" (fun _ => 10800) (fun _ => 10800 * 1000000000).

Definition zones (name : string) : option zoneinfo :=
  if decide (name = "Etc/UTC") then Some utc_zone
  else if decide (name = "UTC") then Some utc_zone
  else if decide (name = "Etc/GMT+5") then Some gmt_plus_5
  else if decide (name = "Etc/GMT-3") then Some gmt_minus_3
  else None.

Definition lib : Lib :=
  mkLib fromisoformat_seconds zones zones
        (fun _ => "<scalar>") (fun _ => "<row>").

(** A raw table of box7/P1 with the given instants, error flags and
    pressure values. *)
Definition raw (times errs : list Z) (values : list float64) : DataFrame :=
  [("result", ColObject (map (fun _ => "_result") times));
   ("table", ColInt (map (fun _ => 0) times));
   ("_time", ColDatetimeTz utc_zone times);
   ("_measurement", ColObject (map (fun _ => "box7") times));
   ("id", ColObject (map (fun _ => "P1") times));
   ("err", ColInt errs);
   ("value", ColFloat values)].

Definition p1 : float64 := of_int64 1013.
Definition p2 : float64 := of_int64 1014.

(** Two samples, ten seconds and a tenth of a second after the epoch,
    both with error flag 0. *)
Definition df_two : DataFrame := raw [10000000000; 100000000] [0; 0] [p1; p2].

(** No rows at all. *)
Definition df_empty : DataFrame := raw [] [] [].

(** A later table of the same box and sensor. *)
Definition df_late : DataFrame := raw [20000000000] [1] [p2].

Definition args : Args :=
  mkArgs "2024-03-10T01:30:00" "2024-03-10T02:30:00" "out/data.csv"
         (Some "box7,box8") None "parosbox" "Etc/GMT+5" "Etc/UTC"
         "influx-creds.pickle".

Definition stored : gmap string string :=
  {[ "idb_url" := "http://localhost:8086";
     "idb_org" := "paros";
     "idb_token" := "secret" ]}.

Definition fs : filesystem :=
  {[ "influx-creds.pickle" := PickledDict stored; "data" := Directory ]}.

End Sample.

(** ** The credential setup tool ([influxdb-setup.py]) *)

Module Setup.
Import PyStr Py Creds.

Definition creds_file : string := "influx-creds.pickle".

(** What the tool puts on standard output: the prompt an [input] call
    shows, or a printed line. *)
Inductive output :=
| Prompted (text : string)
| Printed (line : string).

(** How a run ends: the file is saved, [pickle.load] or a subscript of
    the stored record raises, [input] meets the end of the input, or the
    path to write is a directory. *)
Inductive ending :=
| Saved
| Raised (e : exc)
| EOFError
| IsADirectoryError.

(** A run: its output, the input lines it left unread, the file system
    it leaves and how it ended. *)
Record result := mkResult {
  shown : list output;
  unread : list string;
  files : filesystem;
  ended : ending }.

Definition prompt (what cur : string) : string :=
  "Enter InfluxDB " +:+ what +:+ " [" +:+ cur +:+ "]: ".

Definition must_be_specified (what : string) : string :=
  "InfluxDB " +:+ what +:+ " must be specified".

Definition SAVED : string :=
  "Saved file " +:+ creds_file
  +:+ " successfully. Re-run this script anytime you need to update it".

(** One of the three [while not value:] loops, for the field called
    [what] with stored value [cur], over the lines still to be read.
    [None] is the [EOFError] of [input] when no line is left. *)
Fixpoint ask (what cur : string) (inputs : list string)
  : list output * option (string * list string) :=
  match inputs with
  | [] => ([Prompted (prompt what cur)], None)
  | line :: rest =>
      if truthy line then ([Prompted (prompt what cur)], Some (line, rest))
      else if truthy cur then ([Prompted (prompt what cur)], Some (cur, rest))
      else
        let '(out, r) := ask what cur rest in
        (Prompted (prompt what cur) :: Printed (must_be_specified what) :: out, r)
  end.

(** Lines 7 to 18: the stored values, or empty strings when there is no
    file. *)
Definition existing (fs : filesystem) : exc + (string * string * string) :=
  if isfile fs creds_file then
    match fs !! creds_file with
    | Some (PickledDict existing_dict) =>
        match existing_dict !! "idb_url" with
        | None => inl (KeyError "idb_url")
        | Some cur_influxdb_url =>
            match existing_dict !! "idb_org" with
            | None => inl (KeyError "idb_org")
            | Some cur_influxdb_org =>
                match existing_dict !! "idb_token" with
                | None => inl (KeyError "idb_token")
                | Some cur_influxdb_token =>
                    inr (cur_influxdb_url, cur_influxdb_org, cur_influxdb_token)
                end
            end
        end
    | _ => inl UnpicklingError
    end
  else inr (EmptyString, EmptyString, EmptyString).

(** The record the tool pickles. *)
Definition output_dict (influxdb_url influxdb_org influxdb_token : string)
  : gmap string string :=
  {[ "idb_url" := influxdb_url;
     "idb_org" := influxdb_org;
     "idb_token" := influxdb_token ]}.

(** [main()] of the setup tool on a file system and the lines typed. *)
Definition main (fs : filesystem) (inputs : list string) : result :=
  match existing fs with
  | inl e => mkResult [] inputs fs (Raised e)
  | inr (cur_influxdb_url, cur_influxdb_org, cur_influxdb_token) =>
      let '(out1, r1) := ask "URL" cur_influxdb_url inputs in
      match r1 with
      | None => mkResult out1 [] fs EOFError
      | Some (influxdb_url, inputs) =>
          let '(out2, r2) := ask "Org" cur_influxdb_org inputs in
          match r2 with
          | None => mkResult (out1 ++ out2) [] fs EOFError
          | Some (influxdb_org, inputs) =>
              let '(out3, r3) := ask "Token" cur_influxdb_token inputs in
              match r3 with
              | None => mkResult (out1 ++ out2 ++ out3) [] fs EOFError
              | Some (influxdb_token, inputs) =>
                  match fs !! creds_file with
                  | Some Directory =>
                      mkResult (out1 ++ out2 ++ out3) inputs fs IsADirectoryError
                  | _ =>
                      mkResult (out1 ++ out2 ++ out3 ++ [Printed SAVED]) inputs
                        (<[creds_file :=
                             PickledDict (output_dict influxdb_url influxdb_org
                                                      influxdb_token)]> fs)
                        Saved
                  end
              end
          end
      end
  end.

(** The value one loop ends with, when it ends: the first line that is
    not blank, or the stored value at the first line when there is one. *)
Definition answer (cur : string) (inputs : list string) : option string :=
  if truthy cur then (fun line => if truthy line then line else cur) <$> head inputs
  else head (filter (fun line => truthy line = true) inputs).

(** What a loop without a stored value shows when [n] blank lines come
    before the answer. *)
Definition blank_rounds (what : string) (n : nat) : list output :=
  concat (replicate n [Prompted (prompt what EmptyString);
                       Printed (must_be_specified what)])
  ++ [Prompted (prompt what EmptyString)].

(** The line typed, or the stored value when the line is blank. *)
Definition keep (cur line : string) : string :=
  if truthy line then line else cur.

End Setup.

(** ** Splitting the response, and [main] as a whole *)

Module Program.
Import PyStr Py Frame Query Creds Exporter.

(** What [query_data_frame] returns: a list of frames, or one frame. *)
Inductive response :=
| Several (frames : list DataFrame)
| Single (frame : DataFrame).

(** The entries of [l] at the positions where [mask] is true. *)
Fixpoint keep_rows {A} (mask : list bool) (l : list A) : list A :=
  match mask, l with
  | b :: mask', x :: l' =>
      if b then x :: keep_rows mask' l' else keep_rows mask' l'
  | _, _ => []
  end.

Definition take (mask : list bool) (c : column) : column :=
  match c with
  | ColObject v => ColObject (keep_rows mask v)
  | ColInt v => ColInt (keep_rows mask v)
  | ColFloat v => ColFloat (keep_rows mask v)
  | ColDatetimeTz z v => ColDatetimeTz z (keep_rows mask v)
  | ColDatetime v => ColDatetime (keep_rows mask v)
  | ColTimedelta v => ColTimedelta (keep_rows mask v)
  end.

(** The rows of a frame selected by a mask, every column kept. *)
Definition rows_of (mask : list bool) (df : DataFrame) : DataFrame :=
  map (fun kc => (kc.1, take mask kc.2)) df.

Section Keys.
Context {K : Type} (leb eqb : K -> K -> bool) (present : K -> bool).

(** The values of a list without repetition, first occurrences kept. *)
Fixpoint distinct (l : list K) : list K :=
  match l with
  | [] => []
  | x :: l' => x :: filter (fun y => eqb y x = false) (distinct l')
  end.

(** The group keys of [groupby]: the values that are present, each once,
    in ascending order. *)
Definition sorted_keys (l : list K) : list K :=
  merge_sort (fun a b => Is_true (leb a b))
             (distinct (filter (fun x => present x = true) l)).

(** One mask per group, in the order of the keys. *)
Definition masks (l : list K) : list (list bool) :=
  map (fun k => map (fun x => present x && eqb x k) l) (sorted_keys l).
End Keys.

Definition is_nan (x : float64) : bool :=
  match x with S754_nan => true | _ => false end.

(** The groups of a key column by its dtype; NaN and NaT keys belong
    to no group. *)
Definition group_masks (c : column) : list (list bool) :=
  match c with
  | ColInt v => masks Z.leb Z.eqb (fun _ => true) v
  | ColDatetimeTz _ v | ColDatetime v | ColTimedelta v =>
      masks Z.leb Z.eqb (fun x => negb (x =? NaT)) v
  | ColObject v => masks String.leb String.eqb (fun _ => true) v
  | ColFloat v =>
      masks SFleb SFeqb (fun x => negb (is_nan x)) v
  end.

(** [[g for _, g in df.groupby('table')]] *)
Definition groupby_table (df : DataFrame) : exc + list DataFrame :=
  match select df "table" with
  | [] => inl (KeyError "table")
  | [c] => inr (map (fun mask => rows_of mask df) (group_masks c))
  | _ => inl ValueError
  end.

(** Lines 147 to 152 of [main]. *)
Definition split_result {P} (idb_result : response) : M P (list DataFrame) :=
  match idb_result with
  | Several frames =>
      fold_for frames [] (fun dfs_list r =>
        do groups <- lift (groupby_table r);
        ret (dfs_list ++ groups))
  | Single frame => ret [frame]
  end.

Section WithEnv.
(** The libraries, the answer of the database to a query text, and the
    text [print] shows for the bundle. *)
Context (L : Lib)
        (query_data_frame : InfluxDBClient -> string -> exc + response)
        (repr_bundle : Bundle -> string).

Definition RUNNING : string := nl +:+ "Running InfluxDB Query..." +:+ nl.
Definition PREVIEWING : string := nl +:+ "Previewing Dataframes..." +:+ nl.

(** [main()] from the parsed arguments on. *)
Definition main (fs : filesystem) (args : Args) : M payload unit :=
  do idb_client <- loadInfluxClient fs (creds args);
  do idb_query <- build_query L args;
  run print RUNNING;
  run print (idb_query +:+ nl);
  do idb_result <- lift (query_data_frame idb_client idb_query);
  do dfs_list <- split_result idb_result;
  do out_df <- process_dataframes L dfs_list (output_zone args);
  run print PREVIEWING;
  run print (repr_bundle out_df);
  create_output out_df (output_file args).
End WithEnv.

End Program.

(** ** Further notions the statements are written with *)

Module Shape.
Import PyStr PyTime Py Frame Program.

(** The values of a column, top to bottom. *)
Definition cells (c : column) : list scalar :=
  match c with
  | ColObject v => SStr <$> v
  | ColInt v => SInt <$> v
  | ColFloat v => SFloat <$> v
  | ColDatetimeTz z v => STimestampTz z <$> v
  | ColDatetime v => STimestamp <$> v
  | ColTimedelta v => STimedelta <$> v
  end.

(** Every column has [n] entries. *)
Definition nrows (df : DataFrame) (n : nat) : Prop :=
  Forall (fun kc => col_len kc.2 = n) df.

(** [len(df)] of a frame that has a column. *)
Definition frame_len (df : DataFrame) : nat :=
  match df with [] => O | kc :: _ => col_len kc.2 end.

(** A column without its first entry, and a frame without its first
    row. *)
Definition col_tail (c : column) : column :=
  match c with
  | ColObject v => ColObject (tail v)
  | ColInt v => ColInt (tail v)
  | ColFloat v => ColFloat (tail v)
  | ColDatetimeTz z v => ColDatetimeTz z (tail v)
  | ColDatetime v => ColDatetime (tail v)
  | ColTimedelta v => ColTimedelta (tail v)
  end.

Definition frame_tail (df : DataFrame) : DataFrame :=
  map (fun kc => (kc.1, col_tail kc.2)) df.

(** The first [n] rows of a frame, each with its values from left to
    right. *)
Fixpoint rows (n : nat) (df : DataFrame) : list (list (option scalar)) :=
  match n with
  | O => []
  | S n' => map (fun kc => col_head kc.2) df :: rows n' (frame_tail df)
  end.

(** The columns that are called [time] once [_time] is renamed. *)
Definition time_columns (df : DataFrame) : list column :=
  (filter (fun kc => kc.1 = "_time" \/ kc.1 = "time") df).*2.


(** Nanoseconds from 1970-01-01T00:00:00 to a naive time. *)
Definition epoch_ns (t : naive) : Z :=
  (to_micros t - to_micros (mkNaive 1970 1 1 0 0 0 0)) * 1000.

(** Lines 70 to 76 of [processInfluxDF]: the renaming of the time column
    and its three conversions. *)
Definition retime (L : Lib) {P : Type} (out_df : DataFrame)
    (output_tz id_str : string) : M P (string * DataFrame) :=
  let out_df := rename out_df "_time" "time" in
  do t <- series out_df "time";
  do t <- dt_tz_convert L t output_tz;
  let out_df := setitem out_df "time" t in
  do t <- series out_df "time";
  do t <- dt_tz_localize_none t;
  let out_df := setitem out_df "time" t in
  do t <- series out_df "time";
  do d <- sub_timestamp t 0;
  do t <- div_timedelta d 1000000000;
  let out_df := setitem out_df "time" t in
  ret (id_str, out_df).

(** What [retime] makes of a frame whose columns labelled [_time] or
    [time] are tz-aware: they are called [time] and hold unix seconds of
    the wall-clock time in zone [z]. *)
Definition retimed (z : zoneinfo) (df : DataFrame) : DataFrame :=
  map (fun c => if decide (c.1 = "_time" \/ c.1 = "time")
                then ("time", Normal.time_column z c.2) else c)
      (filter (fun c => c.1 ∉ Normal.dropped) df).

(** What the normaliser needs of a frame, the range of its times
    apart. *)
Definition accepted (L : Lib) (df : DataFrame) (output_tz : string) : Prop :=
  Forall (fun l => l ∈ labels df) ["result"; "table"; "_measurement"; "id"]
  /\ Forall (fun c => (0 < col_len c)%nat)
            (select df "_measurement" ++ select df "id")
  /\ is_Some (pandas_zone L output_tz)
  /\ exists z0 v, time_columns df = [ColDatetimeTz z0 v].



(** A frame of a response as the database sends it: an int64 [table]
    column, columns of one length, the bookkeeping labels, and one
    tz-aware column labelled [_time] or [time]. *)
Definition well_formed (df : DataFrame) : Prop :=
  (exists t, select df "table" = [ColInt t])
  /\ (exists n, nrows df n)
  /\ Forall (fun l => l ∈ labels df) ["result"; "table"; "_measurement"; "id"]
  /\ exists z0 v, time_columns df = [ColDatetimeTz z0 v].

(** The groups of the frames of a response, frame after frame. *)
Definition all_groups (frames : list DataFrame) : list DataFrame :=
  concat (map (fun df => match groupby_table df with
                         | inr gs => gs
                         | inl _ => []
                         end) frames).

(** A computation that writes no file. *)
Definition writes_nothing {P A : Type} (m : M P A) : Prop := written m.1 = [].

(** A name that starts with an underscore. *)
Definition underscored (name : string) : bool :=
  match name with
  | String a _ => Ascii.eqb a "_"
  | EmptyString => false
  end.

(** The number of commas in a string. *)
Fixpoint commas (s : string) : nat :=
  match s with
  | EmptyString => O
  | String a s' => (if Ascii.eqb a comma then 1 else 0) + commas s'
  end.

(** A frame of four rows from two series, interleaved. *)
Definition two_series : DataFrame :=
  [("result", ColObject ["_result"; "_result"; "_result"; "_result"]);
   ("table", ColInt [1; 0; 1; 0]);
   ("_time", ColDatetimeTz Sample.utc_zone
               [1000000000; 2000000000; 3000000000; 4000000000]);
   ("_measurement", ColObject ["box8"; "box7"; "box8"; "box7"]);
   ("id", ColObject ["P1"; "P1"; "P1"; "P1"]);
   ("value", ColFloat [Sample.p1; Sample.p2; Sample.p1; Sample.p2])].

(** Its two groups. *)
Definition box7_rows : DataFrame := rows_of [false; true; false; true] two_series.
Definition box8_rows : DataFrame := rows_of [true; false; true; false] two_series.

(** A frame whose time column is already called [time], with an integer
    sensor id and two fields of one name. *)
Definition odd_frame : DataFrame :=
  [("result", ColObject ["_result"]);
   ("table", ColInt [0]);
   ("time", ColDatetimeTz Sample.gmt_plus_5 [10000000000]);
   ("_measurement", ColObject ["box7"]);
   ("id", ColInt [3]);
   ("value", ColFloat [Sample.p1]);
   ("value", ColFloat [Sample.p2])].

(** The query text of the sample arguments. *)
Definition sample_query : string :=
  Eval vm_compute in
    match (Query.build_query (P:=payload) Sample.lib Sample.args).2 with
    | Return q => q
    | _ => EmptyString
    end.

(** One sample taken at 2024-03-10T06:30:00 UTC. *)
Definition at_start : DataFrame :=
  Sample.raw [1710052200000000000] [0] [Sample.p1].

End Shape.

Import Normal.

(** * Properties *)

(** ** Splitting and joining *)

Section SplitJoin.
Variable c : ascii.

Lemma split_not_nil (s : string) : split c s <> [].
Proof.
  destruct s as [|a s]; simpl; [discriminate|].
  destruct (Ascii.eqb a c); [discriminate|].
  destruct (split c s); discriminate.
Qed.

Lemma split_without_separator (v : string) :
  contains c v = false -> split c v = [v].
Proof.
  induction v as [|a v IH]; simpl; [reflexivity|].
  destruct (Ascii.eqb a c); [discriminate|].
  intros H. rewrite (IH H). reflexivity.
Qed.

Lemma split_at_separator (v rest : string) :
  contains c v = false ->
  split c (v +:+ String c rest) = v :: split c rest.
Proof.
  induction v as [|a v IH]; simpl.
  - rewrite Ascii.eqb_refl. reflexivity.
  - destruct (Ascii.eqb a c); [discriminate|].
    intros H. rewrite (IH H). reflexivity.
Qed.

Lemma split_join (vs : list string) :
  vs <> [] ->
  Forall (fun v => contains c v = false) vs ->
  split c (join (String c EmptyString) vs) = vs.
Proof.
  induction vs as [|v vs IH]; [congruence|].
  intros _ Hall. inversion Hall as [|? ? Hv Hvs]; subst.
  destruct vs as [|v' vs'].
  - simpl. apply split_without_separator, Hv.
  - change (join (String c EmptyString) (v :: v' :: vs'))
      with (v +:+ String c (join (String c EmptyString) (v' :: vs'))).
    rewrite split_at_separator by assumption.
    rewrite IH by (assumption || discriminate). reflexivity.
Qed.

(** The two branches of [createFluxFilters] build the same list. *)
Lemma split_or_singleton (s : string) :
  (if contains c s then split c s else [s]) = split c s.
Proof.
  destruct (contains c s) eqn:E; [reflexivity|].
  symmetry. apply split_without_separator, E.
Qed.
End SplitJoin.

(** ** Filter clauses *)

Lemma createFluxFilters_some (col s : string) :
  createFluxFilters col (Some s)
  = "|> filter(fn: (r) => "
    +:+ join " or " (map (predicate col) (split comma s)) +:+ ")".
Proof.
  unfold createFluxFilters. rewrite split_or_singleton.
  pose proof (split_not_nil comma s) as Hne.
  destruct (split comma s); [congruence|]. reflexivity.
Qed.

(** C2 fails on the code: for the empty input the clause is not
    omitted, it compares the field with the empty value. The test on
    the length of the predicate list, which is there to omit the clause
    when there is no value, never fails: the list has an entry for
    every string, the empty one included. *)
Theorem createFluxFilters_empty_string_not_omitted :
  createFluxFilters "_measurement" (Some EmptyString)
  = "|> filter(fn: (r) => r[" +:+ dq +:+ "_measurement" +:+ dq +:+ "] == "
    +:+ dq +:+ dq +:+ ")"
  /\ createFluxFilters "_measurement" (Some EmptyString) <> EmptyString
  /\ forall col s,
       (0 <? length (map (predicate col)
                         (if contains comma s then split comma s else [s])))%nat
       = true.
Proof.
  split; [reflexivity|]. split; [vm_compute; discriminate|].
  intros col s. rewrite split_or_singleton, length_map.
  pose proof (split_not_nil comma s) as Hne.
  destruct (split comma s); [congruence|reflexivity].
Qed.

(** What holds of the clause: an absent input gives the empty clause; an
    input that joins n >= 1 comma-free values with commas gives a single
    filter stage holding exactly the n equality predicates, one per
    value in order, joined with " or ". *)
Theorem createFluxFilters_one_predicate_per_value (col : string) (vs : list string) :
  vs <> [] ->
  Forall (fun v => contains comma v = false) vs ->
  createFluxFilters col None = EmptyString
  /\ createFluxFilters col (Some (join "," vs))
     = "|> filter(fn: (r) => "
       +:+ join " or " (map (predicate col) vs) +:+ ")"
  /\ length (map (predicate col) vs) = length vs.
Proof.
  intros Hne Hall. split; [reflexivity|]. split.
  - rewrite createFluxFilters_some.
    change "," with (String comma EmptyString).
    rewrite split_join by assumption. reflexivity.
  - apply length_map.
Qed.

Lemma createFluxFilters_one_predicate_per_value_witness :
  createFluxFilters "id" None = EmptyString
  /\ createFluxFilters "id" (Some "P1,P2,P3")
     = "|> filter(fn: (r) => "
       +:+ join " or " (map (predicate "id") ["P1"; "P2"; "P3"]) +:+ ")"
  /\ length (map (predicate "id") ["P1"; "P2"; "P3"]) = 3%nat.
Proof.
  apply (createFluxFilters_one_predicate_per_value "id" ["P1"; "P2"; "P3"]).
  - discriminate.
  - repeat constructor.
Defined.

(** ** Export dispatch *)

(** C7: an output path whose extension is none of .csv, .mat and .pickle
    makes the export a silent no-op: no file is written, nothing is
    printed, nothing is raised, and the call returns. *)
Theorem create_output_unknown_extension (out_df : Bundle) (output_file : string) :
  (splitext output_file).2 <> ".csv" ->
  (splitext output_file).2 <> ".mat" ->
  (splitext output_file).2 <> ".pickle" ->
  create_output out_df output_file = ([], Return tt).
Proof.
  intros Hcsv Hmat Hpickle. unfold create_output.
  destruct (splitext output_file) as [output_name output_type]; simpl in *.
  repeat (destruct (decide _); [congruence|]). reflexivity.
Qed.

Lemma create_output_unknown_extension_witness :
  create_output [("box7_P1", [("time", ColFloat [of_int64 10])])] "out/data.txt"
  = ([], Return tt).
Proof.
  apply create_output_unknown_extension; vm_compute; discriminate.
Defined.

(** With the .csv extension every entry of the bundle is written to a
    file of its own, named after the path's stem and the entry's
    identifier, in the order of the bundle. *)
Lemma create_output_csv (out_df : Bundle) (output_file stem : string) :
  splitext output_file = (stem, ".csv") ->
  written (create_output out_df output_file).1
  = map (fun kv => (stem +:+ "_" +:+ kv.1 +:+ ".csv", Csv kv.2)) out_df
  /\ (create_output out_df output_file).2 = Return tt.
Proof.
  intros Hext. unfold create_output. rewrite Hext.
  destruct (decide (".csv" = ".csv")) as [_|Hne]; [|congruence].
  induction out_df as [|[k df] out_df [IHw IHr]]; [split; reflexivity|].
  cbn [for_each]. unfold write, print. cbn [Py.bind].
  destruct (for_each out_df _) as [ev r]. cbn [fst snd] in *.
  split; [|exact IHr].
  change (written (WriteFile (stem +:+ "_" +:+ k +:+ ".csv") (Csv df)
                   :: Print ("Saved file " +:+ (stem +:+ "_" +:+ k +:+ ".csv")
                             +:+ " successfully.") :: ev)
          = (stem +:+ "_" +:+ k +:+ ".csv", Csv df)
            :: map (fun kv => (stem +:+ "_" +:+ kv.1 +:+ ".csv", Csv kv.2)) out_df).
  rewrite <- IHw. reflexivity.
Qed.

(** ** Credentials *)

(** C8: a credentials path that is not an existing file prints the
    explanation and exits with code 1, raising nothing; a path that is an
    existing file never takes that exit, and when the file holds a record
    with the three keys the client is built from them. *)
Theorem loadInfluxClient_missing_or_present
    {P : Type} (fs : filesystem) (pickle_path : string) :
  (isfile fs pickle_path = false ->
   loadInfluxClient (P:=P) fs pickle_path = ([Print NOT_FOUND], Exit 1))
  /\ (isfile fs pickle_path = true ->
      (forall ev code, loadInfluxClient (P:=P) fs pickle_path <> (ev, Exit code))
      /\ (forall d u t o,
            fs !! pickle_path = Some (PickledDict d) ->
            d !! "idb_url" = Some u ->
            d !! "idb_token" = Some t ->
            d !! "idb_org" = Some o ->
            loadInfluxClient (P:=P) fs pickle_path
            = ([], Return (mkClient u t o 100000000)))).
Proof.
  unfold loadInfluxClient. split; intros Hfile; rewrite Hfile.
  - reflexivity.
  - split.
    + intros ev code. unfold pickle_load, subscript.
      destruct (fs !! pickle_path) as [[|d|]|]; cbn; try discriminate.
      destruct (d !! "idb_url"); cbn; [|discriminate].
      destruct (d !! "idb_token"); cbn; [|discriminate].
      destruct (d !! "idb_org"); cbn; discriminate.
    + intros d u t o Hd Hu Ht Ho. unfold pickle_load, subscript.
      rewrite Hd. simpl. rewrite Hu. simpl. rewrite Ht. simpl. rewrite Ho.
      reflexivity.
Qed.

Lemma loadInfluxClient_missing_or_present_witness :
  loadInfluxClient (P:=payload) Sample.fs "no-such-file.pickle"
  = ([Print NOT_FOUND], Exit 1)
  /\ loadInfluxClient (P:=payload) Sample.fs "influx-creds.pickle"
     = ([], Return (mkClient "http://localhost:8086" "secret" "paros" 100000000)).
Proof.
  split.
  - apply (proj1 (loadInfluxClient_missing_or_present Sample.fs "no-such-file.pickle")).
    vm_compute. reflexivity.
  - apply (proj2 (proj2 (loadInfluxClient_missing_or_present
                           Sample.fs "influx-creds.pickle") eq_refl)
             Sample.stored); vm_compute; reflexivity.
Defined.

(** ** The effect monad *)

Section MonadLaws.
Context {P : Type}.

Lemma bind_ret_l {A B} (a : A) (f : A -> M P B) : Py.bind (ret a) f = f a.
Proof. unfold Py.bind, ret. destruct (f a). reflexivity. Qed.

Lemma bind_print {B} (line : string) (f : unit -> M P B) :
  Py.bind (print line) f = (Print line :: (f tt).1, (f tt).2).
Proof. unfold Py.bind, print. destruct (f tt). reflexivity. Qed.

Lemma bind_returned {A B} ev (a : A) (f : A -> M P B) :
  Py.bind (ev, Return a) f = (ev ++ (f a).1, (f a).2).
Proof. unfold Py.bind. destruct (f a). reflexivity. Qed.
End MonadLaws.

(** ** Frames *)

Section FrameFacts.
Implicit Types (df : DataFrame) (k : string) (c : column).

Lemma labels_filter_subset (Q : string * column -> Prop)
    `{!forall x, Decision (Q x)} df k :
  k ∈ labels (filter Q df) -> k ∈ labels df.
Proof.
  unfold labels. rewrite !list_elem_of_fmap.
  intros (x & -> & Hx). apply list_elem_of_filter in Hx as [_ Hx]. eauto.
Qed.

Lemma labels_filter_nodup (Q : string * column -> Prop)
    `{!forall x, Decision (Q x)} df :
  NoDup (labels df) -> NoDup (labels (filter Q df)).
Proof.
  unfold labels. induction df as [|x df IH]; [intros _; constructor|].
  rewrite fmap_cons, NoDup_cons. intros [Hx Hdf]. rewrite filter_cons.
  destruct (decide (Q x)); [|auto].
  rewrite fmap_cons, NoDup_cons. split; [|auto].
  intros Hin. apply Hx. revert Hin. apply labels_filter_subset.
Qed.

Lemma filter_label_absent df k :
  k ∉ labels df -> filter (fun x => x.1 ∉ [k]) df = df.
Proof.
  unfold labels. induction df as [|x df IH]; [reflexivity|].
  rewrite fmap_cons, not_elem_of_cons. intros [Hx Hdf].
  rewrite filter_cons_True; [by rewrite IH|].
  rewrite list_elem_of_singleton. congruence.
Qed.

Lemma has_label_true df k : has_label df k = true <-> k ∈ labels df.
Proof. unfold has_label. apply bool_decide_eq_true. Qed.

Lemma has_label_false df k : has_label df k = false <-> k ∉ labels df.
Proof. unfold has_label. apply bool_decide_eq_false. Qed.

Lemma drop_present df names :
  Forall (fun n => n ∈ labels df) names ->
  drop df names = inr (filter (fun x => x.1 ∉ names) df).
Proof.
  intros Hall. unfold drop.
  replace (filter (fun n => n ∉ labels df) names) with (@nil string);
    [reflexivity|].
  symmetry. induction Hall as [|n names Hn _ IH]; [reflexivity|].
  rewrite filter_cons_False; [exact IH|]. intros Hnot. exact (Hnot Hn).
Qed.

(** Dropping a label only when it is there is filtering it out. *)
Lemma drop_if_present {P} df k :
  (if has_label df k then lift (P:=P) (drop df [k]) else ret df)
  = ret (filter (fun x => x.1 ∉ [k]) df).
Proof.
  destruct (has_label df k) eqn:E.
  - apply has_label_true in E. rewrite drop_present; [reflexivity|].
    by constructor.
  - apply has_label_false in E. by rewrite filter_label_absent.
Qed.

Lemma map_label_absent (g : string * column -> string * column) (l1 : DataFrame) k :
  k ∉ labels l1 ->
  map (fun x => if decide (x.1 = k) then g x else x) l1 = l1.
Proof.
  unfold labels. induction l1 as [|x l1 IH]; simpl; [reflexivity|].
  rewrite not_elem_of_cons. intros [Hx Hl].
  destruct (decide (x.1 = k)); [congruence|]. by rewrite IH.
Qed.

Lemma select_absent (l1 : DataFrame) k : k ∉ labels l1 -> select l1 k = [].
Proof.
  unfold select, labels. induction l1 as [|x l1 IH]; [reflexivity|].
  rewrite fmap_cons, not_elem_of_cons. intros [Hx Hl].
  rewrite filter_cons_False by congruence. auto.
Qed.

Section Focus.
Variables (l1 l2 : DataFrame) (k : string).
Hypothesis Hl1 : k ∉ labels l1.
Hypothesis Hl2 : k ∉ labels l2.

Lemma select_focus c : select (l1 ++ (k, c) :: l2) k = [c].
Proof.
  unfold select. rewrite filter_app, filter_cons_True by reflexivity.
  rewrite fmap_app, fmap_cons.
  fold (select l1 k). fold (select l2 k).
  by rewrite !select_absent.
Qed.

Lemma has_label_focus c : has_label (l1 ++ (k, c) :: l2) k = true.
Proof.
  apply has_label_true. unfold labels.
  rewrite fmap_app, fmap_cons, elem_of_app, elem_of_cons. auto.
Qed.

Lemma map_focus (g : string * column -> string * column) c :
  map (fun x => if decide (x.1 = k) then g x else x) (l1 ++ (k, c) :: l2)
  = l1 ++ g (k, c) :: l2.
Proof.
  rewrite map_app. simpl. rewrite !map_label_absent by assumption.
  destruct (decide (k = k)); [reflexivity|congruence].
Qed.

Lemma setitem_focus c c' :
  setitem (l1 ++ (k, c) :: l2) k c' = l1 ++ (k, c') :: l2.
Proof.
  unfold setitem. rewrite has_label_focus.
  apply (map_focus (fun _ => (k, c'))).
Qed.

Lemma rename_focus k' c :
  rename (l1 ++ (k, c) :: l2) k k' = l1 ++ (k', c) :: l2.
Proof. unfold rename. apply (map_focus (fun x => (k', x.2))). Qed.
End Focus.

Lemma col_head_nonempty c : (0 < col_len c)%nat -> is_Some (col_head c).
Proof. destruct c as [v|v|v|tz v|v|v]; destruct v; simpl; eauto; lia. Qed.

Lemma col_head_empty c : col_len c = 0%nat -> col_head c = None.
Proof. destruct c as [v|v|v|tz v|v|v]; destruct v; simpl; congruence. Qed.

(** Under distinct labels a label that is present selects one column. *)
Lemma select_unique df k :
  NoDup (labels df) -> k ∈ labels df ->
  exists c, (k, c) ∈ df /\ select df k = [c].
Proof.
  intros Hnd Hin. unfold labels in Hin.
  apply list_elem_of_fmap in Hin as ([k' c] & -> & Hin). simpl.
  destruct (list_elem_of_split _ _ Hin) as (l1 & l2 & ->).
  unfold labels in Hnd. rewrite fmap_app, fmap_cons in Hnd.
  apply NoDup_app in Hnd as (_ & Hl1 & Hnd).
  apply NoDup_cons in Hnd as [Hl2 _]. simpl in *.
  exists c. split; [assumption|]. apply select_focus; [|assumption].
  intros Hk. apply (Hl1 _ Hk). left.
Qed.
End FrameFacts.

(** ** The normaliser on a raw table *)

(** Membership of a literal label in a literal list of labels. *)
Ltac label_in := repeat constructor.

(** The int64 bounds of a concrete frame, by computation. *)
Ltac sample_bounds :=
  unfold Normal.within_int64;
  match goal with
  | |- Forall _ ?l => let v := eval vm_compute in l in change l with v
  end;
  repeat (apply Forall_cons; split); try apply Forall_nil;
  unfold Normal.timelike, Normal.wall, NaT, INT64_MAX; simpl; lia.
Ltac label_notin :=
  rewrite ?not_elem_of_cons;
  repeat split; solve [discriminate | apply not_elem_of_nil].

Section Normaliser.
Import Normal.
Context (L : Lib) {P : Type}.

Lemma first_str_unique df k c x :
  select df k = [c] -> col_head c = Some x ->
  first_str (P:=P) L df k = ret (py_str L x).
Proof. intros Hs Hc. unfold first_str. rewrite Hs, Hc. reflexivity. Qed.

Lemma dropped_filter (df : DataFrame) :
  filter (fun x => x.1 ∉ ["err"])
    (filter (fun x => x.1 ∉ ["baro_time"])
       (filter (fun x => x.1 ∉ ["result"; "table"; "_measurement"; "id"]) df))
  = filter (fun x => x.1 ∉ dropped) df.
Proof.
  rewrite !list_filter_filter. apply list_filter_iff.
  intros x. unfold dropped. rewrite !not_elem_of_cons.
  pose proof (not_elem_of_nil x.1). tauto.
Qed.

(** Within int64 the three conversions of an instant give the seconds
    of its wall-clock time. *)
Lemma localize_in_bounds (z : zoneinfo) (v : list Z) :
  Forall (fun t => timelike t /\ timelike (wall z t)) v ->
  forallb (fun t => (t =? NaT) || in_bounds (t + instant_offset z t)) v = true
  /\ map (fun d => if d =? NaT then S754_nan
                   else fdiv (of_int64 d) (of_int64 1000000000))
         (map (fun t => if t =? NaT then NaT else t - 0)
              (map (local_time z) v))
     = map (fun t => unix_seconds (wall z t)) v.
Proof.
  intros Hall. split.
  - apply forallb_forall. intros t Ht. apply list_elem_of_In in Ht.
    rewrite Forall_forall in Hall. destruct (Hall t Ht) as [_ Hw].
    unfold timelike, wall in Hw. unfold in_bounds.
    apply orb_true_iff. right. apply andb_true_iff. split; lia.
  - rewrite !map_map. apply Forall_fmap_ext_1.
    eapply Forall_impl; [exact Hall|]. intros t [Ht Hw].
    unfold timelike in Ht, Hw. unfold local_time, unix_seconds.
    replace (t =? NaT) with false by lia.
    change (t + instant_offset z t) with (wall z t).
    replace (wall z t =? NaT) with false by lia.
    replace (wall z t - 0 =? NaT) with false by lia. reflexivity.
Qed.

(** The three assignments to the [time] column, on a frame focused on
    its single [_time] column. *)
Lemma retime_focus (l1 l2 : DataFrame) tz0 v tz z (id_str : string) :
  "_time" ∉ labels l1 -> "_time" ∉ labels l2 ->
  "time" ∉ labels l1 -> "time" ∉ labels l2 ->
  pandas_zone L tz = Some z ->
  Forall (fun t => timelike t /\ timelike (wall z t)) v ->
  (let out_df := rename (l1 ++ ("_time", ColDatetimeTz tz0 v) :: l2) "_time" "time" in
   do t <- series (P:=P) out_df "time";
   do t <- dt_tz_convert L t tz;
   let out_df := setitem out_df "time" t in
   do t <- series out_df "time";
   do t <- dt_tz_localize_none t;
   let out_df := setitem out_df "time" t in
   do t <- series out_df "time";
   do d <- sub_timestamp t 0;
   do t <- div_timedelta d 1000000000;
   let out_df := setitem out_df "time" t in
   ret (id_str, out_df))
  = ret (id_str,
         l1 ++ ("time", time_column z (ColDatetimeTz tz0 v)) :: l2).
Proof.
  intros H1 H2 H3 H4 Hz Hv. cbv zeta.
  destruct (localize_in_bounds z v Hv) as [Hok Hmap].
  rewrite rename_focus by assumption.
  unfold series at 1. rewrite select_focus by assumption. rewrite bind_ret_l.
  unfold dt_tz_convert. rewrite Hz. cbn [or_raise]. rewrite !bind_ret_l.
  rewrite setitem_focus by assumption.
  unfold series at 1. rewrite select_focus by assumption. rewrite bind_ret_l.
  unfold dt_tz_localize_none. rewrite Hok, !bind_ret_l.
  rewrite setitem_focus by assumption.
  unfold series at 1. rewrite select_focus by assumption. rewrite bind_ret_l.
  unfold sub_timestamp, div_timedelta. rewrite !bind_ret_l.
  rewrite setitem_focus by assumption.
  unfold time_column. rewrite Hmap. reflexivity.
Qed.

(** The instants of a frame include those of each of its time columns. *)
Lemma instants_elem (df : DataFrame) k tz0 v t :
  (k, ColDatetimeTz tz0 v) ∈ df -> k = "_time" \/ k = "time" -> t ∈ v ->
  t ∈ instants df.
Proof.
  intros Hin Hk Ht. unfold instants. apply list_elem_of_In, in_concat.
  exists v. split; [|apply list_elem_of_In, Ht].
  apply in_map_iff. exists (k, ColDatetimeTz tz0 v). split; [reflexivity|].
  apply list_elem_of_In, list_elem_of_filter. auto.
Qed.

Lemma within_int64_column (z : zoneinfo) (df : DataFrame) k tz0 v :
  within_int64 z df ->
  (k, ColDatetimeTz tz0 v) ∈ df -> k = "_time" \/ k = "time" ->
  Forall (fun t => timelike t /\ timelike (wall z t)) v.
Proof.
  intros Hw Hin Hk. apply Forall_forall. intros t Ht.
  unfold within_int64 in Hw. rewrite Forall_forall in Hw.
  apply Hw, (instants_elem df k tz0 v t Hin Hk Ht).
Qed.

(** A raw table, once the dropped columns are filtered out, is its
    [_time] column between two runs of columns that are neither
    dropped nor a time column; its normal form has the converted
    column in the same place. *)
Lemma raw_focus (df : DataFrame) rows z :
  raw_table df rows ->
  exists l1 l2 tz0 v,
    filter (fun x => x.1 ∉ dropped) df
    = l1 ++ ("_time", ColDatetimeTz tz0 v) :: l2
    /\ normalized z df
       = l1 ++ ("time", time_column z (ColDatetimeTz tz0 v)) :: l2
    /\ ("_time", ColDatetimeTz tz0 v) ∈ df
    /\ length v = rows
    /\ Forall (fun k => (k ∉ labels l1) /\ (k ∉ labels l2))
              ("time" :: "_time" :: dropped).
Proof.
  intros [Hnd Hbook (tz0 & v & Htime) Hnotime Hrows].
  assert (Hin : ("_time", ColDatetimeTz tz0 v)
                ∈ filter (fun x => x.1 ∉ dropped) df).
  { apply list_elem_of_filter. split; [|exact Htime].
    unfold dropped. simpl. label_notin. }
  destruct (list_elem_of_split _ _ Hin) as (l1 & l2 & Heq).
  exists l1, l2, tz0, v.
  pose proof (labels_filter_nodup (fun x => x.1 ∉ dropped) df Hnd) as Hnd'.
  assert (Hsub : forall k, k ∈ labels l1 \/ k ∈ labels l2 ->
                           k ∈ labels df /\ (k ∉ dropped) /\ k <> "_time").
  { intros k Hk.
    assert (Hk' : exists c, (k, c) ∈ l1 \/ (k, c) ∈ l2).
    { unfold labels in Hk. rewrite !list_elem_of_fmap in Hk.
      destruct Hk as [([k' c] & -> & Hk)|([k' c] & -> & Hk)]; eauto. }
    destruct Hk' as [c Hc].
    assert (Hf : (k, c) ∈ filter (fun x => x.1 ∉ dropped) df).
    { rewrite Heq, elem_of_app, elem_of_cons. tauto. }
    apply list_elem_of_filter in Hf as [Hd Hf]. simpl in Hd.
    split; [|split; [exact Hd|]].
    - unfold labels. apply list_elem_of_fmap. exists (k, c). auto.
    - intros ->. rewrite Heq in Hnd'. unfold labels in Hnd', Hk.
      rewrite fmap_app, fmap_cons in Hnd'.
      apply NoDup_app in Hnd' as (_ & Hl1 & Hnd').
      apply NoDup_cons in Hnd' as [Hl2 _]. simpl in *.
      destruct Hk as [Hk|Hk]; [apply (Hl1 _ Hk); left|exact (Hl2 Hk)]. }
  assert (Hout : forall k, (k ∈ labels df -> k ∈ dropped \/ k = "_time") ->
                           (k ∉ labels l1) /\ (k ∉ labels l2)).
  { intros k Hk. split; intros Hc;
      destruct (Hsub k) as (Hdf & Hd & Ht); auto;
      destruct (Hk Hdf); contradiction. }
  assert (H1 : ("_time" ∉ labels l1) /\ ("_time" ∉ labels l2))
    by (apply Hout; auto).
  split; [exact Heq|]. split; [|split; [exact Htime|split]].
  - unfold normalized. rewrite Heq.
    apply (map_focus l1 l2 "_time" (proj1 H1) (proj2 H1)
             (fun x => ("time", time_column z x.2))).
  - rewrite Forall_forall in Hrows. apply (Hrows _ Htime).
  - constructor; [apply Hout; intros; contradiction|].
    constructor; [exact H1|].
    apply Forall_forall. intros k Hk. apply Hout. auto.
Qed.

(** On a raw table with at least one row, an output zone pandas knows
    and times that stay within int64 in that zone, the normaliser
    returns, and what it returns is the specification's identifier and
    normal form. *)
Lemma processInfluxDF_raw (df : DataFrame) rows tz z :
  raw_table df rows -> (0 < rows)%nat -> pandas_zone L tz = Some z ->
  within_int64 z df ->
  exists m i,
    first_value df "_measurement" = Some m
    /\ first_value df "id" = Some i
    /\ processInfluxDF (P:=P) L df tz
       = (warnings df,
          Return (py_str L m +:+ "_" +:+ py_str L i, normalized z df)).
Proof.
  intros Hraw Hpos Hz Hwithin.
  destruct (raw_focus df rows z Hraw)
    as (l1 & l2 & tz0 & v & Heq & Hnorm & Hcol & _ & Hfresh).
  pose proof (within_int64_column z df _ tz0 v Hwithin Hcol
                (or_introl eq_refl)) as Hv.
  destruct Hraw as [Hnd Hbook _ Hnotime Hrows].
  assert (Hm : "_measurement" ∈ labels df)
    by (rewrite Forall_forall in Hbook; apply Hbook; label_in).
  assert (Hi : "id" ∈ labels df)
    by (rewrite Forall_forall in Hbook; apply Hbook; label_in).
  destruct (select_unique df _ Hnd Hm) as (cm & Hcm & Hsm).
  destruct (select_unique df _ Hnd Hi) as (ci & Hci & Hsi).
  rewrite Forall_forall in Hrows.
  destruct (col_head_nonempty cm) as [m Hhm];
    [pose proof (Hrows _ Hcm) as Hlen; simpl in Hlen; lia|].
  destruct (col_head_nonempty ci) as [i Hhi];
    [pose proof (Hrows _ Hci) as Hlen; simpl in Hlen; lia|].
  exists m, i. unfold first_value. rewrite Hsm, Hsi. simpl.
  split; [exact Hhm|]. split; [exact Hhi|].
  unfold processInfluxDF.
  rewrite (first_str_unique _ _ _ _ Hsm Hhm), bind_ret_l.
  rewrite (first_str_unique _ _ _ _ Hsi Hhi), bind_ret_l.
  cbv zeta.
  rewrite drop_present by assumption. cbn [lift]. rewrite bind_ret_l.
  rewrite drop_if_present, bind_ret_l.
  set (df2 := filter (fun x => x.1 ∉ ["baro_time"]) _).
  assert (Herr : has_label df2 "err" = has_label df "err").
  { unfold has_label. apply bool_decide_ext. unfold labels.
    rewrite !list_elem_of_fmap. subst df2.
    split; intros (x & Hx & Hin); exists x; split; try assumption.
    - apply list_elem_of_filter in Hin as [_ Hin].
      apply list_elem_of_filter in Hin as [_ Hin]. exact Hin.
    - rewrite !list_elem_of_filter. rewrite <- Hx.
      repeat split; [label_notin|label_notin|exact Hin]. }
  apply Forall_cons in Hfresh as [[H3 H4] Hfresh].
  apply Forall_cons in Hfresh as [[H1 H2] _].
  rewrite Hnorm. unfold warnings. rewrite <- Herr.
  pose proof (retime_focus l1 l2 tz0 v tz z
                (py_str L m +:+ "_" +:+ py_str L i) H1 H2 H3 H4 Hz Hv) as Hr.
  cbv zeta in Hr.
  assert (Hw : (1 <? length (unique (String.list_ascii_of_string "err")))%nat
               = true) by reflexivity.
  destruct (has_label df2 "err") eqn:E.
  - rewrite drop_present
      by (constructor; [apply has_label_true, E|constructor]).
    cbn [lift]. subst df2. rewrite dropped_filter, Heq, Hw.
    rewrite bind_print. cbn [ret fst snd].
    rewrite bind_returned, Hr. reflexivity.
  - rewrite bind_ret_l.
    apply has_label_false in E.
    rewrite <- (filter_label_absent df2 "err" E).
    subst df2. rewrite dropped_filter, Heq. exact Hr.
Qed.
End Normaliser.

(** The sample frames are raw tables. *)
Lemma sample_raw_table (times errs : list Z) (values : list float64) :
  length errs = length times -> length values = length times ->
  Normal.raw_table (Sample.raw times errs values) (length times).
Proof.
  intros He Hv. split.
  - unfold Sample.raw, labels. cbn [fmap list_fmap fst].
    repeat (apply NoDup_cons; split; [label_notin|]). apply NoDup_nil_2.
  - repeat (constructor; [label_in|]). constructor.
  - exists Sample.utc_zone, times. unfold Sample.raw. label_in.
  - unfold Sample.raw, labels. cbn [fmap list_fmap fst]. label_notin.
  - unfold Sample.raw.
    repeat (constructor; [simpl; rewrite ?length_map; congruence|]).
    constructor.
Qed.

(** ** Claims about the normaliser *)

Section NormaliserClaims.
Import Normal.
Context (L : Lib) {P : Type}.

(** C5: on every non-empty raw table whose times stay within int64 in
    the output zone the normaliser returns the identifier made of the
    first row's measurement and id values with an underscore between
    them. *)
Theorem processInfluxDF_identifier (df : DataFrame) rows tz z :
  raw_table df rows -> (0 < rows)%nat -> pandas_zone L tz = Some z ->
  within_int64 z df ->
  exists m i ev out,
    first_value df "_measurement" = Some m
    /\ first_value df "id" = Some i
    /\ processInfluxDF (P:=P) L df tz
       = (ev, Return (py_str L m +:+ "_" +:+ py_str L i, out)).
Proof.
  intros Hraw Hpos Hz Hwithin.
  destruct (processInfluxDF_raw (P:=P) L df rows tz z Hraw Hpos Hz Hwithin)
    as (m & i & Hm & Hi & Hrun).
  exists m, i, (warnings (P:=P) df), (normalized z df). auto.
Qed.

Lemma filter_focus_out (l1 l2 : DataFrame) k c :
  k ∉ labels l1 -> k ∉ labels l2 ->
  filter (fun x => x.1 <> k) (l1 ++ (k, c) :: l2) = l1 ++ l2.
Proof.
  intros H1 H2.
  assert (Hid : forall l : DataFrame,
             k ∉ labels l -> filter (fun x => x.1 <> k) l = l).
  { intros l. unfold labels. induction l as [|x l IH]; [reflexivity|].
    rewrite fmap_cons, not_elem_of_cons. intros [Hx Hl].
    rewrite filter_cons_True by congruence. by rewrite IH. }
  rewrite filter_app, filter_cons_False by (simpl; tauto).
  by rewrite !Hid.
Qed.

(** C6: the table returned for a non-empty raw table whose times stay
    within int64 in the output zone has none of the
    labels result, table, _measurement, id, baro_time, err and _time;
    it has one [time] column, with as many rows; and without that
    column it is the raw table without those seven, column for column
    in the same order and with the same cells. *)
Theorem processInfluxDF_columns (df : DataFrame) rows tz z :
  raw_table df rows -> (0 < rows)%nat -> pandas_zone L tz = Some z ->
  within_int64 z df ->
  exists ev id out,
    processInfluxDF (P:=P) L df tz = (ev, Return (id, out))
    /\ Forall (fun k => k ∉ labels out) removed
    /\ (exists c, select out "time" = [c] /\ col_len c = rows)
    /\ filter (fun x => x.1 <> "time") out
       = filter (fun x => x.1 ∉ removed) df.
Proof.
  intros Hraw Hpos Hz Hwithin.
  destruct (processInfluxDF_raw (P:=P) L df rows tz z Hraw Hpos Hz Hwithin)
    as (m & i & _ & _ & Hrun).
  destruct (raw_focus df rows z Hraw)
    as (l1 & l2 & tz0 & v & Heq & Hnorm & _ & Hlen & Hfresh).
  exists (warnings (P:=P) df), (py_str L m +:+ "_" +:+ py_str L i), (normalized z df).
  split; [exact Hrun|]. rewrite Hnorm.
  apply Forall_cons in Hfresh as [[H3 H4] Hfresh].
  apply Forall_cons in Hfresh as [[H1 H2] Hdropped].
  split; [|split].
  - apply Forall_forall. intros k Hk.
    assert (Hne : k <> "time").
    { intros ->. revert Hk. change ("time" ∉ removed).
      unfold removed. label_notin. }
    assert (Hk12 : (k ∉ labels l1) /\ (k ∉ labels l2)).
    { destruct (decide (k = "_time")) as [->|Hne']; [auto|].
      rewrite Forall_forall in Hdropped. apply Hdropped.
      unfold removed in Hk. unfold dropped.
      rewrite !elem_of_cons in *. tauto. }
    unfold labels in *.
    rewrite fmap_app, fmap_cons, elem_of_app, elem_of_cons. simpl. tauto.
  - exists (time_column z (ColDatetimeTz tz0 v)).
    split; [apply select_focus; assumption|].
    simpl. rewrite length_map. exact Hlen.
  - rewrite filter_focus_out by assumption.
    transitivity (filter (fun x => x.1 <> "_time")
                    (filter (fun x => x.1 ∉ dropped) df)).
    + rewrite Heq. symmetry. apply filter_focus_out; assumption.
    + rewrite list_filter_filter. apply list_filter_iff. intros x.
      unfold removed, dropped. rewrite !not_elem_of_cons.
      pose proof (not_elem_of_nil x.1). tauto.
Qed.

Lemma select_elem (df : DataFrame) k c : c ∈ select df k -> (k, c) ∈ df.
Proof.
  unfold select. rewrite list_elem_of_fmap.
  intros ([k' c'] & -> & Hin). apply list_elem_of_filter in Hin as [Hk Hin].
  simpl in Hk. by subst.
Qed.

(** C9: on a table without rows the normaliser raises and returns
    nothing; the failure is the unguarded read of the first row
    (an [IndexError] once the measurement column exists), before
    anything is printed. *)
Theorem processInfluxDF_empty_raises (df : DataFrame) tz :
  Forall (fun x => col_len x.2 = 0%nat) df ->
  exists e,
    processInfluxDF (P:=P) L df tz = ([], Raise e)
    /\ ("_measurement" ∈ labels df -> e = IndexError).
Proof.
  intros Hrows. rewrite Forall_forall in Hrows.
  unfold processInfluxDF, first_str.
  destruct (select df "_measurement") as [|c cs] eqn:Hs.
  - exists (KeyError "_measurement"). split; [reflexivity|].
    intros Hin. exfalso. unfold labels in Hin.
    apply list_elem_of_fmap in Hin as ([k c] & Hk & Hin). simpl in Hk. subst k.
    assert (Hc : c ∈ select df "_measurement").
    { unfold select. apply list_elem_of_fmap. exists ("_measurement", c).
      split; [reflexivity|]. apply list_elem_of_filter. auto. }
    rewrite Hs in Hc. by apply not_elem_of_nil in Hc.
  - assert (Hc : col_head c = None).
    { apply col_head_empty. apply (Hrows ("_measurement", c)).
      apply select_elem. rewrite Hs. left. }
    exists IndexError. split; [|reflexivity].
    destruct cs as [|c' cs]; [by rewrite Hc|].
    cbn [mapM]. by rewrite Hc.
Qed.
End NormaliserClaims.

Lemma processInfluxDF_identifier_witness :
  exists ev out,
    processInfluxDF (P:=payload) Sample.lib Sample.df_two "Etc/UTC"
    = (ev, Return ("box7_P1", out)).
Proof.
  destruct (processInfluxDF_identifier (P:=payload) Sample.lib Sample.df_two
              2 "Etc/UTC" Sample.utc_zone)
    as (m & i & ev & out & Hm & Hi & Hrun).
  - apply (sample_raw_table [10000000000; 100000000] [0; 0]); reflexivity.
  - lia.
  - reflexivity.
  - sample_bounds.
  - vm_compute in Hm. vm_compute in Hi.
    injection Hm as <-. injection Hi as <-.
    exists ev, out. exact Hrun.
Defined.

Lemma processInfluxDF_columns_witness :
  exists ev id out,
    processInfluxDF (P:=payload) Sample.lib Sample.df_two "Etc/UTC"
    = (ev, Return (id, out))
    /\ Forall (fun k => k ∉ labels out) removed
    /\ (exists c, select out "time" = [c] /\ col_len c = 2%nat)
    /\ filter (fun x => x.1 <> "time") out
       = filter (fun x => x.1 ∉ removed) Sample.df_two.
Proof.
  apply (processInfluxDF_columns (P:=payload) Sample.lib Sample.df_two
           2 "Etc/UTC" Sample.utc_zone).
  - apply (sample_raw_table [10000000000; 100000000] [0; 0]); reflexivity.
  - lia.
  - reflexivity.
  - sample_bounds.
Defined.

Lemma processInfluxDF_empty_raises_witness :
  exists e,
    processInfluxDF (P:=payload) Sample.lib Sample.df_empty "Etc/UTC"
    = ([], Raise e)
    /\ ("_measurement" ∈ labels Sample.df_empty -> e = IndexError).
Proof.
  apply (processInfluxDF_empty_raises (P:=payload) Sample.lib Sample.df_empty).
  repeat constructor.
Defined.

(** Whatever an err column holds, its presence alone decides whether
    the warning is printed. *)
Lemma processInfluxDF_warns_iff_err_present
    (L : Lib) {P : Type} (df : DataFrame) rows tz z :
  raw_table df rows -> (0 < rows)%nat -> pandas_zone L tz = Some z ->
  within_int64 z df ->
  printed (processInfluxDF (P:=P) L df tz).1
  = if has_label df "err" then [WARNING] else [].
Proof.
  intros Hraw Hpos Hz Hwithin.
  destruct (processInfluxDF_raw (P:=P) L df rows tz z Hraw Hpos Hz Hwithin)
    as (m & i & _ & _ & Hrun).
  rewrite Hrun. unfold warnings. simpl.
  destruct (has_label df "err"); reflexivity.
Qed.

(** C1 fails on the code: the values tested for distinctness are the
    letters of the word err, never the column, so a table whose flags
    are all 0 (one distinct value) is warned about like any other. *)
Theorem processInfluxDF_warns_on_uniform_err :
  select Sample.df_two "err" = [ColInt [0; 0]]
  /\ unique [0; 0] = [0]
  /\ printed (processInfluxDF (P:=payload) Sample.lib Sample.df_two "Etc/UTC").1
     = [WARNING].
Proof. vm_compute. auto. Qed.


(** ** The output bundle *)

Section BundleFacts.
Implicit Types (d : Bundle) (k : string) (v : DataFrame).

Lemma dict_get_set d k v k' :
  dict_get (dict_set d k v) k' = if decide (k = k') then Some v else dict_get d k'.
Proof.
  induction d as [|[k0 v0] d IH]; simpl.
  - destruct (decide (k = k')); reflexivity.
  - destruct (decide (k0 = k)) as [->|Hne]; simpl.
    + destruct (decide (k = k')); reflexivity.
    + destruct (decide (k0 = k')) as [->|Hne'].
      * destruct (decide (k = k')); [congruence|reflexivity].
      * exact IH.
Qed.

Lemma dict_set_keys d k v k' :
  k' ∈ (dict_set d k v).*1 <-> k' = k \/ k' ∈ d.*1.
Proof.
  induction d as [|[k0 v0] d IH]; simpl.
  - rewrite elem_of_cons. reflexivity.
  - destruct (decide (k0 = k)) as [->|Hne]; simpl.
    + rewrite !elem_of_cons. tauto.
    + rewrite !elem_of_cons, IH. tauto.
Qed.

Lemma dict_set_nodup d k v : NoDup d.*1 -> NoDup (dict_set d k v).*1.
Proof.
  induction d as [|[k0 v0] d IH]; simpl.
  - intros _. apply NoDup_singleton.
  - rewrite NoDup_cons. intros [Hk0 Hd].
    destruct (decide (k0 = k)) as [->|Hne]; simpl.
    + apply NoDup_cons. auto.
    + apply NoDup_cons. split; [|auto].
      rewrite dict_set_keys. intros [->|Hin]; [congruence|auto].
Qed.

Lemma dict_get_None d k : dict_get d k = None <-> k ∉ d.*1.
Proof.
  induction d as [|[k0 v0] d IH]; simpl.
  - split; [intros _; apply not_elem_of_nil|reflexivity].
  - rewrite not_elem_of_cons.
    destruct (decide (k0 = k)) as [->|Hne].
    + split; [discriminate|intros [Hk _]; congruence].
    + rewrite IH. split; [intros Hk; split; [congruence|exact Hk]|tauto].
Qed.

Lemma collect_nodup rs d : NoDup d.*1 -> NoDup (collect rs d).*1.
Proof.
  revert d. induction rs as [|r rs IH]; intros d Hd; [exact Hd|].
  apply IH, dict_set_nodup, Hd.
Qed.

Lemma collect_keys rs d k :
  k ∈ (collect rs d).*1 <-> k ∈ rs.*1 \/ k ∈ d.*1.
Proof.
  revert d. induction rs as [|r rs IH]; intros d.
  - simpl. rewrite elem_of_nil. tauto.
  - change (collect (r :: rs) d) with (collect rs (dict_set d r.1 r.2)).
    rewrite IH, dict_set_keys, fmap_cons, elem_of_cons. tauto.
Qed.

(** The value under a key is the one assigned last. *)
Lemma collect_get rs d k :
  dict_get (collect rs d) k
  = match last (filter (fun r => r.1 = k) rs) with
    | Some r => Some r.2
    | None => dict_get d k
    end.
Proof.
  revert d. induction rs as [|r rs IH]; intros d; [reflexivity|].
  change (collect (r :: rs) d) with (collect rs (dict_set d r.1 r.2)).
  rewrite IH, filter_cons, dict_get_set.
  destruct (decide (r.1 = k)) as [Hk|Hk].
  - rewrite last_cons. destruct (last (filter _ rs)); reflexivity.
  - reflexivity.
Qed.
End BundleFacts.

Section BundleClaims.
Context (L : Lib).

Lemma process_dataframes_collect dfs runs tz :
  Forall2 (ran L tz) dfs runs ->
  forall acc,
    fold_for (P:=payload) dfs acc (fun out_df df =>
      do '(cur_idstr, cur_df) <- processInfluxDF L df tz;
      ret (dict_set out_df cur_idstr cur_df))
    = (concat runs.*1, Return (collect runs.*2 acc)).
Proof.
  induction 1 as [|df [ev [id out]] dfs runs Hrun _ IH]; intros acc.
  - reflexivity.
  - unfold ran in Hrun. cbn [fst snd] in Hrun.
    cbn [fold_for]. rewrite Hrun.
    rewrite bind_returned. cbn [ret fst snd]. rewrite app_nil_r.
    rewrite bind_returned, (IH (dict_set acc id out)). reflexivity.
Qed.

(** C10: when every table of the response normalises, the bundle holds
    under each identifier the table normalised last with it, an earlier
    one being replaced without anything printed about it; so it has one
    entry per distinct identifier, not one per table. *)
Theorem process_dataframes_last_writer_wins dfs runs tz :
  Forall2 (ran L tz) dfs runs ->
  exists out_df,
    process_dataframes L dfs tz = (concat runs.*1, Return out_df)
    /\ (forall k,
         dict_get out_df k = snd <$> last (filter (fun r => r.1 = k) runs.*2))
    /\ NoDup out_df.*1
    /\ (forall k, k ∈ out_df.*1 <-> k ∈ runs.*2.*1)
    /\ length out_df = length (remove_dups runs.*2.*1).
Proof.
  intros Hall. set (rs := runs.*2).
  exists (collect rs []).
  split; [exact (process_dataframes_collect dfs runs tz Hall [])|].
  assert (Hnd : NoDup (collect rs []).*1) by apply collect_nodup, NoDup_nil_2.
  assert (Hkeys : forall k, k ∈ (collect rs []).*1 <-> k ∈ rs.*1).
  { intros k. rewrite collect_keys, elem_of_nil. tauto. }
  split; [|split; [exact Hnd|split; [exact Hkeys|]]].
  - intros k. rewrite collect_get.
    destruct (last (filter _ rs)); reflexivity.
  - rewrite <- (length_fmap fst (collect rs [])).
    apply Permutation_length, NoDup_Permutation;
      [exact Hnd|apply NoDup_remove_dups|].
    intros k. rewrite Hkeys, elem_of_remove_dups. reflexivity.
Qed.
End BundleClaims.

Lemma process_dataframes_last_writer_wins_witness :
  exists out_df,
    process_dataframes Sample.lib [Sample.df_two; Sample.df_late] "Etc/UTC"
    = ([Print WARNING; Print WARNING], Return out_df)
    /\ dict_get out_df "box7_P1" = Some (normalized Sample.utc_zone Sample.df_late)
    /\ length out_df = 1%nat.
Proof.
  destruct (process_dataframes_last_writer_wins Sample.lib
              [Sample.df_two; Sample.df_late]
              [([Print WARNING], ("box7_P1", normalized Sample.utc_zone Sample.df_two));
               ([Print WARNING], ("box7_P1", normalized Sample.utc_zone Sample.df_late))]
              "Etc/UTC")
    as (out_df & Hrun & Hget & _ & _ & Hlen).
  - apply Forall2_cons. split; [reflexivity|].
    apply Forall2_cons. split; [reflexivity|].
    apply Forall2_nil_2.
  - exists out_df. split; [exact Hrun|]. split.
    + rewrite Hget. reflexivity.
    + rewrite Hlen. reflexivity.
Defined.

(** ** Calendar arithmetic *)

Ltac bounded_case m :=
  match goal with
  | H : _ <= m <= _ |- _ =>
      destruct m as [|m|m];
      [exfalso; clear -H; lia
      |repeat (destruct m as [m|m|]; try (exfalso; clear -H; lia))
      |exfalso; clear -H; lia]
  end.

Ltac zify_divmod := Z.div_mod_to_equations.

Ltac split_bools :=
  repeat match goal with
  | |- context [?x =? ?y] => destruct (Z.eqb_spec x y)
  | |- context [?x <? ?y] => destruct (Z.ltb_spec x y)
  end.

(** The year count behind a day count in its 400-, 100-, 4- and 1-year
    cycles. *)
Lemma days_before_year_cycles (a b c e : Z) :
  0 <= b <= 3 -> 0 <= c <= 24 -> 0 <= e <= 3 ->
  days_before_year (a * 400 + 1 + b * 100 + c * 4 + e)
  = 146097 * a + 36524 * b + 1461 * c + 365 * e.
Proof. intros Hb Hc He. unfold days_before_year. zify_divmod. lia. Qed.

Lemma is_leap_cycles (a b c e : Z) :
  0 <= b <= 3 -> 0 <= c <= 24 -> 0 <= e <= 3 ->
  is_leap (a * 400 + 1 + b * 100 + c * 4 + e)
  = (e =? 3) && (negb (c =? 24) || (b =? 3)).
Proof.
  intros Hb Hc He. unfold is_leap.
  split_bools; simpl; try reflexivity; exfalso; zify_divmod; lia.
Qed.

Ltac eval_tables :=
  repeat match goal with
  | |- context [table ?t ?m] =>
      let v := eval vm_compute in (table t m) in
      progress change (table t m) with v
  end.

Lemma ymd2ord_ord2ymd (n : Z) :
  1 <= n <= MAXORDINAL ->
  let '(y, m, d) := ord2ymd n in ymd2ord y m d = n.
Proof.
  intros Hn. unfold ord2ymd, MAXORDINAL, DI400Y, DI100Y, DI4Y in *.
  set (n0 := n - 1).
  set (a := n0 / 146097). set (r1 := n0 mod 146097).
  set (b := r1 / 36524). set (r2 := r1 mod 36524).
  set (c := r2 / 1461). set (r3 := r2 mod 1461).
  set (e := r3 / 365). set (r4 := r3 mod 365).
  assert (Hdec : n0 = 146097 * a + r1 /\ 0 <= r1 < 146097
                 /\ r1 = 36524 * b + r2 /\ 0 <= r2 < 36524
                 /\ r2 = 1461 * c + r3 /\ 0 <= r3 < 1461
                 /\ r3 = 365 * e + r4 /\ 0 <= r4 < 365).
  { subst a r1 b r2 c r3 e r4. zify_divmod. lia. }
  clearbody a r1 b r2 c r3 e r4.
  destruct Hdec as (H0 & Hr1 & H1 & Hr2 & H2 & Hr3 & H3 & Hr4).
  assert (Hn0 : n = n0 + 1) by (subst n0; lia). clearbody n0.
  destruct (Z.eqb_spec e 4) as [He|He]; [|destruct (Z.eqb_spec b 4) as [Hb|Hb]];
    cbn [orb].
  - unfold ymd2ord, days_before_year, days_before_month, is_leap.
    eval_tables.
    split_bools; cbn [andb orb negb]; zify_divmod; lia.
  - unfold ymd2ord, days_before_year, days_before_month, is_leap.
    eval_tables.
    split_bools; cbn [andb orb negb]; zify_divmod; lia.
  - assert (Hb' : 0 <= b <= 3) by lia.
    assert (Hc' : 0 <= c <= 24) by lia.
    assert (He' : 0 <= e <= 3) by lia.
    rewrite Z.shiftr_div_pow2 by lia. change (2 ^ 5) with 32.
    set (mm := (r4 + 50) / 32).
    assert (Hmm : 1 <= mm <= 12) by (subst mm; zify_divmod; lia).
    assert (Hmm' : 32 * mm <= r4 + 50 < 32 * mm + 32)
      by (subst mm; zify_divmod; lia).
    clearbody mm.
    set (leap := (e =? 3) && (negb (c =? 24) || (b =? 3))).
    assert (Hleap : is_leap (a * 400 + 1 + b * 100 + c * 4 + e) = leap)
      by (apply is_leap_cycles; assumption).
    pose proof (days_before_year_cycles a b c e Hb' Hc' He') as Hdby.
    clearbody leap.
    bounded_case mm; destruct leap;
      repeat match goal with
      | |- context [Zpos ?p - 1] =>
          let v := eval vm_compute in (Zpos p - 1) in
          change (Zpos p - 1) with v
      end;
      eval_tables;
      cbn [Z.ltb Z.eqb Z.compare Pos.compare Pos.compare_cont Pos.eqb andb orb];
      split_bools;
      unfold ymd2ord, days_before_month;
      rewrite Hdby, Hleap;
      eval_tables;
      cbn [Z.ltb Z.eqb Z.compare Pos.compare Pos.compare_cont Pos.eqb andb orb];
      lia.
Qed.

(** Adding seconds moves the time by that many seconds on the absolute
    scale. *)
Lemma add_seconds_to_micros (t t' : naive) (delta : Z) :
  add_seconds t delta = Some t' ->
  to_micros t' = to_micros t + delta * 1000000.
Proof.
  unfold add_seconds.
  set (total := to_micros t + delta * 1000000).
  set (days := total / 86400000000).
  destruct ((0 <? days) && (days <=? MAXORDINAL)) eqn:Hrange; [|discriminate].
  apply andb_prop in Hrange as [Hlo Hhi].
  apply Z.ltb_lt in Hlo. apply Z.leb_le in Hhi.
  pose proof (ymd2ord_ord2ymd days ltac:(lia)) as Hord.
  destruct (ord2ymd days) as [[y m] d].
  intros [= <-]. unfold to_micros at 1, toordinal. cbn [year month day hour minute second microsecond].
  rewrite Hord. subst days. zify_divmod. lia.
Qed.

(** ** The query text *)


Section QueryClaims.
Context (L : Lib) {P : Type}.


End QueryClaims.



(** ** Binary64 arithmetic on whole seconds *)

Section IterPos.
Context {A : Type} (f : A -> A).

Lemma iter_pos_nat (p : positive) (x : A) :
  SpecFloat.iter_pos f p x = Nat.iter (Pos.to_nat p) f x.
Proof.
  revert x. induction p as [p IH|p IH|]; intros x; cbn [SpecFloat.iter_pos].
  - rewrite !IH, Pos2Nat.inj_xI.
    replace (S (2 * Pos.to_nat p)) with (Pos.to_nat p + (Pos.to_nat p + 1))%nat by lia.
    rewrite !Nat.iter_add. reflexivity.
  - rewrite !IH, Pos2Nat.inj_xO.
    replace (2 * Pos.to_nat p)%nat with (Pos.to_nat p + Pos.to_nat p)%nat by lia.
    rewrite Nat.iter_add. reflexivity.
  - reflexivity.
Qed.
End IterPos.

Lemma shr_1_even (m : Z) : shr_1 (lossless (2 * m)) = lossless m.
Proof. destruct m as [|p|p]; reflexivity. Qed.

Lemma shr_iter_exact (n : nat) (m : Z) :
  Nat.iter n shr_1 (lossless (m * 2 ^ Z.of_nat n)) = lossless m.
Proof.
  revert m. induction n as [|n IH]; intros m.
  - simpl. f_equal. lia.
  - rewrite Nat.iter_succ_r.
    replace (m * 2 ^ Z.of_nat (S n)) with (2 * (m * 2 ^ Z.of_nat n))
      by (rewrite Nat2Z.inj_succ, Z.pow_succ_r by lia; lia).
    rewrite shr_1_even. apply IH.
Qed.

Lemma shr_exact (m e n : Z) :
  0 <= n -> shr (lossless (m * 2 ^ n)) e n = (lossless m, e + n).
Proof.
  intros Hn. destruct n as [|p|p]; [|  |lia].
  - simpl. rewrite Z.mul_1_r, Z.add_0_r. reflexivity.
  - unfold shr. rewrite iter_pos_nat.
    rewrite <- (positive_nat_Z p) at 1. rewrite shr_iter_exact. reflexivity.
Qed.

Lemma digits2_size (p : positive) : digits2_pos p = Pos.size p.
Proof. induction p; simpl; congruence. Qed.

Lemma Zdigits2_log2 (m : Z) : 0 < m -> Zdigits2 m = Z.log2 m + 1.
Proof.
  destruct m as [|p|p]; try lia. intros _. simpl. rewrite digits2_size.
  destruct p; simpl; lia.
Qed.

Lemma Zdigits2_mul_pow2 (m n : Z) :
  0 < m -> 0 <= n -> Zdigits2 (m * 2 ^ n) = Zdigits2 m + n.
Proof.
  intros Hm Hn. rewrite !Zdigits2_log2 by (try apply Z.mul_pos_pos; lia).
  rewrite Z.log2_mul_pow2 by lia. lia.
Qed.

(** A mantissa that loses no bit when it is brought to 53 digits rounds to
    itself. *)
Lemma binary_round_aux_exact (s : bool) (m e n : Z) :
  0 < m -> 0 <= n ->
  fexp 53 1024 (Zdigits2 (m * 2 ^ n) + e) - e = n ->
  e + n <= 1024 - 53 ->
  binary_round_aux 53 1024 s (m * 2 ^ n) e loc_Exact
  = S754_finite s (Z.to_pos m) (e + n).
Proof.
  intros Hm Hn Hshift Hmax. unfold binary_round_aux, shr_fexp.
  change (shr_record_of_loc (m * 2 ^ n) loc_Exact) with (lossless (m * 2 ^ n)).
  rewrite Hshift, shr_exact by assumption.
  cbn [shr_m lossless loc_of_shr_record round_nearest_even shr_record_of_loc].
  change (Build_shr_record m false false) with (lossless m).
  replace (fexp 53 1024 (Zdigits2 m + (e + n)) - (e + n)) with 0.
  2:{ rewrite Zdigits2_mul_pow2 in Hshift by assumption.
      replace (Zdigits2 m + (e + n)) with (Zdigits2 m + n + e) by lia. lia. }
  cbn [shr shr_m lossless fst snd].
  destruct m as [|p|p]; try lia.
  replace (e + n <=? 1024 - 53) with true by (symmetry; apply Z.leb_le; lia).
  reflexivity.
Qed.

Lemma Zdigits2_bounds (m d : Z) :
  0 < d -> 2 ^ (d - 1) <= m < 2 ^ d -> Zdigits2 m = d.
Proof.
  intros Hd Hm.
  assert (0 < m) by (pose proof (Z.pow_pos_nonneg 2 (d - 1)); lia).
  rewrite Zdigits2_log2 by assumption.
  rewrite (Z.log2_unique m (d - 1)); [lia|lia|].
  replace (Z.succ (d - 1)) with d by lia. exact Hm.
Qed.

Lemma pos_iter_xO (m d : positive) :
  Zpos (Pos.iter xO m d) = Zpos m * 2 ^ Zpos d.
Proof.
  induction d as [|d IH] using Pos.peano_ind.
  - simpl. lia.
  - rewrite Pos.iter_succ, Pos2Z.inj_xO, IH, Pos2Z.inj_succ, Z.pow_succ_r by lia.
    lia.
Qed.

(** An integer that fits 53 bits after scaling by a power of two is its own
    binary64 rounding. *)
Lemma binary_round_exact (s : bool) (m : positive) (e M E : Z) :
  0 < M ->
  E = fexp 53 1024 (Zdigits2 (Zpos m) + e) ->
  E <= 1024 - 53 ->
  (E < e /\ M = Zpos m * 2 ^ (e - E)) \/ (e <= E /\ Zpos m = M * 2 ^ (E - e)) ->
  binary_round 53 1024 s m e = S754_finite s (Z.to_pos M) E.
Proof.
  intros HM HE Hmax Hcase. unfold binary_round, shl_align.
  change (Zpos (digits2_pos m)) with (Zdigits2 (Zpos m)). rewrite <- HE.
  destruct Hcase as [[Hlt HMeq]|[Hle Hmeq]].
  - destruct (E - e) as [|d|d] eqn:Hd; try lia.
    rewrite pos_iter_xO.
    replace (Zpos d) with (e - E) by lia. rewrite <- HMeq.
    replace M with (M * 2 ^ 0) at 1 by (simpl; lia).
    replace E with (E + 0) at 2 by lia.
    apply binary_round_aux_exact; try lia.
    rewrite Z.pow_0_r, Z.mul_1_r, HMeq, Zdigits2_mul_pow2 by lia.
    replace (Zdigits2 (Zpos m) + (e - E) + E) with (Zdigits2 (Zpos m) + e) by lia.
    lia.
  - assert (Hsame : (let '(mz, ez) :=
                       match E - e with
                       | Zneg d => (Pos.iter xO m d, E)
                       | _ => (m, e)
                       end in
                     binary_round_aux 53 1024 s (Zpos mz) ez loc_Exact)
                    = binary_round_aux 53 1024 s (Zpos m) e loc_Exact).
    { destruct (E - e) eqn:Hd; try reflexivity. lia. }
    rewrite Hsame, Hmeq.
    replace E with (e + (E - e)) at 2 by lia.
    apply binary_round_aux_exact; try lia.
    rewrite <- Hmeq. lia.
Qed.

Lemma new_location_zero (nb : Z) : new_location nb 0 = loc_Exact.
Proof. unfold new_location. destruct (Z.even nb); reflexivity. Qed.

(** A quotient that fits 53 bits is what the division returns. *)
Lemma SFdiv_exact (s1 s2 : bool) (M1 M2 : positive) (E1 E2 q n e' : Z) :
  e' = Z.min (fexp 53 1024 (Zdigits2 (Zpos M1) + E1 - (Zdigits2 (Zpos M2) + E2)))
             (E1 - E2) ->
  0 < E1 - E2 - e' ->
  Zpos M1 * 2 ^ (E1 - E2 - e') = Zpos M2 * (q * 2 ^ n) ->
  0 < q -> 0 <= n ->
  fexp 53 1024 (Zdigits2 (q * 2 ^ n) + e') - e' = n ->
  e' + n <= 1024 - 53 ->
  SFdiv 53 1024 (S754_finite s1 M1 E1) (S754_finite s2 M2 E2)
  = S754_finite (xorb s1 s2) (Z.to_pos q) (e' + n).
Proof.
  intros He' Hsh Hdiv Hq Hn Hfexp Hmax.
  unfold SFdiv, SFdiv_core_binary. rewrite <- He'.
  destruct (E1 - E2 - e') as [|sh|sh] eqn:Hs; try lia.
  rewrite Z.shiftl_mul_pow2 by lia. rewrite Hdiv.
  assert (Heucl : Z.div_eucl (Zpos M2 * (q * 2 ^ n)) (Zpos M2) = (q * 2 ^ n, 0)).
  { pose proof (Z.div_mul (q * 2 ^ n) (Zpos M2)) as Hdm.
    pose proof (Z.mod_mul (q * 2 ^ n) (Zpos M2)) as Hmm.
    unfold Z.div, Z.modulo in Hdm, Hmm.
    rewrite (Z.mul_comm (Zpos M2)).
    destruct (Z.div_eucl (q * 2 ^ n * Zpos M2) (Zpos M2)) as [q' r'].
    f_equal; [apply Hdm|apply Hmm]; discriminate. }
  rewrite Heucl, new_location_zero.
  apply binary_round_aux_exact; assumption.
Qed.

Ltac small_case c :=
  match goal with
  | H : 0 <= c < ?n |- _ =>
      destruct c as [|c|c];
      [|repeat (destruct c as [c|c|]; try (exfalso; clear -H; lia))
       |exfalso; clear -H; lia]
  end.

Ltac eval_pows :=
  repeat match goal with
  | |- context [2 ^ ?e] =>
      let v := eval vm_compute in (2 ^ e) in
      progress change (2 ^ e) with v
  | H : context [2 ^ ?e] |- _ =>
      let v := eval vm_compute in (2 ^ e) in
      progress change (2 ^ e) with v in H
  end.

Ltac digits_by d :=
  rewrite (Zdigits2_bounds _ d); [|lia|eval_pows; lia].

Ltac whole_seconds_script k :=
  match goal with
  | Hk : _ <= k < _, HkL : _ <= k * 1000000000 < _ |- _ =>
    eval_pows;
    destruct k as [|pk|pk]; try (exfalso; clear -Hk; lia);
    match goal with
    | |- fdiv (binary_round _ _ ?s _ _) _ = S754_finite _ (Z.to_pos (_ * ?sc)) ?E =>
      match type of HkL with
      | ?lo <= _ < _ =>
        let L := eval vm_compute in (Z.log2 lo) in
        let M1 := constr:(Zpos pk * 1953125 * 2 ^ (61 - L)) in
        let E1 := constr:(L - 52) in
        assert (Hx : binary_round 53 1024 s (Z.to_pos (Zpos pk * 1000000000)) 0
                     = S754_finite s (Z.to_pos M1) E1);
        [ change (Z.to_pos (Zpos pk * 1000000000)) with (pk * 1000000000)%positive;
          change (Zpos (pk * 1000000000)) with (Zpos pk * 1000000000) in HkL;
          apply binary_round_exact;
          [ eval_pows; lia
          | digits_by (L + 1); unfold fexp, emin; lia
          | lia
          | eval_pows;
            first [ left; split; lia | right; split; lia ] ]
        | rewrite Hx;
          replace (S754_finite s (Z.to_pos (Zpos pk * sc)) E)
            with (S754_finite (xorb s false) (Z.to_pos (Zpos pk * sc))
                    ((L - 82) + (E + 82 - L)))
            by (rewrite xorb_false_r; f_equal; lia);
          unfold fdiv;
          apply SFdiv_exact;
          [ rewrite Z2Pos.id by (eval_pows; lia);
            digits_by 53;
            change (Zdigits2 8388608000000000) with 53;
            unfold fexp, emin; lia
          | lia
          | rewrite Z2Pos.id by (eval_pows; lia); eval_pows; lia
          | lia
          | lia
          | digits_by (53 + (E + 82 - L)); unfold fexp, emin; lia
          | lia ] ]
      end
    end
  end.

Lemma whole_seconds_case (s : bool) (k c L : Z) :
  0 <= c < 32 ->
  L = c + 29 \/ L = c + 30 ->
  2 ^ c <= k < 2 ^ (c + 1) ->
  2 ^ L <= k * 1000000000 < 2 ^ (L + 1) ->
  fdiv (binary_round 53 1024 s (Z.to_pos (k * 1000000000)) 0)
       (S754_finite false 8388608000000000 (-23))
  = S754_finite s (Z.to_pos (k * 2 ^ (52 - c))) (c - 52).
Proof.
  intros Hc HL Hk HkL.
  small_case c; destruct HL as [-> | ->]; clear Hc;
    whole_seconds_script k.
Qed.

(** The quotient of a whole number of seconds, as nanoseconds, by one
    second has the value of that number. *)
Lemma whole_seconds_signed (s : bool) (k : Z) :
  0 < k < 2 ^ 32 ->
  fdiv (binary_round 53 1024 s (Z.to_pos (k * 1000000000)) 0)
       (of_int64 1000000000)
  = S754_finite s (Z.to_pos (k * 2 ^ (52 - Z.log2 k))) (Z.log2 k - 52).
Proof.
  intros Hk.
  change (of_int64 1000000000) with (S754_finite false 8388608000000000 (-23)).
  pose proof (Z.log2_spec k (proj1 Hk)) as Hspec.
  assert (Hc : 0 <= Z.log2 k < 32).
  { split; [apply Z.log2_nonneg|]. apply Z.log2_lt_pow2; lia. }
  assert (HkL : 0 < k * 1000000000) by lia.
  pose proof (Z.log2_spec _ HkL) as HspecL.
  replace (Z.succ (Z.log2 k)) with (Z.log2 k + 1) in Hspec by lia.
  replace (Z.succ (Z.log2 (k * 1000000000)))
    with (Z.log2 (k * 1000000000) + 1) in HspecL by lia.
  apply (whole_seconds_case s k (Z.log2 k) (Z.log2 (k * 1000000000)));
    try assumption.
  assert (Hlo : Z.log2 k + 29 <= Z.log2 (k * 1000000000)).
  { apply Z.log2_le_pow2; [lia|]. rewrite Z.pow_add_r by lia.
    change (2 ^ 29) with 536870912. nia. }
  assert (Hhi : Z.log2 (k * 1000000000) < Z.log2 k + 1 + 30).
  { apply Z.log2_lt_pow2; [lia|]. rewrite Z.pow_add_r by lia.
    change (2 ^ 30) with 1073741824. nia. }
  lia.
Qed.

(** The value of a 53-bit mantissa that is a whole number scaled up. *)
Lemma float_value_scaled (s : bool) (k : Z) :
  0 < k < 2 ^ 32 ->
  exists q,
    Normal.float_value
      (S754_finite s (Z.to_pos (k * 2 ^ (52 - Z.log2 k))) (Z.log2 k - 52))
    = Some q
    /\ (q == inject_Z (if s then - k else k))%Q.
Proof.
  intros Hk.
  assert (Hc : 0 <= Z.log2 k < 32).
  { split; [apply Z.log2_nonneg|]. apply Z.log2_lt_pow2; lia. }
  set (a := 52 - Z.log2 k).
  assert (Ha : 0 <= a) by (unfold a; lia).
  replace (Z.log2 k - 52) with (- a) by (unfold a; lia).
  eexists. split; [reflexivity|].
  assert (Hpos : 0 < k * 2 ^ a)
    by (apply Z.mul_pos_pos; [lia|apply Z.pow_pos_nonneg; lia]).
  rewrite Z2Pos.id by exact Hpos.
  assert (Hval : (inject_Z (k * 2 ^ a) * Qpower 2 (- a) == inject_Z k)%Q).
  { rewrite Qpower_opp, inject_Z_mult, Zpower_Qpower by exact Ha.
    rewrite <- Qmult_assoc, Qmult_inv_r, Qmult_1_r; [reflexivity|].
    apply Qpower_not_0. discriminate. }
  destruct s.
  - rewrite Hval, inject_Z_opp. reflexivity.
  - exact Hval.
Qed.

(** A timestamp that is a whole number of seconds, less than 2^32 away
    from the epoch, is converted without error. *)
Lemma unix_seconds_whole (k : Z) :
  - 2 ^ 32 < k < 2 ^ 32 ->
  exists q,
    Normal.float_value (Normal.unix_seconds (k * 1000000000)) = Some q
    /\ (q == inject_Z k)%Q.
Proof.
  intros Hk. unfold Normal.unix_seconds. rewrite Z.sub_0_r.
  destruct k as [|p|p].
  - exists 0%Q. split; reflexivity.
  - change (of_int64 (Zpos p * 1000000000))
      with (binary_round 53 1024 false (Z.to_pos (Zpos p * 1000000000)) 0).
    rewrite whole_seconds_signed by lia.
    apply (float_value_scaled false (Zpos p)). lia.
  - change (of_int64 (Zneg p * 1000000000))
      with (binary_round 53 1024 true (Z.to_pos (Zpos p * 1000000000)) 0).
    rewrite whole_seconds_signed by lia.
    apply (float_value_scaled true (Zpos p)). lia.
Qed.

(** ** The time column *)

(** C4, as stated, fails on the code: the sample taken a tenth of a
    second after the epoch gets the binary64 number nearest to 0.1, which
    is not the quantity (time - epoch) / 1 second = 1/10. *)
Lemma unix_time_tenth_of_second_inexact :
  exists ev id out x q,
    processInfluxDF (P:=payload) Sample.lib Sample.df_two "Etc/UTC"
    = (ev, Return (id, out))
    /\ select Sample.df_two "_time"
       = [ColDatetimeTz Sample.utc_zone [10000000000; 100000000]]
    /\ select out "time" = [ColFloat [of_int64 10; x]]
    /\ Normal.float_value x = Some q
    /\ ~ (q == (100000000 - 0) # 1000000000)%Q.
Proof.
  do 5 eexists.
  split; [reflexivity|]. split; [reflexivity|]. split; [reflexivity|].
  split; [reflexivity|].
  intros H. vm_compute in H. discriminate H.
Qed.

(** A table whose last instant is the greatest int64 normalises in UTC
    and is refused three hours ahead of it, where the wall-clock time
    leaves int64; the warning of its err column is printed before. *)
Lemma processInfluxDF_out_of_bounds :
  (exists res,
     processInfluxDF (P:=payload) Sample.lib
       (Sample.raw [0; INT64_MAX] [0; 0] [Sample.p1; Sample.p2]) "Etc/UTC"
     = ([Print WARNING], Return res))
  /\ processInfluxDF (P:=payload) Sample.lib
       (Sample.raw [0; INT64_MAX] [0; 0] [Sample.p1; Sample.p2]) "Etc/GMT-3"
     = ([Print WARNING], Raise OutOfBoundsDatetime).
Proof. split; [eexists|]; reflexivity. Qed.

Section UnixTime.
Import Normal.
Context (L : Lib) {P : Type}.

(** C4 (amended): for a raw table whose times stay within int64 in the
    output zone, every row's final time value is the binary64 quotient
    of its naive output-zone time minus the epoch, in nanoseconds, by one
    second in nanoseconds, each operand first converted to binary64; for
    a time that is a whole number of seconds less than 2^32 away from
    the epoch this is that number exactly, and 1970-01-01T00:00:10 gives
    10.0. *)
Theorem processInfluxDF_unix_time (df : DataFrame) rows tz z :
  raw_table df rows -> (0 < rows)%nat -> pandas_zone L tz = Some z ->
  within_int64 z df ->
  exists ev id out tz0 v,
    ("_time", ColDatetimeTz tz0 v) ∈ df
    /\ processInfluxDF (P:=P) L df tz = (ev, Return (id, out))
    /\ select out "time"
       = [ColFloat (map (fun t => fdiv (of_int64 (wall z t - 0))
                                       (of_int64 1000000000)) v)]
    /\ (forall t k,
         t ∈ v -> wall z t = k * 1000000000 -> - 2 ^ 32 < k < 2 ^ 32 ->
         exists q,
           float_value (fdiv (of_int64 (wall z t - 0)) (of_int64 1000000000))
           = Some q
           /\ (q == inject_Z k)%Q)
    /\ fdiv (of_int64 (10 * 1000000000 - 0)) (of_int64 1000000000) = of_int64 10.
Proof.
  intros Hraw Hpos Hz Hwithin.
  destruct (processInfluxDF_raw (P:=P) L df rows tz z Hraw Hpos Hz Hwithin)
    as (m & i & _ & _ & Hrun).
  destruct (raw_focus df rows z Hraw)
    as (l1 & l2 & tz0 & v & _ & Hnorm & Hin & _ & Hfresh).
  apply Forall_cons in Hfresh as [[H3 H4] _].
  exists (warnings (P:=P) df), (py_str L m +:+ "_" +:+ py_str L i),
    (normalized z df), tz0, v.
  split; [exact Hin|]. split; [exact Hrun|]. split; [|split].
  - rewrite Hnorm. apply select_focus; assumption.
  - intros t k _ Hk Hbound. rewrite Hk.
    apply (unix_seconds_whole k Hbound).
  - reflexivity.
Qed.
End UnixTime.

Lemma processInfluxDF_unix_time_witness :
  exists ev id out x,
    processInfluxDF (P:=payload) Sample.lib Sample.df_two "Etc/UTC"
    = (ev, Return (id, out))
    /\ select out "time" = [ColFloat [of_int64 10; x]]
    /\ exists q, Normal.float_value (of_int64 10) = Some q /\ (q == 10)%Q.
Proof.
  destruct (processInfluxDF_unix_time (P:=payload) Sample.lib Sample.df_two
              2 "Etc/UTC" Sample.utc_zone)
    as (ev & id & out & tz0 & v & Hin & Hrun & Hsel & Hwhole & _).
  - apply (sample_raw_table [10000000000; 100000000] [0; 0]); reflexivity.
  - lia.
  - reflexivity.
  - sample_bounds.
  - assert (Hv : v = [10000000000; 100000000]).
    { unfold Sample.df_two, Sample.raw in Hin.
      repeat (apply elem_of_cons in Hin as [Hin|Hin];
              [try discriminate Hin|]).
      - injection Hin as _ ->. reflexivity.
      - by apply elem_of_nil in Hin. }
    subst v. exists ev, id, out. eexists.
    split; [exact Hrun|]. split; [exact Hsel|].
    destruct (Hwhole 10000000000 10) as (q & Hq & Heq).
    + left.
    + reflexivity.
    + lia.
    + exists q. split; [exact Hq|exact Heq].
Defined.


(** * Further properties of the code *)

(** ** The setup tool *)

Section SetupFacts.
Import Setup.

Lemma truthy_nonempty (s : string) : truthy s = true <-> s <> EmptyString.
Proof. destruct s; simpl; split; congruence. Qed.

(** A loop that ends gives a non-empty value, the one [answer] names,
    and has read at least one line. *)
Lemma ask_some what cur inputs v rest :
  (ask what cur inputs).2 = Some (v, rest) ->
  v <> EmptyString
  /\ answer cur inputs = Some v
  /\ exists read, read <> [] /\ inputs = read ++ rest.
Proof.
  unfold answer. induction inputs as [|line inputs IH]; [discriminate|].
  cbn [ask]. destruct (truthy line) eqn:Hline.
  - intros [= <- <-]. split; [by apply truthy_nonempty|].
    split; [|exists [line]; split; [discriminate|reflexivity]].
    destruct (truthy cur); simpl; [by rewrite Hline|].
    rewrite filter_cons_True by exact Hline. reflexivity.
  - destruct (truthy cur) eqn:Hcur.
    + intros [= <- <-]. split; [by apply truthy_nonempty|].
      split; [simpl; by rewrite Hline|].
      exists [line]. split; [discriminate|reflexivity].
    + destruct (ask what cur inputs) as [out r] eqn:Hask. cbn [snd] in *.
      intros Hr. destruct (IH Hr) as (Hv & Hans & read & _ & ->).
      split; [exact Hv|]. split.
      * rewrite filter_cons_False by (rewrite Hline; discriminate). exact Hans.
      * exists (line :: read). split; [discriminate|reflexivity].
Qed.

(** What a saved run leaves behind. *)
Lemma main_saved fs inputs :
  ended (main fs inputs) = Saved ->
  exists u o t,
    u <> EmptyString /\ o <> EmptyString /\ t <> EmptyString
    /\ files (main fs inputs)
       = <[creds_file := PickledDict (output_dict u o t)]> fs.
Proof.
  unfold main. destruct (existing fs) as [e|[[cu co] ct]]; [discriminate|].
  destruct (ask "URL" cu inputs) as [out1 [[u in1]|]] eqn:H1; [|discriminate].
  destruct (ask "Org" co in1) as [out2 [[o in2]|]] eqn:H2; [|discriminate].
  destruct (ask "Token" ct in2) as [out3 [[t in3]|]] eqn:H3; [|discriminate].
  pose proof (ask_some "URL" cu inputs u in1) as Hu. rewrite H1 in Hu.
  pose proof (ask_some "Org" co in1 o in2) as Ho. rewrite H2 in Ho.
  pose proof (ask_some "Token" ct in2 t in3) as Ht. rewrite H3 in Ht.
  destruct (Hu eq_refl) as [Hu' _], (Ho eq_refl) as [Ho' _],
    (Ht eq_refl) as [Ht' _].
  destruct (fs !! creds_file) as [[| |]|]; try discriminate;
    intros _; exists u, o, t; auto.
Qed.

Lemma output_dict_lookup u o t :
  output_dict u o t !! "idb_url" = Some u
  /\ output_dict u o t !! "idb_org" = Some o
  /\ output_dict u o t !! "idb_token" = Some t.
Proof.
  unfold output_dict. split; [apply lookup_insert_eq|]. split.
  - rewrite lookup_insert_ne by discriminate. apply lookup_insert_eq.
  - rewrite !lookup_insert_ne by discriminate. apply lookup_singleton_eq.
Qed.
End SetupFacts.

Section SetupClaims.
Import Setup.

(** X1: a run of the setup tool that saves leaves a file from which the
    query tool's loader builds its client, with the values the run
    stored, without exiting or raising. *)
Theorem setup_then_load {P : Type} (fs : filesystem) (inputs : list string) :
  ended (main fs inputs) = Saved ->
  exists u o t,
    files (main fs inputs) !! creds_file = Some (PickledDict (output_dict u o t))
    /\ loadInfluxClient (P:=P) (files (main fs inputs)) creds_file
       = ([], Return (mkClient u t o 100000000)).
Proof.
  intros Hsaved. destruct (main_saved fs inputs Hsaved) as (u & o & t & _ & _ & _ & ->).
  exists u, o, t.
  assert (Hfile : <[creds_file := PickledDict (output_dict u o t)]> fs !! creds_file
                  = Some (PickledDict (output_dict u o t)))
    by apply lookup_insert_eq.
  split; [exact Hfile|].
  destruct (output_dict_lookup u o t) as (Hu & Ho & Ht).
  unfold loadInfluxClient, isfile, pickle_load, subscript. rewrite Hfile.
  rewrite bind_ret_l, Hu. cbn [or_raise]. rewrite bind_ret_l, Ht.
  cbn [or_raise]. rewrite bind_ret_l, Ho. cbn [or_raise].
  rewrite bind_ret_l. reflexivity.
Qed.

(** X2: the file a saving run writes holds exactly the three keys, each
    with a non-empty value, whatever the file held before; no other path
    of the file system changes. *)
Theorem setup_record_shape (fs : filesystem) (inputs : list string) :
  ended (main fs inputs) = Saved ->
  exists d,
    files (main fs inputs) !! creds_file = Some (PickledDict d)
    /\ (forall k, is_Some (d !! k) <-> k ∈ ["idb_url"; "idb_org"; "idb_token"])
    /\ (forall k v, d !! k = Some v -> v <> EmptyString)
    /\ (forall path, path <> creds_file ->
         files (main fs inputs) !! path = fs !! path).
Proof.
  intros Hsaved.
  destruct (main_saved fs inputs Hsaved) as (u & o & t & Hu & Ho & Ht & ->).
  exists (output_dict u o t).
  split; [apply lookup_insert_eq|].
  assert (Hlook : forall k,
    output_dict u o t !! k
    = if decide (k = "idb_url") then Some u
      else if decide (k = "idb_org") then Some o
      else if decide (k = "idb_token") then Some t else None).
  { intros k. unfold output_dict.
    destruct (decide (k = "idb_url")) as [->|H1]; [apply lookup_insert_eq|].
    rewrite lookup_insert_ne by congruence.
    destruct (decide (k = "idb_org")) as [->|H2]; [apply lookup_insert_eq|].
    rewrite lookup_insert_ne by congruence.
    destruct (decide (k = "idb_token")) as [->|H3]; [apply lookup_singleton_eq|].
    apply lookup_singleton_ne. congruence. }
  split; [|split].
  - intros k. rewrite Hlook, !elem_of_cons, elem_of_nil.
    repeat destruct (decide _); split; intros H; eauto;
      try (destruct H as [? H]; discriminate H); tauto.
  - intros k v. rewrite Hlook.
    repeat destruct (decide _); intros [= <-]; assumption.
  - intros path Hpath. apply lookup_insert_ne. congruence.
Qed.

(** X3: on a file system without the credentials file, any number of
    blank lines before each of three non-empty answers ends in a saved
    record of those answers; each blank line is answered with the
    "must be specified" line and a new prompt, and the lines after the
    third answer are left unread. *)
Theorem setup_fresh (fs : filesystem) (n1 n2 n3 : nat) (u o t : string)
    (rest : list string) :
  fs !! creds_file = None ->
  u <> EmptyString -> o <> EmptyString -> t <> EmptyString ->
  main fs (replicate n1 EmptyString ++ u :: replicate n2 EmptyString ++ o
           :: replicate n3 EmptyString ++ t :: rest)
  = mkResult
      (blank_rounds "URL" n1 ++ blank_rounds "Org" n2 ++ blank_rounds "Token" n3
       ++ [Printed SAVED])
      rest
      (<[creds_file := PickledDict (output_dict u o t)]> fs)
      Saved.
Proof.
  intros Hnone Hu Ho Ht.
  assert (Hask : forall what n v tail, v <> EmptyString ->
            ask what EmptyString (replicate n EmptyString ++ v :: tail)
            = (blank_rounds what n, Some (v, tail))).
  { intros what n v tail Hv. induction n as [|n IH].
    - cbn [replicate app ask]. apply truthy_nonempty in Hv. rewrite Hv.
      reflexivity.
    - cbn [replicate app ask truthy]. rewrite IH. reflexivity. }
  unfold main, existing, isfile. rewrite Hnone.
  rewrite (Hask "URL" n1 u _ Hu), (Hask "Org" n2 o _ Ho), (Hask "Token" n3 t _ Ht).
  reflexivity.
Qed.

(** X4: when the file holds a record with three non-empty values, three
    lines settle the run: a blank line keeps the stored value, any other
    line replaces it; each prompt shows the stored value and nothing is
    asked twice. *)
Theorem setup_rerun (fs : filesystem) (d : gmap string string)
    (u0 o0 t0 l1 l2 l3 : string) (rest : list string) :
  fs !! creds_file = Some (PickledDict d) ->
  d !! "idb_url" = Some u0 -> d !! "idb_org" = Some o0 ->
  d !! "idb_token" = Some t0 ->
  u0 <> EmptyString -> o0 <> EmptyString -> t0 <> EmptyString ->
  main fs (l1 :: l2 :: l3 :: rest)
  = mkResult
      [Prompted (prompt "URL" u0); Prompted (prompt "Org" o0);
       Prompted (prompt "Token" t0); Printed SAVED]
      rest
      (<[creds_file :=
           PickledDict (output_dict (keep u0 l1) (keep o0 l2) (keep t0 l3))]> fs)
      Saved.
Proof.
  intros Hfile Hu Ho Ht Hu0 Ho0 Ht0.
  apply truthy_nonempty in Hu0, Ho0, Ht0.
  unfold main, existing, isfile. rewrite Hfile, Hu, Ho, Ht.
  unfold keep. cbn [ask]. rewrite Hu0.
  destruct (truthy l1); cbn [ask]; rewrite Ho0;
    destruct (truthy l2); cbn [ask]; rewrite Ht0;
    destruct (truthy l3); reflexivity.
Qed.

(** X5: when the credentials path is a file that does not hold a record
    with the three keys, the tool raises before it prompts for anything
    and leaves the file as it is: such a file cannot be repaired by the
    tool. *)
Theorem setup_unreadable_store (fs : filesystem) (inputs : list string) :
  isfile fs creds_file = true ->
  (forall d u o t,
     fs !! creds_file = Some (PickledDict d) ->
     d !! "idb_url" = Some u -> d !! "idb_org" = Some o ->
     d !! "idb_token" = Some t -> False) ->
  exists e, main fs inputs = mkResult [] inputs fs (Raised e).
Proof.
  intros Hfile Hbad. unfold main, existing. rewrite Hfile.
  destruct (fs !! creds_file) as [[|d|]|] eqn:Hnode; eauto.
  destruct (d !! "idb_url") as [u|] eqn:Hu; eauto.
  destruct (d !! "idb_org") as [o|] eqn:Ho; eauto.
  destruct (d !! "idb_token") as [t|] eqn:Ht; eauto.
  destruct (Hbad d u o t); auto.
Qed.

(** X6: the tool writes last: a run that does not end with the file
    saved, because the input ran out, the stored file could not be read
    or the path is a directory, leaves the file system untouched. *)
Theorem setup_failure_writes_nothing (fs : filesystem) (inputs : list string) :
  ended (main fs inputs) <> Saved -> files (main fs inputs) = fs.
Proof.
  unfold main. destruct (existing fs) as [e|[[cu co] ct]]; [reflexivity|].
  destruct (ask "URL" cu inputs) as [out1 [[u in1]|]]; [|reflexivity].
  destruct (ask "Org" co in1) as [out2 [[o in2]|]]; [|reflexivity].
  destruct (ask "Token" ct in2) as [out3 [[t in3]|]]; [|reflexivity].
  destruct (fs !! creds_file) as [[| |]|]; cbn; congruence.
Qed.
End SetupClaims.

Lemma setup_then_load_witness :
  exists u o t,
    Setup.files (Setup.main ∅ ["http://db:8086"; "paros"; "secret"])
      !! Setup.creds_file
    = Some (PickledDict (Setup.output_dict u o t))
    /\ loadInfluxClient (P:=payload)
         (Setup.files (Setup.main ∅ ["http://db:8086"; "paros"; "secret"]))
         Setup.creds_file
       = ([], Return (mkClient u t o 100000000)).
Proof.
  apply (setup_then_load (P:=payload) ∅ ["http://db:8086"; "paros"; "secret"]).
  reflexivity.
Defined.

Lemma setup_record_shape_witness :
  exists d,
    Setup.files (Setup.main Sample.fs ["http://other"; EmptyString; EmptyString])
      !! Setup.creds_file
    = Some (PickledDict d)
    /\ (forall k, is_Some (d !! k) <-> k ∈ ["idb_url"; "idb_org"; "idb_token"])
    /\ (forall k v, d !! k = Some v -> v <> EmptyString)
    /\ (forall path, path <> Setup.creds_file ->
         Setup.files (Setup.main Sample.fs ["http://other"; EmptyString; EmptyString])
           !! path
         = Sample.fs !! path).
Proof.
  apply (setup_record_shape Sample.fs ["http://other"; EmptyString; EmptyString]).
  reflexivity.
Defined.

Lemma setup_fresh_witness :
  Setup.main ∅ [EmptyString; "http://db:8086"; "paros"; EmptyString; EmptyString;
                "secret"; "unread"]
  = Setup.mkResult
      (Setup.blank_rounds "URL" 1 ++ Setup.blank_rounds "Org" 0
       ++ Setup.blank_rounds "Token" 2 ++ [Setup.Printed Setup.SAVED])
      ["unread"]
      (<[Setup.creds_file :=
           PickledDict (Setup.output_dict "http://db:8086" "paros" "secret")]> ∅)
      Setup.Saved.
Proof.
  apply (setup_fresh ∅ 1 0 2 "http://db:8086" "paros" "secret" ["unread"]);
    [reflexivity|discriminate|discriminate|discriminate].
Defined.

Lemma setup_rerun_witness :
  Setup.main Sample.fs [EmptyString; "lab"; EmptyString]
  = Setup.mkResult
      [Setup.Prompted (Setup.prompt "URL" "http://localhost:8086");
       Setup.Prompted (Setup.prompt "Org" "paros");
       Setup.Prompted (Setup.prompt "Token" "secret");
       Setup.Printed Setup.SAVED]
      []
      (<[Setup.creds_file :=
           PickledDict
             (Setup.output_dict (Setup.keep "http://localhost:8086" EmptyString)
                                (Setup.keep "paros" "lab")
                                (Setup.keep "secret" EmptyString))]> Sample.fs)
      Setup.Saved.
Proof.
  apply (setup_rerun Sample.fs Sample.stored
           "http://localhost:8086" "paros" "secret");
    solve [reflexivity | discriminate].
Defined.

Lemma setup_unreadable_store_witness :
  exists e,
    Setup.main {[ Setup.creds_file := OtherFile ]} ["http://db:8086"]
    = Setup.mkResult [] ["http://db:8086"] {[ Setup.creds_file := OtherFile ]}
        (Setup.Raised e).
Proof.
  apply (setup_unreadable_store {[ Setup.creds_file := OtherFile ]}).
  - reflexivity.
  - intros d u o t Hnode. vm_compute in Hnode. discriminate Hnode.
Defined.

Lemma setup_failure_writes_nothing_witness :
  Setup.files (Setup.main Sample.fs ["http://other"; "lab"]) = Sample.fs.
Proof.
  apply (setup_failure_writes_nothing Sample.fs ["http://other"; "lab"]).
  vm_compute. discriminate.
Defined.
(** ** Filter clauses for any string *)

Section StringFacts.

Lemma string_length_app (a b : string) :
  String.length (a +:+ b) = (String.length a + String.length b)%nat.
Proof.
  induction a as [|x a IH]; [reflexivity|].
  change (S (String.length (a +:+ b)) = S (String.length a + String.length b)).
  f_equal. exact IH.
Qed.

Lemma string_app_inv_head (a b c : string) : a +:+ b = a +:+ c -> b = c.
Proof.
  induction a as [|x a IH]; [auto|].
  change (String x (a +:+ b) = String x (a +:+ c) -> b = c).
  intros [= H]. auto.
Qed.

Lemma string_app_inv_tail (a b c : string) : a +:+ c = b +:+ c -> a = b.
Proof.
  revert b. induction a as [|x a IH]; intros [|y b] H; simpl in *.
  - reflexivity.
  - change (c = String y (b +:+ c)) in H.
    apply (f_equal String.length) in H. cbn [String.length] in H.
    rewrite string_length_app in H. lia.
  - change (String x (a +:+ c) = c) in H.
    apply (f_equal String.length) in H. cbn [String.length] in H.
    rewrite string_length_app in H. lia.
  - change (String x (a +:+ c) = String y (b +:+ c)) in H.
    injection H as -> H. f_equal. auto.
Qed.

Lemma string_app_empty_r (a : string) : a +:+ EmptyString = a.
Proof.
  induction a as [|x a IH]; [reflexivity|].
  change (String x (a +:+ EmptyString) = String x a). f_equal. exact IH.
Qed.

Lemma substring_whole (p : string) : String.substring 0 (String.length p) p = p.
Proof.
  induction p as [|x p IH]; [reflexivity|].
  change (String x (String.substring 0 (String.length p) p) = String x p).
  f_equal. exact IH.
Qed.

Lemma substring_cut (n : nat) (p : string) :
  String.substring 0 n p +:+ String.substring n (String.length p - n) p = p.
Proof.
  revert p. induction n as [|n IH]; intros p.
  - rewrite Nat.sub_0_r, substring_whole. destruct p; reflexivity.
  - destruct p as [|x p]; [reflexivity|].
    change (String x (String.substring 0 n p)
            +:+ String.substring n (String.length p - n) p = String x p).
    change (String x (String.substring 0 n p
                      +:+ String.substring n (String.length p - n) p)
            = String x p).
    f_equal. apply IH.
Qed.

Lemma split_commas (s : string) :
  length (split comma s) = S (Shape.commas s).
Proof.
  induction s as [|a s IH]; [reflexivity|].
  cbn [split Shape.commas].
  destruct (Ascii.eqb a comma).
  - cbn [length]. rewrite IH. reflexivity.
  - destruct (split comma s) as [|w ws]; [discriminate|exact IH].
Qed.

Lemma join_split (c : ascii) (s : string) :
  join (String c EmptyString) (split c s) = s.
Proof.
  induction s as [|a s IH]; [reflexivity|].
  pose proof (split_not_nil c s) as Hn. cbn [split].
  destruct (split c s) as [|w ws]; [contradiction|].
  destruct (Ascii.eqb_spec a c) as [->|Hne].
  - change (join (String c EmptyString) (EmptyString :: w :: ws))
      with (String c (join (String c EmptyString) (w :: ws))).
    f_equal. exact IH.
  - rewrite <- IH. destruct ws as [|w' ws]; reflexivity.
Qed.

End StringFacts.

(** X7: whatever string is passed for a filter option, the clause is
    never empty, so the stage is always added to the query: it holds one
    predicate per piece between the commas of the string, one more than
    there are commas, empty pieces included, and the pieces are the
    string cut at its commas. *)
Theorem createFluxFilters_any_string (col s : string) :
  createFluxFilters col (Some s)
  = "|> filter(fn: (r) => "
    +:+ join " or " (map (predicate col) (split comma s)) +:+ ")"
  /\ length (map (predicate col) (split comma s)) = S (Shape.commas s)
  /\ join "," (split comma s) = s
  /\ stage (createFluxFilters col (Some s))
     = tab +:+ createFluxFilters col (Some s) +:+ nl.
Proof.
  split; [apply createFluxFilters_some|].
  split; [rewrite length_map; apply split_commas|].
  split; [apply join_split|].
  rewrite createFluxFilters_some. reflexivity.
Qed.

(** ** The export of the bundle [main] builds *)

Section ExportFacts.

Lemma skip_dots_join (p : string) (d : Z) (n : nat) (i : Z) :
  (skip_dots p i d n).1 +:+ (skip_dots p i d n).2 = p.
Proof.
  revert i. induction n as [|n IH]; intros i; cbn [skip_dots];
    [apply string_app_empty_r|].
  destruct (bool_decide _); [apply IH|].
  cbn [fst snd]. unfold prefix, suffix. apply substring_cut.
Qed.

Lemma splitext_join (p : string) : (splitext p).1 +:+ (splitext p).2 = p.
Proof.
  unfold splitext.
  destruct (rfind slash p <? rfind dot p);
    [apply skip_dots_join|apply string_app_empty_r].
Qed.

Lemma dict_set_fst (d : Bundle) k v :
  (dict_set d k v).*1 = if decide (k ∈ d.*1) then d.*1 else d.*1 ++ [k].
Proof.
  induction d as [|[k' v'] d IH]; [reflexivity|].
  cbn [dict_set]. destruct (decide (k' = k)) as [->|Hne].
  - rewrite decide_True by (simpl; left). reflexivity.
  - rewrite fmap_cons, IH. cbn [fst].
    destruct (decide (k ∈ d.*1)) as [Hin|Hout].
    + rewrite decide_True by (simpl; right; exact Hin). reflexivity.
    + rewrite decide_False; [reflexivity|].
      simpl. rewrite elem_of_cons. intros [->|?]; contradiction.
Qed.

Lemma collect_fst rs (d : Bundle) :
  (collect rs d).*1
  = fold_left (fun seen x => if decide (x ∈ seen) then seen else seen ++ [x])
              rs.*1 d.*1.
Proof.
  revert d. induction rs as [|[k v] rs IH]; intros d; [reflexivity|].
  unfold collect in *. cbn [fold_left fmap list_fmap fst snd].
  rewrite IH, dict_set_fst. reflexivity.
Qed.

Lemma bundle_entry (d : Bundle) k v :
  NoDup d.*1 -> (k, v) ∈ d -> dict_get d k = Some v.
Proof.
  induction d as [|[k' v'] d IH]; intros Hnd Hin.
  - apply elem_of_nil in Hin as [].
  - rewrite fmap_cons in Hnd. apply NoDup_cons in Hnd as [Hk' Hnd].
    cbn [dict_get]. apply elem_of_cons in Hin as [[= <- <-]|Hin].
    + rewrite decide_True by reflexivity. reflexivity.
    + destruct (decide (k' = k)) as [->|Hne]; [|auto].
      exfalso. apply Hk'. apply list_elem_of_fmap. exists (k, v). auto.
Qed.

End ExportFacts.

Section ExportClaims.
Context (L : Lib).

(** X8: when every table normalises and the output path ends in .csv,
    the files written are one per entry of the bundle, named after the
    stem and the identifier; the identifiers come in the order in which
    they first appear among the tables, each with the last table
    normalised for it, and no two files have the same path. *)
Theorem csv_export_of_tables dfs runs tz (output_file stem : string) :
  Forall2 (ran L tz) dfs runs ->
  splitext output_file = (stem, ".csv") ->
  exists out_df,
    process_dataframes L dfs tz = (concat runs.*1, Return out_df)
    /\ written (create_output out_df output_file).1
       = map (fun kv => (stem +:+ "_" +:+ kv.1 +:+ ".csv", Csv kv.2)) out_df
    /\ out_df.*1 = unique runs.*2.*1
    /\ (forall k v, (k, v) ∈ out_df ->
          last (filter (fun r => r.1 = k) runs.*2) = Some (k, v))
    /\ NoDup (written (create_output out_df output_file).1).*1.
Proof.
  intros Hall Hext. exists (collect runs.*2 []).
  assert (Hnd : NoDup (collect runs.*2 []).*1) by apply collect_nodup, NoDup_nil_2.
  destruct (create_output_csv (collect runs.*2 []) output_file stem Hext)
    as [Hw _].
  split; [exact (process_dataframes_collect L dfs runs tz Hall [])|].
  split; [exact Hw|]. split; [apply collect_fst|]. split.
  - intros k v Hin. pose proof (bundle_entry _ _ _ Hnd Hin) as Hget.
    rewrite collect_get in Hget.
    destruct (last (filter _ runs.*2)) as [[k' v']|] eqn:E; [|discriminate].
    apply last_Some_elem_of, list_elem_of_filter in E as E'.
    destruct E' as [Hk _]. simpl in *. congruence.
  - rewrite Hw, <- list_fmap_compose.
    apply (NoDup_fmap_2_strong _); [|eapply NoDup_fmap_1; exact Hnd].
    intros [k1 v1] [k2 v2] H1 H2 Heq. cbn in Heq.
    apply string_app_inv_head, string_app_inv_head, string_app_inv_tail in Heq.
    subst k2. f_equal.
    pose proof (bundle_entry _ _ _ Hnd H1). pose proof (bundle_entry _ _ _ Hnd H2).
    congruence.
Qed.

Lemma put_variables_named (out_df : Bundle) :
  Forall (fun kv => kv.1 <> EmptyString) out_df ->
  put_variables out_df
  = (filter (fun kv => Shape.underscored kv.1 = false) out_df, true).
Proof.
  induction 1 as [|[name var] out_df Hne _ IH]; [reflexivity|].
  cbn [put_variables]. rewrite IH, filter_cons. cbn [fst] in *.
  destruct name as [|a name]; [congruence|]. cbn [Shape.underscored].
  destruct (Ascii.eqb a "_").
  - rewrite decide_False by discriminate. reflexivity.
  - rewrite decide_True by reflexivity. reflexivity.
Qed.

(** X9: with the .mat or the .pickle extension exactly one file is
    written, at the very path given, also when the bundle is empty, and
    then one line is printed. The .pickle file holds the whole bundle;
    the .mat file holds, in the order of the bundle, the entries whose
    identifier does not start with an underscore, the others being
    skipped without a word (no identifier being empty, as none is that
    [main] builds). *)
Theorem create_output_single_file (out_df : Bundle) (output_file : string) :
  ((splitext output_file).2 = ".mat" ->
   Forall (fun kv => kv.1 <> EmptyString) out_df ->
   create_output out_df output_file
   = ([WriteFile output_file
         (Mat (filter (fun kv => Shape.underscored kv.1 = false) out_df));
       Print ("Saved file " +:+ output_file +:+ " successfully. Load in matlab.")],
      Return tt))
  /\ ((splitext output_file).2 = ".pickle" ->
      create_output out_df output_file
      = ([WriteFile output_file (Pickle out_df);
          Print (nl +:+ "Saved file " +:+ output_file
                 +:+ " successfully. Serialized as a dictionary of dataframes.")],
         Return tt)).
Proof.
  pose proof (splitext_join output_file) as Hjoin.
  unfold create_output, savemat.
  destruct (splitext output_file) as [stem ext]. cbn [fst snd] in *.
  split; intros ->; [intros Hnamed; rewrite (put_variables_named _ Hnamed)|];
    rewrite Hjoin; reflexivity.
Qed.

(** X10: the loop over the tables stops at the first table the
    normaliser fails on: what the tables before it printed stays
    printed, the exception is that table's, the tables after it are not
    looked at and no bundle comes out. *)
Theorem process_dataframes_stops_at_failure dfs runs bad rest tz ev e :
  Forall2 (ran L tz) dfs runs ->
  processInfluxDF L bad tz = (ev, Raise e) ->
  process_dataframes L (dfs ++ bad :: rest) tz = (concat runs.*1 ++ ev, Raise e).
Proof.
  intros Hall Hbad. unfold process_dataframes. generalize (@nil (string * DataFrame)).
  induction Hall as [|df [ev1 [id out]] dfs runs Hrun _ IH]; intros acc.
  - cbn [app fold_for]. rewrite Hbad. reflexivity.
  - unfold ran in Hrun. cbn [fst snd] in Hrun.
    cbn [app fold_for]. rewrite Hrun.
    rewrite bind_returned. cbn [ret fst snd]. rewrite app_nil_r.
    rewrite bind_returned, (IH (dict_set acc id out)).
    cbn [fst snd fmap list_fmap concat]. rewrite app_assoc. reflexivity.
Qed.

End ExportClaims.
(** ** The normaliser on any frame *)

Section Inversion.
Context {P : Type}.

Lemma bind_return_inv {A B} (m : M P A) (f : A -> M P B) ev b :
  Py.bind m f = (ev, Return b) ->
  exists ev1 a ev2, m = (ev1, Return a) /\ f a = (ev2, Return b) /\ ev = ev1 ++ ev2.
Proof.
  destruct m as [ev1 [a|e|c]]; cbn [Py.bind]; try discriminate.
  destruct (f a) as [ev2 r] eqn:E. intros [= <- ->]. eauto 6.
Qed.

End Inversion.

Section NormaliserAnyFrame.
Context (L : Lib) {P : Type}.

Lemma select_nonempty (df : DataFrame) k : select df k <> [] <-> k ∈ labels df.
Proof.
  split.
  - intros Hne. destruct (decide (k ∈ labels df)) as [|Hout]; [assumption|].
    destruct Hne. apply select_absent, Hout.
  - intros Hin Hnil. unfold labels in Hin.
    apply list_elem_of_fmap in Hin as ([k' c] & -> & Hin). cbn [fst] in *.
    assert (Hc : c ∈ select df k').
    { unfold select. apply list_elem_of_fmap. exists (k', c).
      split; [reflexivity|]. apply list_elem_of_filter. auto. }
    rewrite Hnil in Hc. apply elem_of_nil in Hc as [].
Qed.

Lemma col_head_is_Some c : is_Some (col_head c) <-> (0 < col_len c)%nat.
Proof.
  split; [|apply col_head_nonempty].
  intros [x Hx]. destruct (col_len c) eqn:E; [|lia].
  rewrite (col_head_empty c E) in Hx. discriminate.
Qed.

Lemma first_str_returns (df : DataFrame) k :
  k ∈ labels df -> Forall (fun c => (0 < col_len c)%nat) (select df k) ->
  exists m, first_str (P:=P) L df k = ret m.
Proof.
  intros Hin Hrows. apply select_nonempty in Hin. unfold first_str.
  destruct (select df k) as [|c [|c' cs]] eqn:E; [contradiction| |].
  - apply Forall_cons in Hrows as [Hc _].
    apply col_head_is_Some in Hc as [x ->]. eauto.
  - assert (Hall : is_Some (mapM col_head (c :: c' :: cs))).
    { apply mapM_is_Some. eapply Forall_impl; [exact Hrows|].
      intros c0. apply col_head_is_Some. }
    destruct Hall as [row ->]. eauto.
Qed.

Lemma first_str_returned (df : DataFrame) k ev m :
  first_str (P:=P) L df k = (ev, Return m) ->
  ev = [] /\ k ∈ labels df /\ Forall (fun c => (0 < col_len c)%nat) (select df k).
Proof.
  unfold first_str. intros H.
  assert (Hne : select df k <> []) by (intros E; rewrite E in H; discriminate).
  rewrite <- select_nonempty. split; [|split; [exact Hne|]].
  - destruct (select df k) as [|c [|c' cs]]; [discriminate| |].
    + destruct (col_head c); [|discriminate]. injection H as <- _. reflexivity.
    + destruct (mapM col_head _); [|discriminate]. injection H as <- _. reflexivity.
  - destruct (select df k) as [|c [|c' cs]]; [contradiction| |].
    + constructor; [|constructor]. apply col_head_is_Some.
      destruct (col_head c); [eauto|discriminate].
    + eapply Forall_impl; [|intros c0; apply col_head_is_Some].
      apply (mapM_is_Some col_head).
      destruct (mapM col_head _); [eauto|discriminate].
Qed.

Lemma drop_returned (df : DataFrame) names out :
  drop df names = inr out ->
  Forall (fun n => n ∈ labels df) names /\ out = filter (fun x => x.1 ∉ names) df.
Proof.
  unfold drop. intros H.
  destruct (filter _ names) as [|missing l] eqn:E; [|discriminate].
  injection H as <-. split; [|reflexivity].
  apply Forall_forall. intros n Hn.
  destruct (decide (n ∈ labels df)) as [|Hout]; [assumption|].
  assert (Hin : n ∈ filter (fun n => n ∉ labels df) names)
    by (apply list_elem_of_filter; auto).
  rewrite E in Hin. apply elem_of_nil in Hin as [].
Qed.

Lemma err_step (d : DataFrame) :
  (if has_label d "err"
   then
     let err_list := unique (String.list_ascii_of_string "err") in
     run (if (1 <? length err_list)%nat then print WARNING else ret tt);
     lift (P:=P) (drop d ["err"])
   else ret d)
  = ((if has_label d "err" then [Print WARNING] else []),
     Return (filter (fun x => x.1 ∉ ["err"]) d)).
Proof.
  destruct (has_label d "err") eqn:E.
  - rewrite drop_present
      by (constructor; [apply has_label_true, E|constructor]).
    reflexivity.
  - apply has_label_false in E. rewrite (filter_label_absent d "err" E).
    reflexivity.
Qed.

Lemma has_label_filter_other (df : DataFrame) (names : list string) k :
  k ∉ names ->
  has_label (filter (fun x => x.1 ∉ names) df) k = has_label df k.
Proof.
  intros Hk. unfold has_label. apply bool_decide_ext. unfold labels.
  rewrite !list_elem_of_fmap.
  split; intros (x & Hx & Hin); exists x; split; try assumption.
  - apply list_elem_of_filter in Hin as [_ Hin]. exact Hin.
  - apply list_elem_of_filter. rewrite <- Hx. auto.
Qed.

(** The normaliser up to the renaming of the time column, when the
    identifier can be read and the bookkeeping columns are there. *)
Lemma processInfluxDF_dropped (df : DataFrame) tz m i :
  first_str (P:=P) L df "_measurement" = ret m ->
  first_str (P:=P) L df "id" = ret i ->
  Forall (fun n => n ∈ labels df) ["result"; "table"; "_measurement"; "id"] ->
  processInfluxDF (P:=P) L df tz
  = (warnings df ++ (Shape.retime (P:=P) L (filter (fun x => x.1 ∉ dropped) df) tz
                       (m +:+ "_" +:+ i)).1,
     (Shape.retime (P:=P) L (filter (fun x => x.1 ∉ dropped) df) tz (m +:+ "_" +:+ i)).2).
Proof.
  intros Hm Hi Hbook. unfold processInfluxDF.
  rewrite Hm, bind_ret_l, Hi, bind_ret_l. cbv zeta.
  rewrite drop_present by assumption. cbn [lift]. rewrite bind_ret_l.
  rewrite drop_if_present, bind_ret_l.
  rewrite err_step, bind_returned.
  rewrite !has_label_filter_other by label_notin.
  rewrite dropped_filter. reflexivity.
Qed.

(** The columns that rename to [time] are those labelled [_time] or
    [time]. *)
Lemma select_rename (d : DataFrame) :
  select (rename d "_time" "time") "time"
  = (filter (fun kc => kc.1 = "_time" \/ kc.1 = "time") d).*2.
Proof.
  unfold select, rename. induction d as [|[k c] d IH]; [reflexivity|].
  cbn [map]. rewrite !filter_cons. cbn [fst snd].
  destruct (decide (k = "_time")) as [->|Hne].
  - rewrite decide_True by reflexivity. rewrite decide_True by (left; reflexivity).
    rewrite !fmap_cons, IH. reflexivity.
  - cbn [fst]. destruct (decide (k = "time")) as [->|Hne'].
    + rewrite decide_True by (right; reflexivity). rewrite !fmap_cons, IH. reflexivity.
    + rewrite decide_False by tauto. exact IH.
Qed.

Lemma time_columns_filter (df : DataFrame) :
  (filter (fun kc => kc.1 = "_time" \/ kc.1 = "time")
          (filter (fun x => x.1 ∉ dropped) df)).*2
  = Shape.time_columns df.
Proof.
  unfold Shape.time_columns. f_equal.
  rewrite list_filter_filter. apply list_filter_iff.
  intros [k c]. cbn [fst]. split; [tauto|].
  intros H. split; [exact H|].
  unfold dropped. destruct H as [->| ->]; label_notin.
Qed.

End NormaliserAnyFrame.

Section NormaliserAnyFrame2.
Context (L : Lib) {P : Type}.

Lemma filter_single {A} (Q : A -> Prop) `{!forall x, Decision (Q x)} (l : list A) x :
  filter Q l = [x] ->
  exists l1 l2, l = l1 ++ x :: l2 /\ Q x
                /\ Forall (fun y => ~ Q y) l1 /\ Forall (fun y => ~ Q y) l2.
Proof.
  induction l as [|y l IH]; [discriminate|].
  rewrite filter_cons. destruct (decide (Q y)) as [Hy|Hy].
  - intros [= -> Hnil]. exists [], l. split; [reflexivity|]. split; [exact Hy|].
    split; [constructor|]. apply Forall_forall. intros z Hz Hq.
    assert (Hin : z ∈ filter Q l) by (apply list_elem_of_filter; auto).
    rewrite Hnil in Hin. apply elem_of_nil in Hin as [].
  - intros Hf. destruct (IH Hf) as (l1 & l2 & -> & Hx & H1 & H2).
    exists (y :: l1), l2. repeat split; try assumption. constructor; assumption.
Qed.

Lemma map_unless (Q : string * column -> Prop) `{!forall x, Decision (Q x)}
    (g : string * column -> string * column) (l : DataFrame) :
  Forall (fun y => ~ Q y) l ->
  map (fun x => if decide (Q x) then g x else x) l = l.
Proof.
  intros Hall. induction Hall as [|y l Hy _ IH]; [reflexivity|].
  cbn [map]. rewrite decide_False by assumption. rewrite IH. reflexivity.
Qed.

Lemma no_time_labels (l : DataFrame) :
  Forall (fun y => ~ (y.1 = "_time" \/ y.1 = "time")) l ->
  ("_time" ∉ labels l) /\ ("time" ∉ labels l).
Proof.
  intros H. rewrite Forall_forall in H. unfold labels.
  split; intros Hin; apply list_elem_of_fmap in Hin as (y & Hy & Hin);
    apply (H y Hin); auto.
Qed.

(** A frame with one column labelled [_time] or [time], tz-aware: the
    column is converted where it stands. *)
Lemma retime_accepted (d : DataFrame) tz z z0 v (id_str : string) :
  pandas_zone L tz = Some z ->
  Forall (fun t => timelike t /\ timelike (wall z t)) v ->
  (filter (fun kc => kc.1 = "_time" \/ kc.1 = "time") d).*2 = [ColDatetimeTz z0 v] ->
  Shape.retime (P:=P) L d tz id_str
  = ret (id_str,
         map (fun c => if decide (c.1 = "_time" \/ c.1 = "time")
                       then ("time", time_column z c.2) else c) d).
Proof.
  intros Hz Hv Hone.
  destruct (filter _ d) as [|[k c] [|? ?]] eqn:E; try discriminate.
  injection Hone as ->.
  destruct (filter_single _ d _ E) as (l1 & l2 & -> & Hk & H1 & H2).
  cbn [fst] in Hk.
  destruct (no_time_labels l1 H1) as [Ha1 Hb1].
  destruct (no_time_labels l2 H2) as [Ha2 Hb2].
  rewrite map_app. cbn [map]. rewrite !map_unless by assumption.
  rewrite decide_True by exact Hk. cbn [snd].
  pose proof (retime_focus L (P:=P) l1 l2 z0 v tz z id_str Ha1 Ha2 Hb1 Hb2 Hz Hv)
    as Hr.
  cbv zeta in Hr. rewrite rename_focus in Hr by assumption.
  unfold Shape.retime. cbv zeta.
  assert (Hren : rename (l1 ++ (k, ColDatetimeTz z0 v) :: l2) "_time" "time"
                 = l1 ++ ("time", ColDatetimeTz z0 v) :: l2).
  { destruct Hk as [->| ->]; [apply rename_focus; assumption|].
    unfold rename. rewrite map_app. cbn [map fst].
    rewrite decide_False by discriminate.
    rewrite !(map_label_absent (fun c => ("time", c.2))) by assumption.
    reflexivity. }
  rewrite Hren. exact Hr.
Qed.

Lemma retime_returned (d : DataFrame) tz (id_str : string) ev r :
  Shape.retime (P:=P) L d tz id_str = (ev, Return r) ->
  is_Some (pandas_zone L tz)
  /\ exists z0 v, select (rename d "_time" "time") "time" = [ColDatetimeTz z0 v].
Proof.
  unfold Shape.retime. cbv zeta. intros H.
  apply bind_return_inv in H as (ev1 & c & ev2 & Hs & H & _).
  apply bind_return_inv in H as (ev3 & c' & ev4 & Hc & _ & _).
  unfold series in Hs.
  destruct (select _ "time") as [|c0 [|? ?]]; try discriminate.
  injection Hs as _ ->.
  unfold dt_tz_convert in Hc.
  destruct c; try discriminate; destruct (pandas_zone L tz); try discriminate.
  split; eauto.
Qed.

(** X11: the normaliser returns only on a frame that has the four
    bookkeeping labels, a first row under [_measurement] and [id], and
    exactly one column labelled [_time] or [time], which is tz-aware,
    and only for an output zone the zone database knows. *)
Theorem processInfluxDF_returns_only_if (df : DataFrame) tz ev r :
  processInfluxDF (P:=P) L df tz = (ev, Return r) ->
  Shape.accepted L df tz.
Proof.
  intros H. pose proof H as H0. unfold processInfluxDF in H0.
  apply bind_return_inv in H0 as (ev1 & m & ev2 & Hm & H0 & _).
  apply bind_return_inv in H0 as (ev3 & i & ev4 & Hi & H0 & _).
  cbv zeta in H0.
  apply bind_return_inv in H0 as (ev5 & out & ev6 & Hd & _ & _).
  destruct (first_str_returned L df _ _ _ Hm) as (-> & _ & Hrm).
  destruct (first_str_returned L df _ _ _ Hi) as (-> & _ & Hri).
  destruct (drop df _) as [e|out'] eqn:Ed; [discriminate|].
  apply drop_returned in Ed as [Hbook _].
  rewrite (processInfluxDF_dropped L df tz m i Hm Hi Hbook) in H.
  destruct (Shape.retime _ _ _ _) as [ev' r'] eqn:Er. cbn [fst snd] in H.
  injection H as _ ->.
  apply retime_returned in Er as (Hz & z0 & v & Ht).
  rewrite select_rename, time_columns_filter in Ht.
  split; [exact Hbook|]. split; [apply Forall_app; auto|]. split; eauto.
Qed.

Lemma instants_time_columns (df : DataFrame) :
  instants df
  = concat (map (fun c => match c with ColDatetimeTz _ v => v | _ => [] end)
                (Shape.time_columns df)).
Proof.
  unfold instants, Shape.time_columns. f_equal.
  induction (filter _ df) as [|[k c] d IH]; [reflexivity|].
  cbn [map]. rewrite fmap_cons. cbn [map snd]. f_equal. exact IH.
Qed.

Lemma within_int64_time_column (z : zoneinfo) (df : DataFrame) z0 v :
  within_int64 z df -> Shape.time_columns df = [ColDatetimeTz z0 v] ->
  Forall (fun t => timelike t /\ timelike (wall z t)) v.
Proof.
  unfold within_int64. rewrite instants_time_columns. intros Hw Ht.
  rewrite Ht in Hw. cbn [map concat] in Hw. rewrite app_nil_r in Hw. exact Hw.
Qed.

(** On an accepted frame whose times stay within int64 the normaliser
    returns the converted frame. *)
Lemma processInfluxDF_accepted (df : DataFrame) tz z :
  Shape.accepted L df tz -> pandas_zone L tz = Some z -> within_int64 z df ->
  exists m i,
    first_str (P:=P) L df "_measurement" = ret m
    /\ first_str (P:=P) L df "id" = ret i
    /\ processInfluxDF (P:=P) L df tz
       = (warnings df, Return (m +:+ "_" +:+ i, Shape.retimed z df)).
Proof.
  intros (Hbook & Hrows & _ & z0 & v & Ht) Hz Hwithin.
  pose proof (within_int64_time_column z df z0 v Hwithin Ht) as Hv.
  apply Forall_app in Hrows as [Hrm Hri].
  destruct (first_str_returns L (P:=P) df "_measurement") as [m Hm];
    [rewrite Forall_forall in Hbook; apply Hbook; label_in|exact Hrm|].
  destruct (first_str_returns L (P:=P) df "id") as [i Hi];
    [rewrite Forall_forall in Hbook; apply Hbook; label_in|exact Hri|].
  exists m, i. split; [exact Hm|]. split; [exact Hi|].
  rewrite (processInfluxDF_dropped L df tz m i Hm Hi Hbook).
  rewrite <- time_columns_filter in Ht.
  rewrite (retime_accepted _ tz z z0 v _ Hz Hv Ht).
  cbn [ret fst snd]. rewrite app_nil_r. reflexivity.
Qed.

Lemma select_retimed (z : zoneinfo) (df : DataFrame) :
  select (Shape.retimed z df) "time"
  = map (time_column z) (Shape.time_columns df).
Proof.
  rewrite <- time_columns_filter. unfold Shape.retimed, select.
  induction (filter (fun c => c.1 ∉ dropped) df) as [|[k c] d IH]; [reflexivity|].
  cbn [map]. rewrite !filter_cons. cbn [fst snd].
  destruct (decide (k = "_time" \/ k = "time")) as [Hk|Hk].
  - cbn [fst]. rewrite decide_True by reflexivity.
    rewrite !fmap_cons. cbn [map snd]. f_equal. exact IH.
  - cbn [fst]. rewrite decide_False by tauto. exact IH.
Qed.

(** X12: on such a frame, when every instant of its time column and
    the wall-clock time in the output zone at it are int64 times (not
    NaT), the normaliser returns: it prints the warning exactly when
    there is an [err] label, the identifier is what the first row shows
    under [_measurement] and [id], and the table is the frame without
    the dropped labels, every column as it was and where it was except
    the time column, which is called [time] and holds the seconds from
    1970-01-01T00:00:00 to the wall-clock time in the output zone. *)
Theorem processInfluxDF_accepted_result (df : DataFrame) tz z z0 v :
  Shape.accepted L df tz ->
  pandas_zone L tz = Some z ->
  within_int64 z df ->
  Shape.time_columns df = [ColDatetimeTz z0 v] ->
  exists m i out,
    first_str (P:=P) L df "_measurement" = ret m
    /\ first_str (P:=P) L df "id" = ret i
    /\ processInfluxDF (P:=P) L df tz
       = ((if has_label df "err" then [Print WARNING] else []),
          Return (m +:+ "_" +:+ i, out))
    /\ labels out
       = map (fun k => if decide (k = "_time") then "time" else k)
             (filter (fun k => k ∉ dropped) (labels df))
    /\ select out "time" = [ColFloat (map (fun t => unix_seconds (wall z t)) v)]
    /\ filter (fun kc => kc.1 <> "time") out
       = filter (fun kc => kc.1 ∉ "_time" :: "time" :: dropped) df.
Proof.
  intros Hacc Hz Hwithin Ht.
  destruct (processInfluxDF_accepted df tz z Hacc Hz Hwithin)
    as (m & i & Hm & Hi & Hrun).
  clear Hwithin.
  exists m, i, (Shape.retimed z df).
  split; [exact Hm|]. split; [exact Hi|]. split; [exact Hrun|].
  split; [|split].
  - clear Hacc Ht Hm Hi Hrun. unfold Shape.retimed, labels.
    induction df as [|[k c] df IH]; [reflexivity|].
    rewrite fmap_cons, !filter_cons. cbn [fst].
    destruct (decide (k ∉ dropped)) as [Hk|Hk]; [|apply IH].
    cbn [map]. rewrite fmap_cons. f_equal; [|apply IH].
    cbn [fst]. destruct (decide (k = "_time")) as [->|Hne].
    + rewrite decide_True by (left; reflexivity). reflexivity.
    + destruct (decide (k = "_time" \/ k = "time")) as [[?| ->]|?];
        [contradiction|reflexivity|reflexivity].
  - rewrite select_retimed, Ht. reflexivity.
  - clear Hacc Ht Hm Hi Hrun. unfold Shape.retimed.
    induction df as [|[k c] df IH]; [reflexivity|].
    rewrite !filter_cons. cbn [fst].
    destruct (decide (k ∉ dropped)) as [Hk|Hk].
    + cbn [map]. rewrite filter_cons. cbn [fst snd].
      destruct (decide (k = "_time" \/ k = "time")) as [Ht'|Ht']; cbn [fst].
      * rewrite decide_False by (intros Hn; apply Hn; reflexivity).
        rewrite decide_False
          by (rewrite !not_elem_of_cons; destruct Ht'; tauto).
        apply IH.
      * rewrite decide_True by tauto.
        rewrite decide_True by (rewrite !not_elem_of_cons; tauto).
        f_equal. apply IH.
    + rewrite decide_False by (rewrite !not_elem_of_cons; tauto). apply IH.
Qed.

End NormaliserAnyFrame2.

(** ** When the query can be built *)

Section QueryAnyArguments.
Context (L : Lib) {P : Type}.


Lemma utc_naive_cases (zin : zoneinfo) (text : string) :
  utc_naive (P:=P) L zin text
  = match fromisoformat L text with
    | Some (t, None) =>
        match add_seconds t (- wall_offset zin t) with
        | Some t' => ret t'
        | None => raise OverflowError
        end
    | _ => raise ValueError
    end.
Proof.
  unfold utc_naive, localize, astimezone_utc.
  destruct (fromisoformat L text) as [[t [tz|]]|]; try reflexivity.
  cbn [or_raise]. rewrite !bind_ret_l. cbn [fst snd utcoffset].
  destruct (add_seconds t _); reflexivity.
Qed.


Lemma utc_naive_quiet (zin : zoneinfo) (text : string) :
  (utc_naive (P:=P) L zin text).1 = []
  /\ forall c, (utc_naive (P:=P) L zin text).2 <> Exit c.
Proof.
  rewrite utc_naive_cases.
  destruct (fromisoformat L text) as [[t [tz|]]|];
    try destruct (add_seconds t _); split; try reflexivity; discriminate.
Qed.


End QueryAnyArguments.

(** ** The query window and the exported times *)

Section RoundTrip.
Context (L : Lib) {P : Type}.

(** X14: when the output zone is the input zone, pytz and pandas
    resolving its name to the same zone, a sample taken at the instant
    the start argument denotes is exported with the seconds from
    1970-01-01T00:00:00 to the wall-clock time that was typed, provided
    the zone has, at that instant, the offset it gave to that wall-clock
    time, and the times of the frame stay within int64 in the zone. *)
Theorem window_round_trip (df : DataFrame) tz z text s s_utc z0 v (n : nat) :
  Shape.accepted L df tz ->
  timezone L tz = Some z ->
  pandas_zone L tz = Some z ->
  within_int64 z df ->
  Shape.time_columns df = [ColDatetimeTz z0 v] ->
  fromisoformat L text = Some (s, None) ->
  utc_naive (P:=P) L z text = ret s_utc ->
  v !! n = Some (Shape.epoch_ns s_utc) ->
  instant_offset z (Shape.epoch_ns s_utc) = wall_offset z s * 1000000000 ->
  exists id out times,
    processInfluxDF (P:=P) L df tz = (warnings df, Return (id, out))
    /\ select out "time" = [ColFloat times]
    /\ times !! n = Some (unix_seconds (Shape.epoch_ns s)).
Proof.
  intros Hacc _ Hz Hwithin Ht Hs Hutc Hn Hoff.
  destruct (processInfluxDF_accepted L (P:=P) df tz z Hacc Hz Hwithin)
    as (m & i & _ & _ & Hrun).
  exists (m +:+ "_" +:+ i), (Shape.retimed z df),
         (map (fun t => unix_seconds (wall z t)) v).
  split; [exact Hrun|]. split.
  - rewrite select_retimed, Ht. reflexivity.
  - rewrite list_lookup_fmap, Hn. cbn [fmap option_fmap option_map]. f_equal. f_equal.
    rewrite utc_naive_cases, Hs in Hutc.
    destruct (add_seconds s _) as [t'|] eqn:Ea; [|discriminate].
    injection Hutc as ->. apply add_seconds_to_micros in Ea.
    unfold wall. rewrite Hoff. unfold Shape.epoch_ns. lia.
Qed.

End RoundTrip.

(** ** Splitting a frame by its table index *)

Section SplitterFacts.
Import Program.

Lemma filter_all {A} (l : list A) :
  filter (fun x => (fun _ : A => true) x = true) l = l.
Proof.
  induction l as [|x l IH]; [reflexivity|].
  rewrite filter_cons, decide_True by reflexivity. rewrite IH. reflexivity.
Qed.

Lemma distinct_elem (l : list Z) x : x ∈ distinct Z.eqb l <-> x ∈ l.
Proof.
  induction l as [|y l IH]; [reflexivity|].
  cbn [distinct]. rewrite !elem_of_cons, list_elem_of_filter, IH.
  destruct (Z.eqb_spec x y); intuition congruence.
Qed.

Lemma distinct_nodup (l : list Z) : NoDup (distinct Z.eqb l).
Proof.
  induction l as [|y l IH]; [constructor|].
  cbn [distinct]. constructor; [|apply NoDup_filter, IH].
  rewrite list_elem_of_filter, Z.eqb_refl. intros [[=] _].
Qed.

Lemma sorted_keys_perm (t : list Z) :
  sorted_keys Z.leb Z.eqb (fun _ => true) t ≡ₚ distinct Z.eqb t.
Proof.
  unfold sorted_keys. rewrite merge_sort_Permutation, filter_all. reflexivity.
Qed.

Lemma sorted_keys_elem (t : list Z) x :
  x ∈ sorted_keys Z.leb Z.eqb (fun _ => true) t <-> x ∈ t.
Proof. rewrite sorted_keys_perm. apply distinct_elem. Qed.

Lemma sorted_keys_nodup (t : list Z) :
  NoDup (sorted_keys Z.leb Z.eqb (fun _ => true) t).
Proof. rewrite sorted_keys_perm. apply distinct_nodup. Qed.

Lemma sorted_keys_ascending (t : list Z) :
  StronglySorted Z.lt (sorted_keys Z.leb Z.eqb (fun _ => true) t).
Proof.
  pose proof (sorted_keys_nodup t) as Hnd. unfold sorted_keys in *.
  assert (Hs : StronglySorted (fun a b => Is_true (a <=? b))
                 (merge_sort (fun a b => Is_true (a <=? b))
                    (distinct Z.eqb (filter (fun x => (fun _ : Z => true) x = true) t)))).
  { apply StronglySorted_merge_sort.
    - intros a b c Hab Hbc. apply Is_true_true in Hab, Hbc.
      apply Is_true_true. lia.
    - intros a b. destruct (Z.leb_spec a b) as [Hab|Hab].
      + left. exact I.
      + right. apply Is_true_true. lia. }
  induction Hs as [|a l Hs IH Hall]; [constructor|].
  apply NoDup_cons in Hnd as [Ha Hnd]. constructor; [apply IH, Hnd|].
  rewrite Forall_forall in *. intros b Hb.
  pose proof (Hall b Hb) as Hab. apply Is_true_true in Hab.
  assert (a <> b) by (intros ->; contradiction). lia.
Qed.

Lemma keep_rows_zip {A} (t : list Z) (l : list A) k :
  keep_rows (map (fun x => true && (x =? k)) t) l
  = (filter (fun p => p.1 = k) (zip t l)).*2.
Proof.
  revert l. induction t as [|x t IH]; intros [|y l]; try reflexivity.
  cbn [map keep_rows zip zip_with andb]. rewrite filter_cons. cbn [fst].
  destruct (Z.eqb_spec x k) as [->|Hne].
  - rewrite decide_True by reflexivity. rewrite fmap_cons, IH. reflexivity.
  - rewrite decide_False by assumption. apply IH.
Qed.

Lemma keep_rows_length {A} (m : list bool) (l : list A) :
  length m = length l ->
  length (keep_rows m l) = length (filter (fun b => b = true) m).
Proof.
  revert l. induction m as [|b m IH]; intros [|x l] [=]; [reflexivity|].
  cbn [keep_rows]. rewrite filter_cons. destruct b.
  - rewrite decide_True by reflexivity. cbn [length]. rewrite IH by assumption.
    reflexivity.
  - rewrite decide_False by discriminate. apply IH. assumption.
Qed.

Lemma take_len (m : list bool) (c : column) :
  col_len c = length m ->
  col_len (take m c) = length (filter (fun b => b = true) m).
Proof.
  intros H. destruct c; cbn [take col_len] in *;
    apply keep_rows_length; symmetry; exact H.
Qed.

Lemma labels_rows_of (m : list bool) (df : DataFrame) :
  labels (rows_of m df) = labels df.
Proof.
  unfold labels, rows_of. rewrite <- list_fmap_compose.
  apply list_fmap_ext. intros _ [k c] _. reflexivity.
Qed.

Lemma filter_rows_of (Q : string -> Prop) `{!forall k, Decision (Q k)}
    (m : list bool) (df : DataFrame) :
  filter (fun kc => Q kc.1) (rows_of m df)
  = rows_of m (filter (fun kc => Q kc.1) df).
Proof.
  unfold rows_of. induction df as [|[k c] df IH]; [reflexivity|].
  cbn [map]. rewrite !filter_cons. cbn [fst].
  destruct (decide (Q k)); cbn [map]; rewrite IH; reflexivity.
Qed.

Lemma select_rows_of (m : list bool) (df : DataFrame) k :
  select (rows_of m df) k = map (take m) (select df k).
Proof.
  unfold select.
  pose proof (filter_rows_of (fun l => l = k) m df) as Hf. cbv beta in Hf.
  rewrite Hf. unfold rows_of. rewrite <- !list_fmap_compose.
  apply list_fmap_ext. intros _ [k' c] _. reflexivity.
Qed.

Lemma nrows_rows_of (m : list bool) (df : DataFrame) :
  Shape.nrows df (length m) ->
  Shape.nrows (rows_of m df) (length (filter (fun b => b = true) m)).
Proof.
  unfold Shape.nrows, rows_of. intros H. apply Forall_fmap.
  eapply Forall_impl; [exact H|]. intros [k c] Hc. cbn [fst snd] in *.
  apply take_len, Hc.
Qed.

Lemma nrows_tail (df : DataFrame) n :
  Shape.nrows df (S n) -> Shape.nrows (Shape.frame_tail df) n.
Proof.
  unfold Shape.nrows, Shape.frame_tail. intros H. apply Forall_fmap.
  eapply Forall_impl; [exact H|]. intros [k c] Hc. cbn [fst snd] in *.
  destruct c as [v|v|v|z v|v|v]; destruct v; cbn in *; congruence.
Qed.

Lemma rows_of_skip (m : list bool) (df : DataFrame) :
  rows_of (false :: m) df = rows_of m (Shape.frame_tail df).
Proof.
  unfold rows_of, Shape.frame_tail. rewrite <- list_fmap_compose.
  apply list_fmap_ext. intros _ [k c] _. cbn [fst snd compose]. f_equal.
  destruct c as [v|v|v|z v|v|v]; destruct v; cbn [take Shape.col_tail keep_rows tail];
    try reflexivity; destruct m; reflexivity.
Qed.

Lemma rows_of_keep (m : list bool) (df : DataFrame) n :
  Shape.nrows df (S n) ->
  map (fun kc => col_head kc.2) (rows_of (true :: m) df)
  = map (fun kc => col_head kc.2) df
  /\ Shape.frame_tail (rows_of (true :: m) df) = rows_of m (Shape.frame_tail df).
Proof.
  unfold Shape.nrows, rows_of, Shape.frame_tail. intros H.
  rewrite <- !list_fmap_compose. split.
  - apply Forall_fmap_ext_1. eapply Forall_impl; [exact H|].
    intros [k c] Hc. cbn [fst snd compose] in *.
    destruct c as [v|v|v|z v|v|v]; destruct v; cbn in *; congruence.
  - apply Forall_fmap_ext_1. eapply Forall_impl; [exact H|].
    intros [k c] Hc. cbn [fst snd compose] in *. f_equal.
    destruct c as [v|v|v|z v|v|v]; destruct v; cbn in *; congruence.
Qed.

(** The rows of the frame a mask selects are the rows of the frame at
    the positions of the mask. *)
Lemma rows_rows_of (m : list bool) (df : DataFrame) :
  Shape.nrows df (length m) ->
  Shape.rows (length (filter (fun b => b = true) m)) (rows_of m df)
  = keep_rows m (Shape.rows (length m) df).
Proof.
  revert df. induction m as [|b m IH]; intros df H; [reflexivity|].
  cbn [length] in H. pose proof (nrows_tail df _ H) as Ht.
  rewrite filter_cons. cbn [length Shape.rows keep_rows]. destruct b.
  - rewrite decide_True by reflexivity. cbn [length Shape.rows].
    destruct (rows_of_keep m df _ H) as [-> ->]. rewrite IH by assumption.
    reflexivity.
  - rewrite decide_False by discriminate.
    rewrite rows_of_skip. apply IH, Ht.
Qed.

Lemma rows_length n (df : DataFrame) : length (Shape.rows n df) = n.
Proof.
  revert df. induction n as [|n IH]; intros df; [reflexivity|].
  cbn [Shape.rows length]. rewrite IH. reflexivity.
Qed.

(** Filtering by each key of a duplicate-free list of keys that covers
    the list sorts the list into parts. *)
Lemma concat_filter_keys {A} (keys : list Z) (zl : list (Z * A)) :
  NoDup keys -> (forall p, p ∈ zl -> p.1 ∈ keys) ->
  concat (map (fun k => filter (fun p => p.1 = k) zl) keys) ≡ₚ zl.
Proof.
  revert zl. induction keys as [|k keys IH]; intros zl Hnd Hcov.
  - destruct zl as [|p zl]; [reflexivity|].
    exfalso. apply (not_elem_of_nil p.1). apply Hcov. left.
  - apply NoDup_cons in Hnd as [Hk Hnd]. cbn [map concat].
    etrans; [|apply (filter_app_complement (fun p => p.1 = k) zl)].
    apply Permutation_app_head.
    assert (Heq : map (fun k' => filter (fun p => p.1 = k') zl) keys
                  = map (fun k' => filter (fun p => p.1 = k')
                                     (filter (fun p => ~ p.1 = k) zl)) keys).
    { apply map_ext_in. intros k' Hk'.
      rewrite list_filter_filter. apply list_filter_iff. intros p.
      split; [|tauto]. intros ->. split; [reflexivity|].
      intros ->. apply Hk. apply list_elem_of_In. exact Hk'. }
    rewrite Heq. apply IH; [exact Hnd|].
    intros p Hp. apply list_elem_of_filter in Hp as [Hne Hp].
    specialize (Hcov p Hp).
    apply elem_of_cons in Hcov as [?|?]; [contradiction|assumption].
Qed.

Lemma table_column_length (df : DataFrame) t n :
  select df "table" = [ColInt t] -> Shape.nrows df n -> length t = n.
Proof.
  intros Hs Hn. assert (Hin : ("table", ColInt t) ∈ df).
  { apply select_elem. rewrite Hs. left. }
  unfold Shape.nrows in Hn. rewrite Forall_forall in Hn. exact (Hn _ Hin).
Qed.

End SplitterFacts.

Section SplitterClaims.
Import Program.

Lemma frame_len_rows_of (m : list bool) (df : DataFrame) :
  df <> [] -> Shape.nrows df (length m) ->
  Shape.frame_len (rows_of m df) = length (filter (fun b => b = true) m).
Proof.
  destruct df as [|[k c] df]; [congruence|]. intros _ H.
  apply Forall_cons in H as [Hc _]. cbn [rows_of map Shape.frame_len fst snd] in *.
  apply take_len, Hc.
Qed.

Lemma concat_map_fmap {A B C} (f : B -> C) (g : A -> list B) (l : list A) :
  concat (map (fun k => f <$> g k) l) = f <$> concat (map g l).
Proof.
  induction l as [|x l IH]; [reflexivity|].
  cbn [map concat]. rewrite fmap_app, IH. reflexivity.
Qed.

Lemma keep_rows_sublist {A} (m : list bool) (l : list A) :
  keep_rows m l `sublist_of` l.
Proof.
  revert l. induction m as [|b m IH]; intros [|x l]; cbn [keep_rows];
    try apply sublist_nil_l.
  destruct b; [apply sublist_skip|apply sublist_cons]; apply IH.
Qed.

Lemma keep_rows_key (t : list Z) k :
  keep_rows (map (fun x => true && (x =? k)) t) t
  = replicate (length (filter (fun b => b = true)
                         (map (fun x => true && (x =? k)) t))) k.
Proof.
  induction t as [|x t IH]; [reflexivity|].
  cbn [map keep_rows andb]. rewrite filter_cons.
  destruct (Z.eqb_spec x k) as [->|Hne].
  - rewrite decide_True by reflexivity. cbn [length replicate]. f_equal. exact IH.
  - rewrite decide_False by discriminate. exact IH.
Qed.

Lemma mask_hits (t : list Z) (k : Z) :
  k ∈ t ->
  (0 < length (filter (fun b => b = true)
                 (map (fun x => true && (x =? k)%Z) t)))%nat.
Proof.
  induction t as [|x t IH]; intros Hin; [apply elem_of_nil in Hin as []|].
  cbn [map andb]. rewrite filter_cons.
  destruct (Z.eqb_spec x k) as [->|Hne].
  - rewrite decide_True by reflexivity. cbn [length]. lia.
  - rewrite decide_False by discriminate.
    apply elem_of_cons in Hin as [->|Hin]; [contradiction|auto].
Qed.

Lemma groupby_table_int (df : DataFrame) t :
  select df "table" = [ColInt t] ->
  groupby_table df
  = inr (map (fun k => rows_of (map (fun x => true && (x =? k)) t) df)
             (sorted_keys Z.leb Z.eqb (fun _ => true) t)).
Proof.
  intros Hs. unfold groupby_table. rewrite Hs. cbn [group_masks]. unfold masks.
  rewrite map_map. reflexivity.
Qed.

(** X15: grouping a frame by an int64 [table] column loses no row and
    repeats none: the rows of the groups, taken together, are the rows
    of the frame, each with all its values. *)
Theorem groupby_table_partition (df : DataFrame) t n :
  select df "table" = [ColInt t] ->
  Shape.nrows df n ->
  exists gs,
    groupby_table df = inr gs
    /\ concat (map (fun g => Shape.rows (Shape.frame_len g) g) gs)
       ≡ₚ Shape.rows n df.
Proof.
  intros Hs Hn. pose proof (table_column_length df t n Hs Hn) as Hlen.
  eexists. split; [apply groupby_table_int, Hs|].
  assert (Hne : df <> []) by (intros ->; discriminate Hs).
  set (keys := sorted_keys Z.leb Z.eqb (fun _ => true) t).
  rewrite map_map.
  assert (Heq : map (fun k => Shape.rows
                         (Shape.frame_len (rows_of (map (fun x => true && (x =? k)) t) df))
                         (rows_of (map (fun x => true && (x =? k)) t) df)) keys
                = map (fun k => snd <$> filter (fun p => p.1 = k)
                                          (zip t (Shape.rows n df))) keys).
  { apply map_ext. intros k.
    assert (Hm : length (map (fun x => true && (x =? k)) t) = n)
      by (rewrite length_map; exact Hlen).
    rewrite frame_len_rows_of by (rewrite ?Hm; assumption).
    rewrite rows_rows_of by (rewrite Hm; exact Hn).
    rewrite Hm. apply keep_rows_zip. }
  rewrite Heq, concat_map_fmap.
  rewrite concat_filter_keys.
  - rewrite snd_zip; [reflexivity|]. rewrite rows_length. lia.
  - apply sorted_keys_nodup.
  - intros [x r] Hp. apply elem_of_zip_l in Hp. apply sorted_keys_elem, Hp.
Qed.

(** X16: the groups of a frame by an int64 [table] column come one per
    value of the column, in ascending order of the value; each group
    has the labels of the frame, at least one row, the one value all
    the way down its [table] column, and its rows in the order they
    have in the frame. *)
Theorem groupby_table_groups (df : DataFrame) t n :
  select df "table" = [ColInt t] ->
  Shape.nrows df n ->
  exists keys gs,
    groupby_table df = inr gs
    /\ StronglySorted Z.lt keys
    /\ (forall x, x ∈ keys <-> x ∈ t)
    /\ Forall2 (fun k g =>
         labels g = labels df
         /\ (0 < Shape.frame_len g)%nat
         /\ Shape.nrows g (Shape.frame_len g)
         /\ select g "table" = [ColInt (replicate (Shape.frame_len g) k)]
         /\ Shape.rows (Shape.frame_len g) g `sublist_of` Shape.rows n df)
       keys gs.
Proof.
  intros Hs Hn. pose proof (table_column_length df t n Hs Hn) as Hlen.
  assert (Hne : df <> []) by (intros ->; discriminate Hs).
  exists (sorted_keys Z.leb Z.eqb (fun _ => true) t). eexists.
  split; [apply groupby_table_int, Hs|].
  split; [apply sorted_keys_ascending|]. split; [apply sorted_keys_elem|].
  apply Forall2_fmap_r, Forall2_same_length_lookup. split; [reflexivity|].
  intros j k k' Hk Hk'. rewrite Hk in Hk'. injection Hk' as <-.
  unfold compose. cbv beta.
  assert (Hin : k ∈ t) by (apply sorted_keys_elem; eapply list_elem_of_lookup_2, Hk).
  set (m := map (fun x => true && (x =? k)) t).
  assert (Hm : length m = n) by (subst m; rewrite length_map; exact Hlen).
  rewrite frame_len_rows_of by (rewrite ?Hm; assumption).
  split; [apply labels_rows_of|]. split; [apply mask_hits, Hin|].
  split; [apply nrows_rows_of; rewrite Hm; exact Hn|]. split.
  - rewrite select_rows_of, Hs. cbn [map take]. subst m.
    rewrite <- keep_rows_key. reflexivity.
  - rewrite rows_rows_of by (rewrite Hm; exact Hn). rewrite Hm.
    apply keep_rows_sublist.
Qed.

End SplitterClaims.

(** ** The splitter and the normaliser together *)

Section GroupsNormalise.
Import Program.
Context (L : Lib) {P : Type}.

Lemma time_columns_rows_of (m : list bool) (df : DataFrame) :
  Shape.time_columns (rows_of m df) = map (take m) (Shape.time_columns df).
Proof.
  unfold Shape.time_columns.
  pose proof (filter_rows_of (fun l => l = "_time" \/ l = "time") m df) as Hf.
  cbv beta in Hf. rewrite Hf. unfold rows_of. rewrite <- !list_fmap_compose.
  apply list_fmap_ext. intros _ [k' c] _. reflexivity.
Qed.

Lemma warnings_labels {Q : Type} (d d' : DataFrame) :
  labels d = labels d' -> warnings (P:=Q) d = warnings d'.
Proof. intros H. unfold warnings, has_label. rewrite H. reflexivity. Qed.

Lemma select_cols (df : DataFrame) k n :
  Shape.nrows df n -> Forall (fun c => col_len c = n) (select df k).
Proof.
  intros H. apply Forall_forall. intros c Hc. apply select_elem in Hc.
  unfold Shape.nrows in H. rewrite Forall_forall in H. exact (H _ Hc).
Qed.

Lemma Forall_keep_rows {A} (Q : A -> Prop) (m : list bool) (l : list A) :
  Forall Q l -> Forall Q (keep_rows m l).
Proof.
  intros H. revert m. induction H as [|x l Hx _ IH]; intros [|b m];
    cbn [keep_rows]; try constructor.
  destruct b; [constructor; [exact Hx|apply IH]|apply IH].
Qed.

(** The rows a mask selects have their times within int64 when the
    frame has. *)
Lemma within_int64_rows_of (z : zoneinfo) (m : list bool) (df : DataFrame) :
  within_int64 z df -> within_int64 z (rows_of m df).
Proof.
  unfold within_int64. rewrite !instants_time_columns, time_columns_rows_of.
  induction (Shape.time_columns df) as [|c cs IH]; cbn [map concat];
    [constructor|].
  intros H. apply Forall_app in H as [Hc Hcs].
  apply Forall_app. split; [|exact (IH Hcs)].
  destruct c; cbn [take]; try constructor. apply Forall_keep_rows, Hc.
Qed.

(** A group of a well-formed frame is a frame the normaliser accepts. *)
Lemma group_accepted (df : DataFrame) t k tz :
  Shape.well_formed df -> select df "table" = [ColInt t] -> k ∈ t ->
  is_Some (pandas_zone L tz) ->
  Shape.accepted L (rows_of (map (fun x => true && (x =? k)) t) df) tz.
Proof.
  intros (_ & [n Hn] & Hbook & z0 & v & Ht) Hs Hk Hz.
  pose proof (table_column_length df t n Hs Hn) as Hlen.
  set (m := map (fun x => true && (x =? k)) t).
  assert (Hm : length m = n) by (subst m; rewrite length_map; exact Hlen).
  assert (Hpos : forall l, Forall (fun c => (0 < col_len c)%nat)
                             (select (rows_of m df) l)).
  { intros l. rewrite select_rows_of. apply Forall_fmap.
    eapply Forall_impl; [apply (select_cols df l n Hn)|].
    intros c Hc. cbn [compose]. rewrite take_len by (rewrite Hm; exact Hc).
    apply mask_hits, Hk. }
  split; [rewrite labels_rows_of; exact Hbook|].
  split; [apply Forall_app; split; apply Hpos|].
  split; [exact Hz|].
  rewrite time_columns_rows_of, Ht. cbn [map take]. eauto.
Qed.

Lemma group_normalises (df : DataFrame) t k tz z :
  Shape.well_formed df -> select df "table" = [ColInt t] -> k ∈ t ->
  pandas_zone L tz = Some z -> within_int64 z df ->
  exists id,
    processInfluxDF (P:=P) L (rows_of (map (fun x => true && (x =? k)) t) df) tz
    = (warnings df,
       Return (id, Shape.retimed z (rows_of (map (fun x => true && (x =? k)) t) df))).
Proof.
  intros Hwf Hs Hk Hz Hwithin.
  destruct (processInfluxDF_accepted L (P:=P) _ tz z
              (group_accepted df t k tz Hwf Hs Hk (mk_is_Some _ _ Hz)) Hz
              (within_int64_rows_of z _ df Hwithin))
    as (m & i & _ & _ & Hrun).
  exists (m +:+ "_" +:+ i). rewrite Hrun. f_equal.
  apply warnings_labels, labels_rows_of.
Qed.

(** X17: every group of a well-formed frame whose times stay within
    int64 in the output zone normalises, when pandas knows the zone:
    the splitter never hands the normaliser a table without rows. Each
    group's table is its own conversion, and the warning is printed for
    each group when the frame has an [err] label. *)
Theorem groups_normalise (df : DataFrame) tz z :
  Shape.well_formed df ->
  pandas_zone L tz = Some z ->
  within_int64 z df ->
  exists gs,
    groupby_table df = inr gs
    /\ Forall (fun g => exists id,
                 processInfluxDF (P:=P) L g tz
                 = (warnings df, Return (id, Shape.retimed z g))) gs.
Proof.
  intros Hwf Hz Hwithin. pose proof Hwf as ([t Hs] & _).
  eexists. split; [apply groupby_table_int, Hs|].
  apply Forall_fmap, Forall_forall. intros k Hk.
  apply (proj1 (sorted_keys_elem t k)) in Hk. cbn [compose].
  apply (group_normalises df t k tz z Hwf Hs Hk Hz Hwithin).
Qed.

End GroupsNormalise.

(** ** The program as a whole *)

Section Quiet.
Context {P : Type}.

Lemma written_app (ev ev' : list (event P)) :
  written (ev ++ ev') = written ev ++ written ev'.
Proof. unfold written. apply omap_app. Qed.

Lemma quiet_bind {A B} (m : M P A) (f : A -> M P B) :
  Shape.writes_nothing m -> (forall a, Shape.writes_nothing (f a)) ->
  Shape.writes_nothing (Py.bind m f).
Proof.
  unfold Shape.writes_nothing. destruct m as [ev [a|e|c]]; cbn [Py.bind fst];
    intros Hm Hf; try exact Hm.
  specialize (Hf a). destruct (f a) as [ev' r]. cbn [fst] in *.
  rewrite written_app, Hm, Hf. reflexivity.
Qed.

Lemma quiet_silent {A} (m : M P A) : m.1 = [] -> Shape.writes_nothing m.
Proof. unfold Shape.writes_nothing. intros ->. reflexivity. Qed.

Lemma quiet_lift {A} (r : exc + A) : Shape.writes_nothing (lift (P:=P) r).
Proof. destruct r; reflexivity. Qed.

Lemma quiet_or_raise {A} (o : option A) e :
  Shape.writes_nothing (or_raise (P:=P) o e).
Proof. destruct o; reflexivity. Qed.

Lemma quiet_fold_for {A S} (l : list A) (acc : S) (step : S -> A -> M P S) :
  (forall acc x, Shape.writes_nothing (step acc x)) ->
  Shape.writes_nothing (fold_for l acc step).
Proof.
  intros Hstep. revert acc. induction l as [|x l IH]; intros acc; [reflexivity|].
  cbn [fold_for]. apply quiet_bind; [apply Hstep|apply IH].
Qed.

End Quiet.

Ltac quiet :=
  repeat first
    [ apply quiet_lift | apply quiet_or_raise | reflexivity
    | apply quiet_bind; [|intros] ].

Section ProgramFacts.
Import Program.
Context (L : Lib).

Lemma first_str_quiet {P} (df : DataFrame) k :
  Shape.writes_nothing (first_str (P:=P) L df k).
Proof. unfold first_str. destruct (select df k) as [|c [|c' cs]]; quiet. Qed.

Lemma series_quiet {P} (df : DataFrame) k :
  Shape.writes_nothing (series (P:=P) df k).
Proof. unfold series. destruct (select df k) as [|c [|c' cs]]; quiet. Qed.

Lemma processInfluxDF_quiet {P} (df : DataFrame) tz :
  Shape.writes_nothing (processInfluxDF (P:=P) L df tz).
Proof.
  unfold processInfluxDF.
  apply quiet_bind; [apply first_str_quiet|intros cur_box].
  apply quiet_bind; [apply first_str_quiet|intros cur_id].
  cbv zeta. apply quiet_bind; [apply quiet_lift|intros out1].
  apply quiet_bind; [destruct (has_label out1 "baro_time"); quiet|intros out2].
  apply quiet_bind; [destruct (has_label out2 "err"); quiet|intros out3].
  apply quiet_bind; [apply series_quiet|intros t1].
  apply quiet_bind; [destruct t1; quiet|intros t2].
  apply quiet_bind; [apply series_quiet|intros t3].
  apply quiet_bind;
    [destruct t3; cbn [dt_tz_localize_none]; try destruct (forallb _ _); quiet
    |intros t4].
  apply quiet_bind; [apply series_quiet|intros t5].
  apply quiet_bind; [destruct t5; quiet|intros t6].
  apply quiet_bind; [destruct t6; quiet|intros t7].
  reflexivity.
Qed.

Lemma process_dataframes_quiet (dfs : list DataFrame) tz :
  Shape.writes_nothing (process_dataframes L dfs tz).
Proof.
  apply quiet_fold_for. intros acc df.
  apply quiet_bind; [apply processInfluxDF_quiet|intros [id out]; reflexivity].
Qed.

Lemma loadInfluxClient_quiet {P} (fs : filesystem) path :
  Shape.writes_nothing (loadInfluxClient (P:=P) fs path).
Proof.
  unfold loadInfluxClient, pickle_load, subscript.
  destruct (isfile fs path); [|reflexivity].
  apply quiet_bind; [destruct (fs !! path) as [[| |]|]; reflexivity|intros d].
  quiet.
Qed.

Lemma build_query_silent {P} (args : Args) :
  (build_query (P:=P) L args).1 = [].
Proof.
  unfold build_query.
  destruct (timezone L (input_zone args)) as [zin|]; [|reflexivity].
  destruct (timezone L (output_zone args)) as [zout|]; [|reflexivity].
  cbn [or_raise]. rewrite !bind_ret_l.
  pose proof (utc_naive_quiet L (P:=P) zin (start_time args)) as [Hqs _].
  pose proof (utc_naive_quiet L (P:=P) zin (end_time args)) as [Hqe _].
  destruct (utc_naive L zin (start_time args)) as [evs [s|e|c]];
    cbn [fst snd] in *; subst evs; try reflexivity.
  destruct (utc_naive L zin (end_time args)) as [eve [e|e|c]];
    cbn [fst snd] in *; subst eve; reflexivity.
Qed.

Lemma split_result_silent {P} (idb_result : response) :
  (split_result (P:=P) idb_result).1 = [].
Proof.
  destruct idb_result as [frames|frame]; [|reflexivity].
  cbn [split_result]. generalize (@nil DataFrame).
  induction frames as [|r frames IH]; intros acc; [reflexivity|].
  cbn [fold_for]. destruct (groupby_table r) as [e|groups]; [reflexivity|].
  cbn [lift]. rewrite !bind_ret_l. apply IH.
Qed.

End ProgramFacts.

Section ProgramClaims.
Import Program.
Context (L : Lib)
        (query_data_frame : InfluxDBClient -> string -> exc + response)
        (repr_bundle : Bundle -> string).

Lemma written_bind_inv {A B} (m : M payload A) (f : A -> M payload B) x :
  Shape.writes_nothing m ->
  x ∈ written (Py.bind m f).1 ->
  exists a, m.2 = Return a /\ x ∈ written (f a).1.
Proof.
  unfold Shape.writes_nothing. destruct m as [ev [a|e|c]]; cbn [Py.bind fst snd];
    intros Hm Hx; try (rewrite Hm in Hx; apply elem_of_nil in Hx as []).
  exists a. split; [reflexivity|].
  destruct (f a) as [ev' r]. cbn [fst] in *.
  rewrite written_app, Hm in Hx. exact Hx.
Qed.

(** X18: [main] writes a file only in its export step, on the bundle
    of a response all of whose tables were normalised: a run in which
    the credentials, the arguments, the query, the splitting or a
    table fails has written nothing when it fails. *)
Theorem main_writes_after_normalising (fs : filesystem) (args : Args) file :
  file ∈ written (main L query_data_frame repr_bundle fs args).1 ->
  exists client q resp dfs out_df,
    (loadInfluxClient (P:=payload) fs (creds args)).2 = Return client
    /\ (build_query (P:=payload) L args).2 = Return q
    /\ query_data_frame client q = inr resp
    /\ (split_result (P:=payload) resp).2 = Return dfs
    /\ (process_dataframes L dfs (output_zone args)).2 = Return out_df
    /\ file ∈ written (create_output out_df (output_file args)).1.
Proof.
  unfold main. intros H.
  apply written_bind_inv in H as (client & Hload & H);
    [|apply loadInfluxClient_quiet].
  apply written_bind_inv in H as (q & Hq & H);
    [|apply quiet_silent, build_query_silent].
  apply written_bind_inv in H as (_ & _ & H); [|reflexivity].
  apply written_bind_inv in H as (_ & _ & H); [|reflexivity].
  apply written_bind_inv in H as (resp & Hresp & H); [|apply quiet_lift].
  apply written_bind_inv in H as (dfs & Hsplit & H);
    [|apply quiet_silent, split_result_silent].
  apply written_bind_inv in H as (out_df & Hproc & H);
    [|apply process_dataframes_quiet].
  apply written_bind_inv in H as (_ & _ & H); [|reflexivity].
  apply written_bind_inv in H as (_ & _ & H); [|reflexivity].
  exists client, q, resp, dfs, out_df.
  split; [exact Hload|]. split; [exact Hq|]. split.
  - destruct (query_data_frame client q) as [e|r]; [discriminate|].
    injection Hresp as ->. reflexivity.
  - split; [exact Hsplit|]. split; [exact Hproc|exact H].
Qed.

Lemma processInfluxDF_no_rows {P} (df : DataFrame) tz :
  Shape.nrows df 0 ->
  processInfluxDF (P:=P) L df tz
  = ([], Raise (if has_label df "_measurement" then IndexError
                else KeyError "_measurement")).
Proof.
  intros Hn. unfold processInfluxDF, first_str.
  pose proof (select_cols df "_measurement" 0%nat Hn) as Hc.
  pose proof (select_nonempty df "_measurement") as Hl.
  destruct (has_label df "_measurement") eqn:E.
  - apply has_label_true in E. apply Hl in E.
    destruct (select df "_measurement") as [|c [|c' cs]]; [contradiction| |].
    + apply Forall_cons in Hc as [Hc _]. rewrite (col_head_empty c Hc). reflexivity.
    + apply Forall_cons in Hc as [Hc _]. cbn [mapM]. rewrite (col_head_empty c Hc).
      reflexivity.
  - apply has_label_false in E. rewrite (select_absent df _ E). reflexivity.
Qed.

(** X19: when the database answers with one frame that has no rows,
    as it does when nothing matches the query, [main] prints the query
    and then fails in the normaliser: with [KeyError] when the frame has
    no [_measurement] label, with [IndexError] otherwise. Nothing is
    previewed and nothing is written. *)
Theorem main_empty_response (fs : filesystem) (args : Args) client q df :
  loadInfluxClient (P:=payload) fs (creds args) = ([], Return client) ->
  build_query (P:=payload) L args = ([], Return q) ->
  query_data_frame client q = inr (Single df) ->
  Shape.nrows df 0 ->
  main L query_data_frame repr_bundle fs args
  = ([Print RUNNING; Print (q +:+ nl)],
     Raise (if has_label df "_measurement" then IndexError
            else KeyError "_measurement")).
Proof.
  intros Hload Hq Hresp Hn. unfold main.
  change (loadInfluxClient (P:=payload) fs (creds args) = ret client) in Hload.
  change (build_query (P:=payload) L args = ret q) in Hq.
  rewrite Hload, bind_ret_l, Hq, bind_ret_l, Hresp.
  cbn [lift]. rewrite bind_ret_l. cbn [split_result]. rewrite bind_ret_l.
  unfold process_dataframes. cbn [fold_for].
  rewrite (processInfluxDF_no_rows df _ Hn). reflexivity.
Qed.

Lemma all_run (tz : string) (dfs : list DataFrame) :
  Forall (fun g => exists ev res,
            processInfluxDF (P:=payload) L g tz = (ev, Return res)
            /\ Forall (fun e => e = Print WARNING) ev) dfs ->
  exists runs, Forall2 (ran L tz) dfs runs
               /\ Forall (fun e => e = Print WARNING) (concat runs.*1).
Proof.
  induction 1 as [|g dfs (ev & res & Hrun & Hev) _ (runs & Hall & Hw)].
  - exists []. split; constructor.
  - exists ((ev, res) :: runs). split; [constructor; assumption|].
    rewrite fmap_cons. cbn [concat fst]. apply Forall_app. auto.
Qed.

Lemma split_well_formed (frames : list DataFrame) :
  Forall Shape.well_formed frames ->
  split_result (P:=payload) (Several frames) = ret (Shape.all_groups frames).
Proof.
  intros Hwf. cbn [split_result].
  change (Shape.all_groups frames) with ([] ++ Shape.all_groups frames).
  generalize (@nil DataFrame).
  induction Hwf as [|df frames Hdf _ IH]; intros acc.
  - unfold Shape.all_groups. cbn [map concat fold_for]. rewrite app_nil_r.
    reflexivity.
  - cbn [fold_for]. pose proof Hdf as ([t Hs] & _).
    unfold Shape.all_groups in *. cbn [map concat].
    rewrite (groupby_table_int df t Hs). cbn [lift]. rewrite !bind_ret_l.
    rewrite IH, app_assoc. reflexivity.
Qed.

Lemma all_groups_run (frames : list DataFrame) tz z :
  Forall Shape.well_formed frames -> pandas_zone L tz = Some z ->
  Forall (within_int64 z) frames ->
  Forall (fun g => exists ev res,
            processInfluxDF (P:=payload) L g tz = (ev, Return res)
            /\ Forall (fun e => e = Print WARNING) ev)
         (Shape.all_groups frames).
Proof.
  intros Hwf Hz Hwithin. unfold Shape.all_groups.
  induction Hwf as [|df frames Hdf _ IH]; [constructor|].
  apply Forall_cons in Hwithin as [Hin Hwithin].
  cbn [map concat]. apply Forall_app. split; [|exact (IH Hwithin)].
  pose proof Hdf as ([t Hs] & _). rewrite (groupby_table_int df t Hs).
  apply Forall_fmap, Forall_forall. intros k Hk.
  apply (proj1 (sorted_keys_elem t k)) in Hk. cbn [compose].
  destruct (group_normalises L (P:=payload) df t k tz z Hdf Hs Hk Hz Hin)
    as [id Hrun].
  eexists _, _. split; [exact Hrun|].
  unfold warnings. destruct (has_label df "err"); repeat constructor.
Qed.

(** X20: when the credentials load, the query is built, pandas knows
    the output zone as well, and the database answers with a list of
    well-formed frames whose times stay within int64 in that zone,
    [main] reaches the export: it prints the query, then what the
    normaliser prints for the groups of the frames, which is nothing
    but warning lines, then the preview of the bundle of these groups,
    and it ends as the export of that bundle does. *)
Theorem main_completes (fs : filesystem) (args : Args) client q frames z :
  loadInfluxClient (P:=payload) fs (creds args) = ([], Return client) ->
  build_query (P:=payload) L args = ([], Return q) ->
  query_data_frame client q = inr (Several frames) ->
  pandas_zone L (output_zone args) = Some z ->
  Forall Shape.well_formed frames ->
  Forall (within_int64 z) frames ->
  exists warned out_df,
    process_dataframes L (Shape.all_groups frames) (output_zone args)
    = (warned, Return out_df)
    /\ Forall (fun e => e = Print WARNING) warned
    /\ main L query_data_frame repr_bundle fs args
       = ([Print RUNNING; Print (q +:+ nl)] ++ warned
          ++ [Print PREVIEWING; Print (repr_bundle out_df)]
          ++ (create_output out_df (output_file args)).1,
          (create_output out_df (output_file args)).2).
Proof.
  intros Hload Hq Hresp Hz Hwf Hwithin.
  pose proof (split_well_formed frames Hwf) as Hsplit.
  destruct (all_run _ _ (all_groups_run frames _ z Hwf Hz Hwithin))
    as (runs & Hall & Hw).
  exists (concat runs.*1), (collect runs.*2 []).
  pose proof (process_dataframes_collect L _ runs _ Hall []) as Hproc.
  split; [exact Hproc|]. split; [exact Hw|].
  unfold main.
  change (loadInfluxClient (P:=payload) fs (creds args) = ret client) in Hload.
  change (build_query (P:=payload) L args = ret q) in Hq.
  rewrite Hload, bind_ret_l, Hq, bind_ret_l, Hresp.
  cbn [lift]. rewrite bind_ret_l, Hsplit, bind_ret_l.
  unfold process_dataframes in *. rewrite Hproc, bind_returned.
  rewrite !bind_print. reflexivity.
Qed.

End ProgramClaims.

Section SingleFrame.
Import Program.
Context (L : Lib)
        (query_data_frame : InfluxDBClient -> string -> exc + response)
        (repr_bundle : Bundle -> string).

(** X21: a response that is one frame is not split by its table index:
    when the frame has what the normaliser needs and its times stay
    within int64 in the output zone, all its rows go into one table,
    under the identifier its first row shows, whatever series the other
    rows belong to; [main] previews and exports a bundle of that one
    entry. *)
Theorem main_single_frame_not_split (fs : filesystem) (args : Args) client q df z :
  loadInfluxClient (P:=payload) fs (creds args) = ([], Return client) ->
  build_query (P:=payload) L args = ([], Return q) ->
  query_data_frame client q = inr (Single df) ->
  Shape.accepted L df (output_zone args) ->
  pandas_zone L (output_zone args) = Some z ->
  within_int64 z df ->
  exists m i,
    first_str (P:=payload) L df "_measurement" = ret m
    /\ first_str (P:=payload) L df "id" = ret i
    /\ let out_df := [(m +:+ "_" +:+ i, Shape.retimed z df)] in
       main L query_data_frame repr_bundle fs args
       = ([Print RUNNING; Print (q +:+ nl)] ++ warnings df
          ++ [Print PREVIEWING; Print (repr_bundle out_df)]
          ++ (create_output out_df (output_file args)).1,
          (create_output out_df (output_file args)).2).
Proof.
  intros Hload Hq Hresp Hacc Hz Hwithin.
  destruct (processInfluxDF_accepted L (P:=payload) df _ z Hacc Hz Hwithin)
    as (m & i & Hm & Hi & Hrun).
  exists m, i. split; [exact Hm|]. split; [exact Hi|]. cbv zeta.
  assert (Hproc : process_dataframes L [df] (output_zone args)
                  = (warnings df,
                     Return [(m +:+ "_" +:+ i, Shape.retimed z df)])).
  { unfold process_dataframes. cbn [fold_for]. rewrite Hrun.
    cbn [Py.bind ret dict_set app fst snd]. rewrite !app_nil_r. reflexivity. }
  unfold main.
  change (loadInfluxClient (P:=payload) fs (creds args) = ret client) in Hload.
  change (build_query (P:=payload) L args = ret q) in Hq.
  rewrite Hload, bind_ret_l, Hq, bind_ret_l, Hresp.
  cbn [lift]. rewrite bind_ret_l. cbn [split_result]. rewrite bind_ret_l.
  rewrite Hproc, bind_returned, !bind_print. reflexivity.
Qed.

End SingleFrame.


(** ** Instances *)

Lemma csv_export_of_tables_witness :
  exists out_df,
    process_dataframes Sample.lib [Shape.box7_rows; Shape.box8_rows] "Etc/UTC"
    = ([], Return out_df)
    /\ (written (create_output out_df "out/data.csv").1).*1
       = ["out/data_box7_P1.csv"; "out/data_box8_P1.csv"].
Proof.
  destruct (csv_export_of_tables Sample.lib
              [Shape.box7_rows; Shape.box8_rows]
              [([], ("box7_P1", Shape.retimed Sample.utc_zone Shape.box7_rows));
               ([], ("box8_P1", Shape.retimed Sample.utc_zone Shape.box8_rows))]
              "Etc/UTC" "out/data.csv" "out/data")
    as (out_df & Hrun & Hw & Hkeys & _ & _).
  - apply Forall2_cons. split; [reflexivity|].
    apply Forall2_cons. split; [reflexivity|].
    apply Forall2_nil_2.
  - reflexivity.
  - exists out_df. split; [exact Hrun|].
    rewrite Hw.
    transitivity ((fun k => "out/data" +:+ "_" +:+ k +:+ ".csv") <$> out_df.*1);
      [rewrite <- !list_fmap_compose; reflexivity|].
    rewrite Hkeys. reflexivity.
Defined.

Lemma create_output_single_file_witness :
  create_output [("box7_P1", [("time", ColFloat [of_int64 10])]);
                 ("_b_P1", [("time", ColFloat [of_int64 20])])] "out/data.mat"
  = ([WriteFile "out/data.mat" (Mat [("box7_P1", [("time", ColFloat [of_int64 10])])]);
      Print "Saved file out/data.mat successfully. Load in matlab."],
     Return tt)
  /\ create_output [] "data.pickle"
     = ([WriteFile "data.pickle" (Pickle []);
         Print (nl +:+ "Saved file data.pickle successfully. "
                +:+ "Serialized as a dictionary of dataframes.")],
        Return tt).
Proof.
  split.
  - apply (proj1 (create_output_single_file
                    [("box7_P1", [("time", ColFloat [of_int64 10])]);
                     ("_b_P1", [("time", ColFloat [of_int64 20])])]
                    "out/data.mat")).
    + reflexivity.
    + repeat constructor; discriminate.
  - apply (proj2 (create_output_single_file [] "data.pickle")).
    reflexivity.
Defined.

Lemma process_dataframes_stops_at_failure_witness :
  process_dataframes Sample.lib
    ([Sample.df_two] ++ Sample.df_empty :: [Sample.df_late]) "Etc/UTC"
  = ([Print WARNING], Raise IndexError).
Proof.
  apply (process_dataframes_stops_at_failure Sample.lib
           [Sample.df_two]
           [([Print WARNING], ("box7_P1", normalized Sample.utc_zone Sample.df_two))]
           Sample.df_empty [Sample.df_late] "Etc/UTC" [] IndexError).
  - apply Forall2_cons. split; [reflexivity|]. apply Forall2_nil_2.
  - reflexivity.
Defined.

Lemma processInfluxDF_returns_only_if_witness :
  Shape.accepted Sample.lib Sample.df_two "Etc/UTC".
Proof.
  apply (processInfluxDF_returns_only_if Sample.lib (P:=payload)
           Sample.df_two "Etc/UTC" [Print WARNING]
           ("box7_P1", normalized Sample.utc_zone Sample.df_two)).
  reflexivity.
Defined.

Lemma processInfluxDF_accepted_result_witness :
  exists out,
    processInfluxDF (P:=payload) Sample.lib Shape.odd_frame "Etc/UTC"
    = ([], Return ("box7_3", out))
    /\ labels out = ["time"; "value"; "value"]
    /\ select out "time"
       = [ColFloat [unix_seconds (wall Sample.utc_zone 10000000000)]].
Proof.
  destruct (processInfluxDF_accepted_result Sample.lib (P:=payload)
              Shape.odd_frame "Etc/UTC" Sample.utc_zone
              Sample.gmt_plus_5 [10000000000])
    as (m & i & out & Hm & Hi & Hrun & Hlabels & Htime & _).
  - split; [repeat constructor|]. split; [repeat constructor|].
    split; [eexists; reflexivity|]. eexists _, _. reflexivity.
  - reflexivity.
  - sample_bounds.
  - reflexivity.
  - vm_compute in Hm. injection Hm as <-.
    vm_compute in Hi. injection Hi as <-.
    exists out. split; [exact Hrun|]. split; [exact Hlabels|exact Htime].
Defined.


Lemma window_round_trip_witness :
  exists id out times,
    processInfluxDF (P:=payload) Sample.lib Shape.at_start "Etc/GMT+5"
    = (warnings Shape.at_start, Return (id, out))
    /\ select out "time" = [ColFloat times]
    /\ times !! 0%nat
       = Some (unix_seconds (Shape.epoch_ns (mkNaive 2024 3 10 1 30 0 0))).
Proof.
  apply (window_round_trip Sample.lib (P:=payload) Shape.at_start "Etc/GMT+5"
           Sample.gmt_plus_5 "2024-03-10T01:30:00"
           (mkNaive 2024 3 10 1 30 0 0) (mkNaive 2024 3 10 6 30 0 0)
           Sample.utc_zone [1710052200000000000] 0).
  - split; [repeat constructor|]. split; [repeat constructor|].
    split; [eexists; reflexivity|]. eexists _, _. reflexivity.
  - reflexivity.
  - reflexivity.
  - sample_bounds.
  - reflexivity.
  - reflexivity.
  - reflexivity.
  - reflexivity.
  - reflexivity.
Defined.

Lemma groupby_table_partition_witness :
  exists gs,
    Program.groupby_table Shape.two_series = inr gs
    /\ concat (map (fun g => Shape.rows (Shape.frame_len g) g) gs)
       ≡ₚ Shape.rows 4 Shape.two_series.
Proof.
  apply (groupby_table_partition Shape.two_series [1; 0; 1; 0] 4).
  - reflexivity.
  - repeat constructor.
Defined.

Lemma groupby_table_groups_witness :
  exists keys gs,
    Program.groupby_table Shape.two_series = inr gs
    /\ StronglySorted Z.lt keys
    /\ (forall x, x ∈ keys <-> x ∈ [1; 0; 1; 0])
    /\ Forall2 (fun k g =>
         labels g = labels Shape.two_series
         /\ (0 < Shape.frame_len g)%nat
         /\ Shape.nrows g (Shape.frame_len g)
         /\ select g "table" = [ColInt (replicate (Shape.frame_len g) k)]
         /\ Shape.rows (Shape.frame_len g) g `sublist_of` Shape.rows 4 Shape.two_series)
       keys gs.
Proof.
  apply (groupby_table_groups Shape.two_series [1; 0; 1; 0] 4).
  - reflexivity.
  - repeat constructor.
Defined.

Lemma groups_normalise_witness :
  exists gs,
    Program.groupby_table Shape.two_series = inr gs
    /\ Forall (fun g => exists id,
                 processInfluxDF (P:=payload) Sample.lib g "Etc/UTC"
                 = (warnings Shape.two_series,
                    Return (id, Shape.retimed Sample.utc_zone g))) gs.
Proof.
  apply (groups_normalise Sample.lib (P:=payload) Shape.two_series "Etc/UTC"
           Sample.utc_zone).
  - split; [eexists; reflexivity|]. split; [exists 4%nat; repeat constructor|].
    split; [repeat constructor|]. eexists _, _. reflexivity.
  - reflexivity.
  - sample_bounds.
Defined.

Lemma main_writes_after_normalising_witness :
  exists client q resp dfs out_df,
    (loadInfluxClient (P:=payload) Sample.fs "influx-creds.pickle").2 = Return client
    /\ (build_query (P:=payload) Sample.lib Sample.args).2 = Return q
    /\ (inr (Program.Several [Shape.two_series]) : exc + Program.response) = inr resp
    /\ (Program.split_result (P:=payload) resp).2 = Return dfs
    /\ (process_dataframes Sample.lib dfs "Etc/UTC").2 = Return out_df
    /\ ("out/data_box8_P1.csv", Csv (Shape.retimed Sample.utc_zone Shape.box8_rows))
       ∈ written (create_output out_df "out/data.csv").1.
Proof.
  apply (main_writes_after_normalising Sample.lib
           (fun _ _ => inr (Program.Several [Shape.two_series]))
           (fun _ => "{...}") Sample.fs Sample.args).
  vm_compute. right. left.
Defined.

Lemma main_empty_response_witness :
  exists q,
    Program.main Sample.lib (fun _ _ => inr (Program.Single []))
      (fun _ => "{}") Sample.fs Sample.args
    = ([Print Program.RUNNING; Print (q +:+ nl)],
       Raise (KeyError "_measurement")).
Proof.
  eexists.
  eapply (main_empty_response Sample.lib (fun _ _ => inr (Program.Single []))
            (fun _ => "{}") Sample.fs Sample.args _ _ []).
  - reflexivity.
  - reflexivity.
  - reflexivity.
  - constructor.
Defined.

Lemma main_completes_witness :
  exists q warned out_df,
    process_dataframes Sample.lib (Shape.all_groups [Shape.two_series]) "Etc/UTC"
    = (warned, Return out_df)
    /\ Forall (fun e => e = Print WARNING) warned
    /\ Program.main Sample.lib (fun _ _ => inr (Program.Several [Shape.two_series]))
         (fun _ => "{...}") Sample.fs Sample.args
       = ([Print Program.RUNNING; Print (q +:+ nl)] ++ warned
          ++ [Print Program.PREVIEWING; Print "{...}"]
          ++ (create_output out_df "out/data.csv").1,
          (create_output out_df "out/data.csv").2).
Proof.
  eexists.
  eapply (main_completes Sample.lib
            (fun _ _ => inr (Program.Several [Shape.two_series]))
            (fun _ => "{...}") Sample.fs Sample.args _ _ _ Sample.utc_zone).
  - reflexivity.
  - reflexivity.
  - reflexivity.
  - reflexivity.
  - constructor; [|constructor].
    split; [eexists; reflexivity|]. split; [exists 4%nat; repeat constructor|].
    split; [repeat constructor|]. eexists _, _. reflexivity.
  - constructor; [sample_bounds|constructor].
Defined.

Lemma main_single_frame_not_split_witness :
  exists out,
    Program.main Sample.lib (fun _ _ => inr (Program.Single Shape.two_series))
      (fun _ => "{...}") Sample.fs Sample.args
    = ([Print Program.RUNNING; Print (Shape.sample_query +:+ nl);
        Print Program.PREVIEWING; Print "{...}";
        WriteFile "out/data_box8_P1.csv" (Csv out);
        Print "Saved file out/data_box8_P1.csv successfully."],
       Return tt)
    /\ Forall (fun kc => col_len kc.2 = 4%nat) out.
Proof.
  destruct (main_single_frame_not_split Sample.lib
              (fun _ _ => inr (Program.Single Shape.two_series))
              (fun _ => "{...}") Sample.fs Sample.args
              (mkClient "http://localhost:8086" "secret" "paros" 100000000)
              Shape.sample_query Shape.two_series Sample.utc_zone)
    as (m & i & Hm & Hi & Hmain).
  - reflexivity.
  - reflexivity.
  - reflexivity.
  - split; [repeat constructor|]. split; [repeat constructor|].
    split; [eexists; reflexivity|]. eexists _, _. reflexivity.
  - reflexivity.
  - sample_bounds.
  - vm_compute in Hm. injection Hm as <-.
    vm_compute in Hi. injection Hi as <-.
    exists (Shape.retimed Sample.utc_zone Shape.two_series).
    split; [exact Hmain|]. repeat constructor.
Defined.
